(** * Scan lifecycle and threat detection of the PC monitoring system

    A shallow embedding of
      - scanner-agent/src/core/scheduler.py   (ScanScheduler),
      - scanner-agent/src/core/api_client.py  (APIClient),
      - scanner-agent/src/core/config.py      (Config.update_from_server),
      - scanner-agent/src/main.py             (ScannerAgent),
      - api-server/app/services/threat_analyzer.py (ThreatAnalyzer),
    followed by the properties of the specification that concern them.

    Conventions of the embedding.
      - A Python [str] is a [string] with one [ascii] per code point: the
        model covers texts over the code points below 256.
      - The values the programs exchange (JSON bodies, scan payloads, dicts
        typed [Dict[str, Any]]) are [json] values; a number is an integer,
        non-integer numerals are outside the model.
      - A [datetime] is a count of microseconds, a [timedelta] a difference of
        such counts; the range limits of [datetime] are not modelled.
      - Code that reads the clock, talks to the network, calls a collection
        module or logs runs in a state-and-exception monad over a world that
        holds the mutable objects and an oracle for the environment. *)

From Stdlib Require Import ZArith List String Ascii Bool Lia.
From Stdlib Require Import DecimalString.
Import ListNotations.

Local Open Scope string_scope.
Local Open Scope Z_scope.

(** ** Python values *)

Module Py.

#[warnings="-register-all"]
Inductive json : Type :=
| JNull
| JBool (b : bool)
| JInt (n : Z)
| JStr (s : string)
| JArr (l : list json)
| JObj (d : list (string * json)).

(** A dict keeps its keys in insertion order. *)
Definition dict := list (string * json).

(** [bool(v)]: the truth value Python gives to [v]. *)
Definition truthy (v : json) : bool :=
  match v with
  | JNull => false
  | JBool b => b
  | JInt n => negb (n =? 0)
  | JStr s => negb (s =? "")%string
  | JArr l => match l with [] => false | _ => true end
  | JObj d => match d with [] => false | _ => true end
  end.

(** [d.get(k)] as an option: [None] when the key is absent. *)
Fixpoint dict_find (d : dict) (k : string) : option json :=
  match d with
  | [] => None
  | (k', v) :: r => if (k' =? k)%string then Some v else dict_find r k
  end.

(** [d.get(k, default)]. *)
Definition dict_get (d : dict) (k : string) (default : json) : json :=
  match dict_find d k with
  | Some v => v
  | None => default
  end.

(** [k in d]. *)
Definition dict_mem (d : dict) (k : string) : bool :=
  match dict_find d k with
  | Some _ => true
  | None => false
  end.

(** [d[k] = v]: an existing key keeps its place, a new key goes last. *)
Fixpoint dict_set (d : dict) (k : string) (v : json) : dict :=
  match d with
  | [] => [(k, v)]
  | (k', v') :: r =>
      if (k' =? k)%string then (k', v) :: r else (k', v') :: dict_set r k v
  end.

(** [d.update(u)]: the items of [u] are assigned in order. *)
Definition dict_update (d u : dict) : dict :=
  fold_left (fun acc kv => dict_set acc (fst kv) (snd kv)) u d.

(** The integer a number stands for: [bool] is a subclass of [int]. *)
Definition as_number (v : json) : option Z :=
  match v with
  | JBool b => Some (if b then 1 else 0)
  | JInt n => Some n
  | _ => None
  end.

(** [a == b] on values. Numbers compare by value, strings and [None] by
    content, lists item by item, dicts by their items whatever the order. *)
Fixpoint py_eq (a b : json) {struct a} : bool :=
  match a with
  | JNull => match b with JNull => true | _ => false end
  | JBool x =>
      match as_number b with
      | Some n => (if x then 1 else 0) =? n
      | None => false
      end
  | JInt x =>
      match as_number b with
      | Some n => x =? n
      | None => false
      end
  | JStr s => match b with JStr t => (s =? t)%string | _ => false end
  | JArr l =>
      match b with
      | JArr m =>
          (fix go (l m : list json) {struct l} : bool :=
             match l, m with
             | [], [] => true
             | x :: l', y :: m' => py_eq x y && go l' m'
             | _, _ => false
             end) l m
      | _ => false
      end
  | JObj d =>
      match b with
      | JObj e =>
          (List.length d =? List.length e)%nat &&
          (fix all (d : list (string * json)) {struct d} : bool :=
             match d with
             | [] => true
             | (k, v) :: d' =>
                 match dict_find e k with
                 | Some w => py_eq v w && all d'
                 | None => false
                 end
             end) d
      | _ => false
      end
  end.

(** [v in l] for a list [l]. *)
Definition py_in_list (v : json) (l : list json) : bool :=
  existsb (fun x => py_eq x v) l.

(** Characters: [str.lower] on the code points below 256 maps A-Z and the
    Latin-1 capitals (U+00C0-U+00DE but U+00D7) to the letter 32 above. *)
Definition lower_char (c : ascii) : ascii :=
  let n := nat_of_ascii c in
  if ((65 <=? n) && (n <=? 90))%nat then ascii_of_nat (n + 32)
  else if ((192 <=? n) && (n <=? 222) && negb (n =? 215))%nat
       then ascii_of_nat (n + 32)
       else c.

Fixpoint lower (s : string) : string :=
  match s with
  | EmptyString => EmptyString
  | String c r => String (lower_char c) (lower r)
  end.

(** [needle in hay] on strings: substring test. *)
Fixpoint contains (needle hay : string) : bool :=
  String.prefix needle hay ||
  match hay with
  | EmptyString => false
  | String _ r => contains needle r
  end.

(** The one-character strings of [s], as iterating a [str] yields them. *)
Fixpoint chars (s : string) : list json :=
  match s with
  | EmptyString => []
  | String c r => JStr (String c EmptyString) :: chars r
  end.

(** [str(n)] for an integer. *)
Definition str_of_int (n : Z) : string :=
  NilZero.string_of_int (Z.to_int n).

(** Exceptions: the class decides which [except] clause takes it, the
    message is [str(e)]. [KeyboardInterrupt] is the one class modelled that
    does not derive from [Exception]. *)
Inductive exc_class : Type :=
| KeyboardInterrupt
| ClientError          (* aiohttp.ClientError and its subclasses *)
| AttributeError
| TypeError
| KeyError
| OtherException.      (* any other subclass of Exception *)

Record exn : Type := Exn { exn_class : exc_class; exn_msg : string }.

Definition is_exception (e : exn) : bool :=
  match exn_class e with
  | KeyboardInterrupt => false
  | _ => true
  end.

Definition is_client_error (e : exn) : bool :=
  match exn_class e with
  | ClientError => true
  | _ => false
  end.

Definition is_keyboard_interrupt (e : exn) : bool :=
  match exn_class e with
  | KeyboardInterrupt => true
  | _ => false
  end.

(** The outcome of running a piece of code: a value or a raised exception. *)
Inductive outcome (A : Type) : Type :=
| Ret (a : A)
| Raise (e : exn).
Arguments Ret {A} a.
Arguments Raise {A} e.

(** [v.get(k, default)] on an arbitrary value: only a dict has [get]. *)
Definition py_get (v : json) (k : string) (default : json) : outcome json :=
  match v with
  | JObj d => Ret (dict_get d k default)
  | _ => Raise (Exn AttributeError "get")
  end.

(** [v.lower()]: only a string has [lower]. *)
Definition py_lower (v : json) : outcome string :=
  match v with
  | JStr s => Ret (lower s)
  | _ => Raise (Exn AttributeError "lower")
  end.

(** The items [for x in v] runs over: the items of a list, the keys of a
    dict, the characters of a string; other values are not iterable. *)
Definition py_iter (v : json) : outcome (list json) :=
  match v with
  | JArr l => Ret l
  | JObj d => Ret (map (fun kv => JStr (fst kv)) d)
  | JStr s => Ret (chars s)
  | _ => Raise (Exn TypeError "not iterable")
  end.

(** ** The state-and-exception monad *)

Definition M (S A : Type) : Type := S -> outcome A * S.

Definition ret {S A} (a : A) : M S A := fun s => (Ret a, s).

Definition raise {S A} (e : exn) : M S A := fun s => (Raise e, s).

Definition bind {S A B} (m : M S A) (k : A -> M S B) : M S B :=
  fun s =>
    match m s with
    | (Ret a, s') => k a s'
    | (Raise e, s') => (Raise e, s')
    end.

Definition lift {S A} (o : outcome A) : M S A := fun s => (o, s).

Definition get_state {S} : M S S := fun s => (Ret s, s).

Definition modify {S} (f : S -> S) : M S unit := fun s => (Ret tt, f s).

(** [try: m  except <classes matched by handles> as e: handler e]. State
    changes made before the exception was raised stay. *)
Definition try_except {S A} (m : M S A) (handles : exn -> bool)
    (handler : exn -> M S A) : M S A :=
  fun s =>
    match m s with
    | (Ret a, s') => (Ret a, s')
    | (Raise e, s') => if handles e then handler e s' else (Raise e, s')
    end.

Definition when {S} (b : bool) (m : M S unit) : M S unit :=
  if b then m else ret tt.

(** [for x in l: acc = body acc x], stopping at the first exception. *)
Fixpoint foreach {S X A} (l : list X) (acc : A) (body : A -> X -> M S A)
    : M S A :=
  match l with
  | [] => ret acc
  | x :: r => bind (body acc x) (fun acc' => foreach r acc' body)
  end.

End Py.

Export Py.

Declare Scope monad_scope.
Delimit Scope monad_scope with monad.
Notation "x <- m ;; k" := (bind m (fun x => k))
  (at level 61, m at next level, right associativity) : monad_scope.
Notation "m ;;; k" := (bind m (fun _ => k))
  (at level 61, right associativity) : monad_scope.
Local Open Scope monad_scope.

(** More of Python's operators on values. *)

(** ['k' in v]: a key of a dict, an item of a list, a substring of a string;
    other values do not support [in]. *)
Definition py_contains (k : string) (v : json) : outcome bool :=
  match v with
  | JObj d => Ret (dict_mem d k)
  | JArr l => Ret (py_in_list (JStr k) l)
  | JStr s => Ret (contains k s)
  | _ => Raise (Exn TypeError "not a container")
  end.

(** [v['k']]: defined on a dict that has the key. *)
Definition py_getitem (v : json) (k : string) : outcome json :=
  match v with
  | JObj d =>
      match dict_find d k with
      | Some x => Ret x
      | None => Raise (Exn KeyError k)
      end
  | _ => Raise (Exn TypeError "indices")
  end.

(** [timedelta(minutes=v)] in microseconds: [v] has to be a number. *)
Definition timedelta_minutes (v : json) : outcome Z :=
  match as_number v with
  | Some n => Ret (n * 60000000)
  | None => Raise (Exn TypeError "timedelta")
  end.

(** ** The scanner agent *)

Module Agent.

(** core/config.py, the attributes the modelled code reads or writes. The two
    intervals hold whatever the server last sent for them. *)
Record Config : Type := {
  api_base_url : string;
  manager_id : string;
  machine_id : string;
  machine_name : string;
  scan_interval_minutes : json;
  check_interval : json
}.

Definition set_scan_interval_minutes (v : json) (c : Config) : Config :=
  {| api_base_url := api_base_url c; manager_id := manager_id c;
     machine_id := machine_id c; machine_name := machine_name c;
     scan_interval_minutes := v; check_interval := check_interval c |}.

Definition set_check_interval (v : json) (c : Config) : Config :=
  {| api_base_url := api_base_url c; manager_id := manager_id c;
     machine_id := machine_id c; machine_name := machine_name c;
     scan_interval_minutes := scan_interval_minutes c; check_interval := v |}.

(** core/scheduler.py: the two attributes of a ScanScheduler. *)
Record ScanScheduler : Type := {
  last_scan_time : option Z;
  next_scan_time : option Z
}.

(** The aiohttp session attribute of the client. *)
Inductive Session : Type := NoSession | SessionOpen | SessionClosed.

(** What a request meets. A response carries its status, its text and what
    [json.loads] makes of the text ([None] when it raises JSONDecodeError). A
    request that fails raises an [aiohttp.ClientError] ([client_error] true)
    or some other subclass of [Exception]. *)
Record Response : Type := {
  status : Z;
  text : string;
  decoded : option json
}.

Inductive HttpOutcome : Type :=
| Responded (r : Response)
| Failed (client_error : bool) (msg : string).

(** The environment of a run, asked in order: the n-th reading of
    [datetime.now()], the n-th [datetime.utcnow().isoformat()], the outcome of
    the n-th request, of the n-th call of a collection module, and what the
    n-th [asyncio.sleep] raises, if anything. *)
Record Env : Type := {
  env_now : nat -> Z;
  env_utcnow_iso : nat -> string;
  env_http : nat -> HttpOutcome;
  env_scan : nat -> string -> outcome json;
  env_sleep : nat -> option exn
}.

Inductive Level : Type := DEBUG | INFO | WARNING | ERROR.

(** One constructor per logging call of the modelled code, with the values
    its message formats. *)
Inductive LogMsg : Type :=
(* scheduler.py *)
| LNextScheduled (next : option Z)            (* line 21 *)
| LTimeToScan                                 (* line 31 *)
| LScanCompleted (next : option Z)            (* line 39 *)
| LForced                                     (* line 43 *)
| LIntervalUpdated (old new : json)           (* line 72 *)
(* api_client.py *)
| LHttpError (status : Z) (text : string)     (* line 42 *)
| LConnectionError (msg : string)             (* line 50 *)
| LUnexpectedError (msg : string)             (* line 56 *)
| LSendingScan                                (* line 63 *)
| LScanDataSent                               (* line 74 *)
| LSendDataFailed (error : json)              (* line 76 *)
| LCheckingTasks                              (* line 81 *)
| LTasksChecked                               (* line 86 *)
| LCheckTasksFailed (error : json)            (* line 88 *)
| LRegistering                                (* line 93 *)
| LRegistered                                 (* line 104 *)
| LRegisterFailed (error : json)              (* line 106 *)
| LTestingConnection                          (* line 114 *)
| LConnectionOk                               (* line 120 *)
| LConnectionKo                               (* line 123 *)
| LTestConnectionError (msg : string)         (* line 127 *)
| LSessionClosed                              (* line 133 *)
(* main.py *)
| LScanStart                                  (* line 55 *)
| LRunScanner (name : string)                 (* line 67 *)
| LScannerDone (name : string)                (* line 70 *)
| LSendingToApi                               (* line 72 *)
| LScanSent                                   (* line 76 *)
| LViewToken (token : json)                   (* line 79 *)
| LSendScanError (error : json)               (* line 83 *)
| LScanError (msg : string)                   (* line 86 *)
| LTaskRequested                              (* line 94 *)
| LConfigUpdated                              (* line 99 *)
| LCheckForTasksError (msg : string)          (* line 102 *)
| LContinuousStart                            (* line 105 *)
| LStoppedByUser                              (* line 118 *)
| LMainLoopError (msg : string)               (* line 121 *)
| LSingleScan.                                (* line 125 *)

(** The methods whose calls the properties count. *)
Inductive Callee : Type :=
| CallPerformScan
| CallSendScanData
| CallCheckTasks
| CallMarkScanCompleted
| CallScannerScan (name : string).

(** What a run leaves behind, besides the objects it changed. [EvCall] marks
    the entry of a method. *)
Inductive Event : Type :=
| EvLog (l : Level) (m : LogMsg)
| EvCall (c : Callee)
| EvRequest (method url : string) (body : option json)
| EvSleep (delay : json)
| EvSaveConfig (c : Config)
| EvPrintResult (token : json).               (* main.py lines 80-81 *)

(** The world of an agent: the environment, the objects the agent owns (its
    configuration, shared by scheduler and client; the scheduler; the client's
    session; the names of the loaded collection modules in load order; the
    dicts passed by reference), the events so far, newest first, and how many
    times each part of the environment was asked. *)
Record World : Type := {
  w_env : Env;
  w_config : Config;
  w_sched : ScanScheduler;
  w_session : Session;
  w_scanners : list string;
  w_heap : nat -> json;
  w_next_ref : nat;
  w_trace : list Event;
  w_nows : nat;
  w_isos : nat;
  w_https : nat;
  w_scans : nat;
  w_sleeps : nat
}.

Definition with_config (c : Config) (w : World) : World :=
  {| w_env := w_env w; w_config := c; w_sched := w_sched w;
     w_session := w_session w; w_scanners := w_scanners w;
     w_heap := w_heap w; w_next_ref := w_next_ref w; w_trace := w_trace w;
     w_nows := w_nows w; w_isos := w_isos w; w_https := w_https w;
     w_scans := w_scans w; w_sleeps := w_sleeps w |}.

Definition with_sched (s : ScanScheduler) (w : World) : World :=
  {| w_env := w_env w; w_config := w_config w; w_sched := s;
     w_session := w_session w; w_scanners := w_scanners w;
     w_heap := w_heap w; w_next_ref := w_next_ref w; w_trace := w_trace w;
     w_nows := w_nows w; w_isos := w_isos w; w_https := w_https w;
     w_scans := w_scans w; w_sleeps := w_sleeps w |}.

Definition with_session (s : Session) (w : World) : World :=
  {| w_env := w_env w; w_config := w_config w; w_sched := w_sched w;
     w_session := s; w_scanners := w_scanners w;
     w_heap := w_heap w; w_next_ref := w_next_ref w; w_trace := w_trace w;
     w_nows := w_nows w; w_isos := w_isos w; w_https := w_https w;
     w_scans := w_scans w; w_sleeps := w_sleeps w |}.

Definition with_heap (h : nat -> json) (n : nat) (w : World) : World :=
  {| w_env := w_env w; w_config := w_config w; w_sched := w_sched w;
     w_session := w_session w; w_scanners := w_scanners w;
     w_heap := h; w_next_ref := n; w_trace := w_trace w;
     w_nows := w_nows w; w_isos := w_isos w; w_https := w_https w;
     w_scans := w_scans w; w_sleeps := w_sleeps w |}.

Definition with_trace (t : list Event) (w : World) : World :=
  {| w_env := w_env w; w_config := w_config w; w_sched := w_sched w;
     w_session := w_session w; w_scanners := w_scanners w;
     w_heap := w_heap w; w_next_ref := w_next_ref w; w_trace := t;
     w_nows := w_nows w; w_isos := w_isos w; w_https := w_https w;
     w_scans := w_scans w; w_sleeps := w_sleeps w |}.

Definition with_counters (nows isos https scans sleeps : nat) (w : World)
    : World :=
  {| w_env := w_env w; w_config := w_config w; w_sched := w_sched w;
     w_session := w_session w; w_scanners := w_scanners w;
     w_heap := w_heap w; w_next_ref := w_next_ref w; w_trace := w_trace w;
     w_nows := nows; w_isos := isos; w_https := https;
     w_scans := scans; w_sleeps := sleeps |}.

Definition Run (A : Type) : Type := M World A.

(** *** Primitive effects *)

Definition emit (e : Event) : Run unit :=
  modify (fun w => with_trace (e :: w_trace w) w).

Definition log (l : Level) (m : LogMsg) : Run unit := emit (EvLog l m).

(** [datetime.now()] *)
Definition datetime_now : Run Z :=
  fun w =>
    (Ret (env_now (w_env w) (w_nows w)),
     with_counters (S (w_nows w)) (w_isos w) (w_https w) (w_scans w)
       (w_sleeps w) w).

(** [datetime.utcnow().isoformat()] *)
Definition utcnow_isoformat : Run string :=
  fun w =>
    (Ret (env_utcnow_iso (w_env w) (w_isos w)),
     with_counters (w_nows w) (S (w_isos w)) (w_https w) (w_scans w)
       (w_sleeps w) w).

(** [session.request(method, url, json=body)] and the reading of its text. *)
Definition session_request (method url : string) (body : option json)
    : Run Response :=
  fun w =>
    let w' :=
      with_counters (w_nows w) (w_isos w) (S (w_https w)) (w_scans w)
        (w_sleeps w) (with_trace (EvRequest method url body :: w_trace w) w) in
    match env_http (w_env w) (w_https w) with
    | Responded r => (Ret r, w')
    | Failed true msg => (Raise (Exn ClientError msg), w')
    | Failed false msg => (Raise (Exn OtherException msg), w')
    end.

(** [scanner.scan()] of the collection module loaded under [name]. *)
Definition scanner_scan (name : string) : Run json :=
  fun w =>
    (env_scan (w_env w) (w_scans w) name,
     with_counters (w_nows w) (w_isos w) (w_https w) (S (w_scans w))
       (w_sleeps w)
       (with_trace (EvCall (CallScannerScan name) :: w_trace w) w)).

(** [asyncio.sleep(delay)]: the delay is compared with 0 first, which only a
    number supports. *)
Definition asyncio_sleep (delay : json) : Run unit :=
  match as_number delay with
  | None => raise (Exn TypeError "sleep")
  | Some _ =>
      fun w =>
        let w' :=
          with_counters (w_nows w) (w_isos w) (w_https w) (w_scans w)
            (S (w_sleeps w)) (with_trace (EvSleep delay :: w_trace w) w) in
        match env_sleep (w_env w) (w_sleeps w) with
        | None => (Ret tt, w')
        | Some e => (Raise e, w')
        end
  end.

(** A new dict object, and reading and writing one through its reference. *)
Definition alloc (v : json) : Run nat :=
  fun w =>
    let r := w_next_ref w in
    (Ret r,
     with_heap (fun x => if (x =? r)%nat then v else w_heap w x) (S r) w).

Definition deref (r : nat) : Run json := fun w => (Ret (w_heap w r), w).

Definition assign (r : nat) (v : json) : Run unit :=
  modify (fun w =>
    with_heap (fun x => if (x =? r)%nat then v else w_heap w x)
      (w_next_ref w) w).

Definition get_config : Run Config := fun w => (Ret (w_config w), w).

Definition get_sched : Run ScanScheduler := fun w => (Ret (w_sched w), w).

Definition set_last_scan_time (t : option Z) : Run unit :=
  modify (fun w =>
    with_sched {| last_scan_time := t;
                  next_scan_time := next_scan_time (w_sched w) |} w).

Definition set_next_scan_time (t : option Z) : Run unit :=
  modify (fun w =>
    with_sched {| last_scan_time := last_scan_time (w_sched w);
                  next_scan_time := t |} w).


(** The objects a piece of code leaves alone when all it does is log and
    talk to the network. *)
Definition same_objects (w w' : World) : Prop :=
  w_env w' = w_env w /\ w_config w' = w_config w /\
  w_sched w' = w_sched w /\ w_heap w' = w_heap w /\
  w_next_ref w' = w_next_ref w /\ w_scanners w' = w_scanners w /\
  w_nows w' = w_nows w /\ w_isos w' = w_isos w /\
  w_scans w' = w_scans w /\ w_sleeps w' = w_sleeps w.

End Agent.

Import Agent.

(** ** core/scheduler.py *)

Module Scheduler.

(** [_calculate_next_scan] (lines 14-21) *)
Definition _calculate_next_scan : Run unit :=
  s <- get_sched ;;
  match last_scan_time s with
  | None =>
      now <- datetime_now ;;
      set_next_scan_time (Some now)
  | Some last =>
      c <- get_config ;;
      interval <- lift (timedelta_minutes (scan_interval_minutes c)) ;;
      set_next_scan_time (Some (last + interval))
  end ;;;
  s' <- get_sched ;;
  log DEBUG (LNextScheduled (next_scan_time s')).

(** [__init__] (lines 7-12) *)
Definition init : Run unit :=
  set_last_scan_time None ;;;
  set_next_scan_time None ;;;
  _calculate_next_scan.

(** [should_scan] (lines 23-33) *)
Definition should_scan : Run bool :=
  s <- get_sched ;;
  match next_scan_time s with
  | None => ret true
  | Some next =>
      now <- datetime_now ;;
      let should_scan := next <=? now in
      when should_scan (log INFO LTimeToScan) ;;;
      ret should_scan
  end.

(** [mark_scan_completed] (lines 35-39) *)
Definition mark_scan_completed : Run unit :=
  emit (EvCall CallMarkScanCompleted) ;;;
  now <- datetime_now ;;
  set_last_scan_time (Some now) ;;;
  _calculate_next_scan ;;;
  s <- get_sched ;;
  log INFO (LScanCompleted (next_scan_time s)).

(** [force_next_scan] (lines 41-43) *)
Definition force_next_scan : Run unit :=
  now <- datetime_now ;;
  set_next_scan_time (Some now) ;;;
  log INFO LForced.

(** [get_time_until_next_scan] (lines 45-53) *)
Definition get_time_until_next_scan : Run Z :=
  s <- get_sched ;;
  match next_scan_time s with
  | None => ret 0
  | Some next =>
      now <- datetime_now ;;
      if next <=? now then ret 0 else ret (next - now)
  end.

(** [update_interval] (lines 66-72) *)
Definition update_interval (new_interval_minutes : Z) : Run unit :=
  c <- get_config ;;
  let old_interval := scan_interval_minutes c in
  modify (fun w =>
    with_config
      (set_scan_interval_minutes (JInt new_interval_minutes) (w_config w))
      w) ;;;
  _calculate_next_scan ;;;
  log INFO (LIntervalUpdated old_interval (JInt new_interval_minutes)).





(** The reading the next [datetime.now()] gives in [w]. *)
Definition next_reading (w : World) : Z :=
  env_now (w_env w) (w_nows w).






End Scheduler.

(** ** core/api_client.py *)

Module ApiClient.

(** The letter o with an acute accent, U+00F3. *)
Definition o_acute : ascii := "243"%char.

Definition connection_error_prefix : string :=
  "Error de conexi" ++ String o_acute "n: ".

(** [_get_session] (lines 14-21): a session is made when there is none or
    the one there is closed. *)
Definition _get_session : Run Session :=
  modify (fun w =>
    match w_session w with
    | SessionOpen => w
    | _ => with_session SessionOpen w
    end) ;;;
  ret SessionOpen.

(** The three results the primitive builds itself. *)
Definition raw_text_success (response_text : string) : json :=
  JObj [("success", JBool true); ("data", JStr response_text)].

Definition http_failure (st : Z) (response_text : string) : json :=
  JObj [("success", JBool false);
        ("error", JStr ("HTTP " ++ str_of_int st ++ ": " ++ response_text));
        ("status_code", JInt st)].

Definition connection_failure (msg : string) : json :=
  JObj [("success", JBool false);
        ("error", JStr (connection_error_prefix ++ msg))].

Definition unexpected_failure (msg : string) : json :=
  JObj [("success", JBool false);
        ("error", JStr ("Error inesperado: " ++ msg))].

(** [_make_request] (lines 23-60). The body goes with the request only when
    [data] is truthy. *)
Definition _make_request (method endpoint : string) (data : option json)
    : Run json :=
  c <- get_config ;;
  let url := api_base_url c ++ endpoint in
  try_except
    (_get_session ;;;
     let kwargs :=
       match data with
       | Some d => if truthy d then Some d else None
       | None => None
       end in
     response <- session_request method url kwargs ;;
     let response_text := text response in
     if status response =? 200 then
       match decoded response with
       | Some body => ret body
       | None => ret (raw_text_success response_text)
       end
     else
       log ERROR (LHttpError (status response) response_text) ;;;
       ret (http_failure (status response) response_text))
    is_exception
    (fun e =>
       if is_client_error e then
         log ERROR (LConnectionError (exn_msg e)) ;;;
         ret (connection_failure (exn_msg e))
       else
         log ERROR (LUnexpectedError (exn_msg e)) ;;;
         ret (unexpected_failure (exn_msg e))).

(** The identity [send_scan_data] writes into the dict it is given. *)
Definition identity_items (c : Config) : dict :=
  [("manager_id", JStr (manager_id c));
   ("machine_id", JStr (machine_id c));
   ("machine_name", JStr (machine_name c))].

(** [send_scan_data] (lines 62-78). [scan_data] is the reference of the
    caller's dict: [update] changes that very object. *)
Definition send_scan_data (scan_data : nat) : Run json :=
  emit (EvCall CallSendScanData) ;;;
  log INFO LSendingScan ;;;
  c <- get_config ;;
  d <- deref scan_data ;;
  match d with
  | JObj items => assign scan_data (JObj (dict_update items (identity_items c)))
  | _ => raise (Exn AttributeError "update")
  end ;;;
  d' <- deref scan_data ;;
  response <- _make_request "POST" "/scans" (Some d') ;;
  ok <- lift (py_get response "success" JNull) ;;
  (if truthy ok then log INFO LScanDataSent
   else
     err <- lift (py_get response "error" JNull) ;;
     log ERROR (LSendDataFailed err)) ;;;
  ret response.

(** [check_tasks] (lines 80-90) *)
Definition check_tasks : Run json :=
  emit (EvCall CallCheckTasks) ;;;
  log DEBUG LCheckingTasks ;;;
  response <- _make_request "GET" "/agent/check-task" None ;;
  ok <- lift (py_get response "success" JNull) ;;
  (if truthy ok then log DEBUG LTasksChecked
   else
     err <- lift (py_get response "error" JNull) ;;
     log WARNING (LCheckTasksFailed err)) ;;;
  ret response.

(** [register_machine] (lines 92-108) *)
Definition register_machine : Run json :=
  log INFO LRegistering ;;;
  c <- get_config ;;
  let machine_data :=
    JObj [("machine_id", JStr (machine_id c));
          ("machine_name", JStr (machine_name c));
          ("manager_id", JStr (manager_id c))] in
  response <- _make_request "POST" "/machines/register" (Some machine_data) ;;
  ok <- lift (py_get response "success" JNull) ;;
  (if truthy ok then log INFO LRegistered
   else
     err <- lift (py_get response "error" JNull) ;;
     log ERROR (LRegisterFailed err)) ;;;
  ret response.

(** [test_connection] (lines 113-128). [a or b] evaluates [b] only when [a]
    is falsy. *)
Definition test_connection : Run bool :=
  log INFO LTestingConnection ;;;
  try_except
    (response <- _make_request "GET" "/agent/check-task" None ;;
     ok <- lift (py_get response "success" JNull) ;;
     cond <-
       (if truthy ok then ret true
        else
          code <- lift (py_get response "status_code" JNull) ;;
          ret (py_eq code (JInt 401))) ;;
     if cond : bool then
       log INFO LConnectionOk ;;;
       ret true
     else
       log ERROR LConnectionKo ;;;
       ret false)
    is_exception
    (fun e =>
       log ERROR (LTestConnectionError (exn_msg e)) ;;;
       ret false).

(** [close] (lines 130-133) *)
Definition close : Run unit :=
  fun w =>
    match w_session w with
    | SessionOpen =>
        (Ret tt,
         with_trace (EvLog DEBUG LSessionClosed :: w_trace w)
           (with_session SessionClosed w))
    | _ => (Ret tt, w)
    end.


(** What the primitive returns for each outcome of the request, read off
    [_make_request]. *)
Definition request_result (o : HttpOutcome) : json :=
  match o with
  | Responded r =>
      if status r =? 200 then
        match decoded r with
        | Some body => body
        | None => raw_text_success (text r)
        end
      else http_failure (status r) (text r)
  | Failed true msg => connection_failure msg
  | Failed false msg => unexpected_failure msg
  end.

(** The outcome the next request of a world meets. *)
Definition next_outcome (w : World) : HttpOutcome :=
  env_http (w_env w) (w_https w).

(** A tagged result: a dict whose ['success'] is a boolean. *)
Definition tagged (r : json) : bool :=
  match r with
  | JObj d =>
      match dict_find d "success" with
      | Some (JBool _) => true
      | _ => false
      end
  | _ => false
  end.

(** The check every caller makes of a result: [response.get('success')]. *)
Definition success_check (r : json) : outcome bool :=
  match py_get r "success" JNull with
  | Ret v => Ret (truthy v)
  | Raise e => Raise e
  end.



(** The keys [send_scan_data] assigns. *)
Definition identity_key (k : string) : bool :=
  ((k =? "manager_id") || (k =? "machine_id") || (k =? "machine_name"))%string.

End ApiClient.

(** ** core/config.py: [Config.update_from_server] *)

Module ConfigOps.

(** [save_config] (lines 64-84) rewrites the configuration file and keeps
    every failure of that to itself. *)
Definition save_config : Run unit :=
  c <- get_config ;;
  emit (EvSaveConfig c).

(** [update_from_server] (lines 86-100) *)
Definition update_from_server (server_config : json) : Run unit :=
  has_scan <- lift (py_contains "scan_interval_minutes" server_config) ;;
  updated1 <-
    (if has_scan : bool then
       v <- lift (py_getitem server_config "scan_interval_minutes") ;;
       c <- get_config ;;
       if negb (py_eq (scan_interval_minutes c) v) then
         modify (fun w => with_config (set_scan_interval_minutes v (w_config w)) w) ;;;
         ret true
       else ret false
     else ret false) ;;
  has_check <- lift (py_contains "check_interval" server_config) ;;
  updated2 <-
    (if has_check : bool then
       v <- lift (py_getitem server_config "check_interval") ;;
       c <- get_config ;;
       if negb (py_eq (check_interval c) v) then
         modify (fun w => with_config (set_check_interval v (w_config w)) w) ;;;
         ret true
       else ret updated1
     else ret updated1) ;;
  when updated2 save_config.

End ConfigOps.

(** ** main.py: the ScannerAgent *)

Module Orchestrator.

(** The dict [perform_scan] starts from (lines 57-63). *)
Definition new_scan_data (timestamp : string) (c : Config) : json :=
  JObj [("timestamp", JStr timestamp);
        ("machine_id", JStr (machine_id c));
        ("manager_id", JStr (manager_id c));
        ("scan_type", JStr "full");
        ("data", JObj [])].

(** [scan_data['data'][scanner_name] = scanner_data] (line 69) on the dict
    behind the reference. *)
Definition store_scanner_data (scan_data : nat) (scanner_name : string)
    (scanner_data : json) : Run unit :=
  d <- deref scan_data ;;
  inner <- lift (py_getitem d "data") ;;
  match d, inner with
  | JObj items, JObj entries =>
      assign scan_data
        (JObj (dict_set items "data"
                 (JObj (dict_set entries scanner_name scanner_data))))
  | _, _ => raise (Exn TypeError "item assignment")
  end.

(** The body of the loop over the loaded collection modules (lines 67-70). *)
Definition run_scanner (scan_data : nat) (scanner_name : string) : Run unit :=
  log INFO (LRunScanner scanner_name) ;;;
  scanner_data <- scanner_scan scanner_name ;;
  store_scanner_data scan_data scanner_name scanner_data ;;;
  log INFO (LScannerDone scanner_name).

(** The loop itself (line 66). *)
Definition run_scanners (scan_data : nat) (names : list string) : Run unit :=
  foreach names tt (fun _ scanner_name => run_scanner scan_data scanner_name).

(** [perform_scan] (lines 54-87) *)
Definition perform_scan : Run unit :=
  emit (EvCall CallPerformScan) ;;;
  log INFO LScanStart ;;;
  timestamp <- utcnow_isoformat ;;
  c <- get_config ;;
  scan_data <- alloc (new_scan_data timestamp c) ;;
  try_except
    (w <- get_state ;;
     run_scanners scan_data (w_scanners w) ;;;
     log INFO LSendingToApi ;;;
     response <- ApiClient.send_scan_data scan_data ;;
     ok <- lift (py_get response "success" JNull) ;;
     if truthy ok then
       log INFO LScanSent ;;;
       has_token <- lift (py_contains "scan_token" response) ;;
       if has_token : bool then
         token <- lift (py_getitem response "scan_token") ;;
         log INFO (LViewToken token) ;;;
         emit (EvPrintResult token)
       else ret tt
     else
       err <- lift (py_get response "error" (JStr "Error desconocido")) ;;
       log ERROR (LSendScanError err))
    is_exception
    (fun e =>
       log ERROR (LScanError (exn_msg e)) ;;;
       raise e).

(** [check_for_tasks] (lines 89-102) *)
Definition check_for_tasks : Run unit :=
  try_except
    (task_info <- ApiClient.check_tasks ;;
     wanted <- lift (py_get task_info "should_scan" JNull) ;;
     when (truthy wanted)
       (log INFO LTaskRequested ;;;
        perform_scan) ;;;
     has_updates <- lift (py_contains "config_updates" task_info) ;;
     if has_updates : bool then
       updates <- lift (py_getitem task_info "config_updates") ;;
       ConfigOps.update_from_server updates ;;;
       log INFO LConfigUpdated
     else ret tt)
    is_exception
    (fun e => log ERROR (LCheckForTasksError (exn_msg e))).

(** How one pass through the body of [while True] ends. *)
Inductive Pass : Type := Continue | Break.

(** The two [except] clauses of the loop (lines 117-122): which exceptions
    they take and what they do. *)
Definition handles_loop (e : exn) : bool :=
  is_keyboard_interrupt e || is_exception e.

Definition on_loop_error (e : exn) : Run Pass :=
  if is_keyboard_interrupt e then
    log INFO LStoppedByUser ;;;
    ret Break
  else
    log ERROR (LMainLoopError (exn_msg e)) ;;;
    asyncio_sleep (JInt 60) ;;;
    ret Continue.

(** The body of the loop of [run_continuous] (lines 108-122). *)
Definition loop_body : Run Pass :=
  try_except
    (check_for_tasks ;;;
     due <- Scheduler.should_scan ;;
     when due
       (perform_scan ;;;
        Scheduler.mark_scan_completed) ;;;
     c <- get_config ;;
     asyncio_sleep (check_interval c) ;;;
     ret Continue)
    handles_loop
    on_loop_error.

(** [while True] for at most [fuel] passes: [Some tt] when the loop was left
    by [break], [None] when the passes ran out. *)
Fixpoint while_true (fuel : nat) : Run (option unit) :=
  match fuel with
  | O => ret None
  | S n =>
      p <- loop_body ;;
      match p with
      | Break => ret (Some tt)
      | Continue => while_true n
      end
  end.

(** [run_continuous] (lines 104-122) *)
Definition run_continuous (fuel : nat) : Run (option unit) :=
  log INFO LContinuousStart ;;;
  while_true fuel.

(** [run_single_scan] (lines 124-126) *)
Definition run_single_scan : Run unit :=
  log INFO LSingleScan ;;;
  perform_scan.

(** How many times a method was entered in a trace. *)
Definition is_call (c : Callee) (e : Event) : bool :=
  match e, c with
  | EvCall CallPerformScan, CallPerformScan => true
  | EvCall CallSendScanData, CallSendScanData => true
  | EvCall CallCheckTasks, CallCheckTasks => true
  | EvCall CallMarkScanCompleted, CallMarkScanCompleted => true
  | EvCall (CallScannerScan a), CallScannerScan b => (a =? b)%string
  | _, _ => false
  end.

Definition calls (c : Callee) (trace : list Event) : nat :=
  List.length (filter (is_call c) trace).



(** Whether the result of the task check asks for a scan
    ([task_info.get('should_scan')], line 93). *)
Definition forces_scan (task_info : json) : bool :=
  match task_info with
  | JObj d => truthy (dict_get d "should_scan" JNull)
  | _ => false
  end.

(** What the i-th collection module answers when a scan starts in [w]. *)
Definition scan_outcome (w : World) (i : nat) : outcome json :=
  env_scan (w_env w) (w_scans w + i) (nth i (w_scanners w) "").

(** Every collection module returns a payload. *)
Definition modules_succeed (w : World) : Prop :=
  forall i, (i < List.length (w_scanners w))%nat ->
    exists payload, scan_outcome w i = Ret payload.

(** A collection module raises [e], those before it having returned. *)
Definition module_raises (w : World) (e : exn) : Prop :=
  exists i, (i < List.length (w_scanners w))%nat /\
    (forall j, (j < i)%nat -> exists payload, scan_outcome w j = Ret payload) /\
    scan_outcome w i = Raise e.

(** A scan dict: a dict whose ['data'] is a dict. *)
Definition scan_dict (v : json) : Prop :=
  exists items entries,
    v = JObj items /\ dict_find items "data" = Some (JObj entries).


Definition logged_scan_error (trace : list Event) : bool :=
  existsb (fun e => match e with
                    | EvLog ERROR (LScanError _) => true
                    | _ => false
                    end) trace.

(** From [w] to [w'] the trace has grown by events among which there are
    [sends] calls of [send_scan_data] and [marks] calls of
    [mark_scan_completed]. *)
Definition added (w w' : World) (sends marks : nat) : Prop :=
  exists evs,
    w_trace w' = (evs ++ w_trace w)%list /\
    calls CallSendScanData evs = sends /\
    calls CallMarkScanCompleted evs = marks.

(** What every part of a pass but a completed scan keeps: the environment,
    the loaded modules, the scheduler and the readings of the clock taken. *)
Definition kept (w w' : World) : Prop :=
  w_env w' = w_env w /\ w_scanners w' = w_scanners w /\
  w_sched w' = w_sched w /\ w_nows w' = w_nows w /\
  w_sleeps w' = w_sleeps w.

(** The scheduler reports the scan due at the next reading of the clock. *)
Definition due (w : World) : Prop :=
  exists next,
    next_scan_time (w_sched w) = Some next /\
    next <= Scheduler.next_reading w.

End Orchestrator.

(** ** api-server/app/services/threat_analyzer.py *)

Module ThreatAnalyzer.

(** The clock of the server: the n-th reading of [datetime.utcnow()] and the
    number of readings taken. *)
Record Clock : Type := {
  utc : nat -> Z;
  reads : nat
}.

Definition Eval (A : Type) : Type := M Clock A.

Definition datetime_utcnow : Eval Z :=
  fun c => (Ret (utc c (reads c)), {| utc := utc c; reads := S (reads c) |}).

(** An f-string: its literal pieces and the values it formats, in order. *)
Inductive fpart : Type :=
| FText (s : string)
| FValue (v : json).

(** The fields the analyzer gives a [Threat]. *)
Record Threat : Type := {
  machine_id : string;
  threat_type : string;
  description : list fpart;
  evidence : json;
  detected_at : Z
}.

Definition new_threat (machine_id threat_type : string)
    (description : list fpart) (evidence : json) : Eval Threat :=
  now <- datetime_utcnow ;;
  ret {| machine_id := machine_id; threat_type := threat_type;
         description := description; evidence := evidence;
         detected_at := now |}.

(** [__init__] (lines 7-16) *)
Definition suspicious_ports : list json :=
  map JInt [1337; 31337; 4444; 5555; 6666; 7777; 8888; 9999].

Definition malicious_processes : list string :=
  ["netcat"; "nc"; "mimikatz"; "psexec"; "wce"; "fgdump";
   "pwdump"; "gsecdump"; "cachedump"; "lsadump"].

Definition dangerous_extensions : list string :=
  [".exe.pdf"; ".pdf.exe"; ".doc.exe"; ".jpg.exe";
   ".png.exe"; ".txt.exe"; ".scr"; ".pif"; ".bat.exe"].

(** [any(x in s for x in names)] *)
Definition any_in (names : list string) (s : string) : bool :=
  existsb (fun x => contains x s) names.

(** [_analyze_open_ports] (lines 44-68) *)
Definition _analyze_open_ports (machine_id : string) (open_ports : json)
    : Eval (list Threat) :=
  items <- lift (py_iter open_ports) ;;
  foreach items [] (fun threats port_info =>
    port <- lift (py_get port_info "port" JNull) ;;
    name <- lift (py_get port_info "process_name" (JStr "")) ;;
    process_name <- lift (py_lower name) ;;
    threats1 <-
      (if py_in_list port suspicious_ports then
         t <- new_threat machine_id "PUERTO_SOSPECHOSO"
                [FText "Puerto sospechoso "; FValue port;
                 FText " abierto por "; FValue (JStr process_name)]
                port_info ;;
         ret (threats ++ [t])%list
       else ret threats) ;;
    if any_in malicious_processes process_name then
      t <- new_threat machine_id "PROCESO_MALICIOSO"
             [FText "Proceso potencialmente malicioso detectado: ";
              FValue (JStr process_name)]
             port_info ;;
      ret (threats1 ++ [t])%list
    else ret threats1).

(** [_analyze_user_accounts] (lines 70-93) *)
Definition _analyze_user_accounts (machine_id : string) (user_accounts : json)
    : Eval (list Threat) :=
  users <- lift (py_iter user_accounts) ;;
  admin_count <-
    foreach users 0 (fun n user =>
      is_admin <- lift (py_get user "is_admin" (JBool false)) ;;
      ret (if truthy is_admin then n + 1 else n)) ;;
  threats0 <-
    (if 3 <? admin_count then
       t <- new_threat machine_id "EXCESO_ADMINISTRADORES"
              [FText "Demasiadas cuentas de administrador detectadas: ";
               FValue (JInt admin_count)]
              (JObj [("admin_count", JInt admin_count);
                     ("users", user_accounts)]) ;;
       ret [t]
     else ret []) ;;
  foreach users threats0 (fun threats user =>
    required <- lift (py_get user "password_required" (JBool true)) ;;
    if negb (truthy required) then
      username <- lift (py_get user "username" JNull) ;;
      t <- new_threat machine_id "CUENTA_SIN_PASSWORD"
             [FText ("Cuenta sin contrase" ++ String "241"%char "a: ");
              FValue username]
             user ;;
      ret (threats ++ [t])%list
    else ret threats).

(** [_analyze_hosts_file] (lines 95-108) *)
Definition _analyze_hosts_file (machine_id : string) (hosts_data : json)
    : Eval (list Threat) :=
  suspicious_entries <- lift (py_get hosts_data "suspicious_entries" (JArr [])) ;;
  entries <- lift (py_iter suspicious_entries) ;;
  foreach entries [] (fun threats entry =>
    t <- new_threat machine_id "HOSTS_MODIFICADO"
           [FText "Entrada sospechosa en archivo hosts: "; FValue entry]
           hosts_data ;;
    ret (threats ++ [t])%list).

(** [_analyze_security_events] (lines 110-123) *)
Definition _analyze_security_events (machine_id : string)
    (security_events : json) : Eval (list Threat) :=
  events <- lift (py_iter security_events) ;;
  failed_logins <-
    foreach events [] (fun acc event =>
      event_id <- lift (py_get event "event_id" JNull) ;;
      ret (if py_eq event_id (JInt 4625) then (acc ++ [event])%list else acc)) ;;
  let count := Z.of_nat (List.length failed_logins) in
  if 10 <? count then
    t <- new_threat machine_id "MULTIPLES_INTENTOS_LOGIN"
           [FText ("M" ++ String "250"%char
                     "ltiples intentos de login fallidos detectados: ");
            FValue (JInt count)]
           (JObj [("failed_login_count", JInt count);
                  ("events", JArr (firstn 5 failed_logins))]) ;;
    ret [t]
  else ret [].

(** [_analyze_recent_files] (lines 125-140) *)
Definition _analyze_recent_files (machine_id : string) (recent_files : json)
    : Eval (list Threat) :=
  files <- lift (py_iter recent_files) ;;
  foreach files [] (fun threats file_info =>
    name <- lift (py_get file_info "name" (JStr "")) ;;
    file_name <- lift (py_lower name) ;;
    if any_in dangerous_extensions file_name then
      t <- new_threat machine_id "ARCHIVO_SOSPECHOSO"
             [FText ("Archivo con extensi" ++ String "243"%char
                       "n sospechosa: ");
              FValue (JStr file_name)]
             file_info ;;
      ret (threats ++ [t])%list
    else ret threats).

(** [_analyze_scheduled_tasks] (lines 142-158) *)
Definition _analyze_scheduled_tasks (machine_id : string)
    (scheduled_tasks : json) : Eval (list Threat) :=
  tasks <- lift (py_iter scheduled_tasks) ;;
  foreach tasks [] (fun threats task =>
    name <- lift (py_get task "name" (JStr "")) ;;
    task_name <- lift (py_lower name) ;;
    cmd <- lift (py_get task "command" (JStr "")) ;;
    command <- lift (py_lower cmd) ;;
    if any_in malicious_processes command then
      t <- new_threat machine_id "TAREA_MALICIOSA"
             [FText "Tarea programada sospechosa: "; FValue (JStr task_name)]
             task ;;
      ret (threats ++ [t])%list
    else ret threats).

(** [_analyze_environment_variables] (lines 160-178) *)
Definition suspicious_paths : list string :=
  ["temp"; "tmp"; "appdata\local\temp"; "programdata"].

Definition _analyze_environment_variables (machine_id : string)
    (env_vars : json) : Eval (list Threat) :=
  path_var <- lift (py_get env_vars "PATH" (JStr "")) ;;
  foreach suspicious_paths [] (fun threats suspicious_path =>
    lowered <- lift (py_lower path_var) ;;
    if contains suspicious_path lowered then
      t <- new_threat machine_id "PATH_MODIFICADO"
             [FText "PATH contiene ruta sospechosa: ";
              FValue (JStr suspicious_path)]
             (JObj [("path", path_var);
                    ("suspicious_path", JStr suspicious_path)]) ;;
      ret (threats ++ [t])%list
    else ret threats).

(** [scan_data.get(section, {}).get(key, default)] *)
Definition section_get (scan_data : json) (section key : string)
    (default : json) : Eval json :=
  s <- lift (py_get scan_data section (JObj [])) ;;
  lift (py_get s key default).

(** [analyze_scan_data] (lines 18-42) *)
Definition analyze_scan_data (machine_id : string) (scan_data : json)
    : Eval (list Threat) :=
  let threats := [] in
  a <- section_get scan_data "security_scan" "open_ports" (JArr []) ;;
  r <- _analyze_open_ports machine_id a ;;
  let threats := (threats ++ r)%list in
  a <- section_get scan_data "security_scan" "user_accounts" (JArr []) ;;
  r <- _analyze_user_accounts machine_id a ;;
  let threats := (threats ++ r)%list in
  a <- section_get scan_data "security_scan" "hosts_file" (JObj []) ;;
  r <- _analyze_hosts_file machine_id a ;;
  let threats := (threats ++ r)%list in
  a <- section_get scan_data "security_scan" "security_events" (JArr []) ;;
  r <- _analyze_security_events machine_id a ;;
  let threats := (threats ++ r)%list in
  a <- section_get scan_data "activity_scan" "recent_files" (JArr []) ;;
  r <- _analyze_recent_files machine_id a ;;
  let threats := (threats ++ r)%list in
  a <- section_get scan_data "system_health" "scheduled_tasks" (JArr []) ;;
  r <- _analyze_scheduled_tasks machine_id a ;;
  let threats := (threats ++ r)%list in
  a <- section_get scan_data "system_health" "environment_variables" (JObj []) ;;
  r <- _analyze_environment_variables machine_id a ;;
  let threats := (threats ++ r)%list in
  ret threats.

(** A record without the reading of the clock it was stamped with. *)
Definition unstamped (t : Threat) : string * string * list fpart * json :=
  (machine_id t, threat_type t, description t, evidence t).

(** What a caller of [analyze_scan_data] gets, started at a state of the
    clock: the records or the exception. *)
Definition analyze (c : Clock) (machine_id : string) (scan_data : json)
    : outcome (list Threat) :=
  fst (analyze_scan_data machine_id scan_data c).

(** The same with every record unstamped. *)
Definition unstamped_outcome (o : outcome (list Threat))
    : outcome (list (string * string * list fpart * json)) :=
  match o with
  | Ret ts => Ret (map unstamped ts)
  | Raise e => Raise e
  end.

(** How many records of a list carry a given type. *)
Definition count_type (ty : string) (ts : list Threat) : nat :=
  List.length (filter (fun t => (threat_type t =? ty)%string) ts).


(** The six rules [analyze_scan_data] runs after the port rule, with the
    reading of their sections (lines 25-40). *)
Definition other_rules (machine_id : string) (scan_data : json)
    : Eval (list Threat) :=
  let threats := [] in
  a <- section_get scan_data "security_scan" "user_accounts" (JArr []) ;;
  r <- _analyze_user_accounts machine_id a ;;
  let threats := (threats ++ r)%list in
  a <- section_get scan_data "security_scan" "hosts_file" (JObj []) ;;
  r <- _analyze_hosts_file machine_id a ;;
  let threats := (threats ++ r)%list in
  a <- section_get scan_data "security_scan" "security_events" (JArr []) ;;
  r <- _analyze_security_events machine_id a ;;
  let threats := (threats ++ r)%list in
  a <- section_get scan_data "activity_scan" "recent_files" (JArr []) ;;
  r <- _analyze_recent_files machine_id a ;;
  let threats := (threats ++ r)%list in
  a <- section_get scan_data "system_health" "scheduled_tasks" (JArr []) ;;
  r <- _analyze_scheduled_tasks machine_id a ;;
  let threats := (threats ++ r)%list in
  a <- section_get scan_data "system_health" "environment_variables" (JObj []) ;;
  r <- _analyze_environment_variables machine_id a ;;
  let threats := (threats ++ r)%list in
  ret threats.

(** Two outcomes that agree: the same exception, or values related by [R]. *)
Definition agree {A} (R : A -> A -> Prop) (o1 o2 : outcome A) : Prop :=
  match o1, o2 with
  | Ret a, Ret b => R a b
  | Raise e1, Raise e2 => e1 = e2
  | _, _ => False
  end.

(** Two computations whose outcomes agree whatever the clocks they run on. *)
Definition sim {A} (R : A -> A -> Prop) (m1 m2 : Eval A) : Prop :=
  forall c1 c2, agree R (fst (m1 c1)) (fst (m2 c2)).

(** Records, and lists of records, equal in every field but the stamp. *)
Definition same_record (t1 t2 : Threat) : Prop := unstamped t1 = unstamped t2.

Definition same_records (l1 l2 : list Threat) : Prop :=
  map unstamped l1 = map unstamped l2.

(** A property of the value a computation returns, when it returns. *)
Definition post {A} (Q : A -> Prop) (m : Eval A) : Prop :=
  forall c, match fst (m c) with Ret a => Q a | Raise _ => True end.

(** A record that is neither of a suspicious port nor of a malicious
    process. *)
Definition other_type (t : Threat) : bool :=
  negb (threat_type t =? "PUERTO_SOSPECHOSO")%string
  && negb (threat_type t =? "PROCESO_MALICIOSO")%string.

(** Lists of records none of which is of a suspicious port or of a
    malicious process. *)
Definition others (l : list Threat) : Prop :=
  Forall (fun t => other_type t = true) l.

(** The verdict on an analysis of a payload with one open port: the
    analysis returns records of which [ports] are of a suspicious port and
    [processes] of a malicious process, unless one of the six other rules
    raises on its own section. *)
Definition port_verdict (machine_id : string) (scan_data : json)
    (o : outcome (list Threat)) (ports processes : nat) : Prop :=
  match o with
  | Ret ts =>
      count_type "PUERTO_SOSPECHOSO" ts = ports /\
      count_type "PROCESO_MALICIOSO" ts = processes
  | Raise e => exists c, fst (other_rules machine_id scan_data c) = Raise e
  end.

End ThreatAnalyzer.

(** ** What a trace shows *)

Module Observed.

(** The requests of a trace, newest first: method, URL and body. *)
Fixpoint requests (trace : list Event)
    : list (string * string * option json) :=
  match trace with
  | [] => []
  | EvRequest method url body :: r => (method, url, body) :: requests r
  | _ :: r => requests r
  end.

(** The sleeps of a trace, newest first. *)
Fixpoint sleeps (trace : list Event) : list json :=
  match trace with
  | [] => []
  | EvSleep delay :: r => delay :: sleeps r
  | _ :: r => sleeps r
  end.

(** The configurations written to the file, newest first. *)
Fixpoint saves (trace : list Event) : list Config :=
  match trace with
  | [] => []
  | EvSaveConfig c :: r => c :: saves r
  | _ :: r => saves r
  end.

End Observed.

(** ** What a run keeps *)

Module Frames.

(** A run all of whose steps, from any world, stay within [I]. *)
Definition steps (I : World -> World -> Prop) {A} (m : Run A) : Prop :=
  forall w, I w (snd (m w)).

(** From [w] to [w'] the scheduler is the same and no call of
    [mark_scan_completed] was made. *)
Definition unmarked (w w' : World) : Prop :=
  w_sched w' = w_sched w /\
  Orchestrator.calls CallMarkScanCompleted (w_trace w')
  = Orchestrator.calls CallMarkScanCompleted (w_trace w).

(** A run that leaves the scheduler alone. *)
Definition um {A} (m : Run A) : Prop := steps unmarked m.

(** An environment in which collection modules raise nothing but subclasses
    of [Exception] and no sleep is interrupted. *)
Definition calm (e : Env) : Prop :=
  (forall n name x, env_scan e n name = Raise x -> is_exception x = true) /\
  (forall n, env_sleep e n = None).

(** A run that keeps the environment and, in a calm one, raises nothing but
    subclasses of [Exception]. *)
Definition tame {A} (m : Run A) : Prop :=
  forall w,
    w_env (snd (m w)) = w_env w /\
    (calm (w_env w) ->
     forall e, fst (m w) = Raise e -> is_exception e = true).

(** From [w] to [w'] the configuration is the same and nothing was written
    to its file. *)
Definition settled (w w' : World) : Prop :=
  w_config w' = w_config w /\
  Observed.saves (w_trace w') = Observed.saves (w_trace w).

(** A run that leaves the configuration alone. *)
Definition st {A} (m : Run A) : Prop := steps settled m.

End Frames.

(** ** What the rules of the analyzer find *)

Module Entries.
Import ThreatAnalyzer.

(** A record without its stamp, and its type. *)
Definition Finding : Type := (string * string * list fpart * json)%type.

Definition finding_type (u : Finding) : string := snd (fst (fst u)).

(** How many items of a list pass a test. *)
Definition how_many {A} (p : A -> bool) (l : list A) : nat :=
  List.length (filter p l).

(** A list of dicts, as a value. *)
Definition dicts (es : list dict) : json := JArr (map JObj es).

(** [e.get(k, '').lower()], which is there when the value is a string. *)
Definition text_of (e : dict) (k : string) : option string :=
  match dict_get e k (JStr "") with
  | JStr s => Some (lower s)
  | _ => None
  end.

Definition has_text (e : dict) (k : string) : Prop :=
  exists s, dict_get e k (JStr "") = JStr s.

(** The tests of the rules on one entry: lines 51 and 59, 72, 86, 113, 133
    and 150 of threat_analyzer.py. *)
Definition suspicious_port (e : dict) : bool :=
  py_in_list (dict_get e "port" JNull) suspicious_ports.

Definition names_any (names : list string) (k : string) (e : dict) : bool :=
  match text_of e k with
  | Some s => any_in names s
  | None => false
  end.

Definition is_admin (e : dict) : bool :=
  truthy (dict_get e "is_admin" (JBool false)).

Definition no_password (e : dict) : bool :=
  negb (truthy (dict_get e "password_required" (JBool true))).

Definition failed_login (e : dict) : bool :=
  py_eq (dict_get e "event_id" JNull) (JInt 4625).

(** The records of the port rule for one entry (lines 47-66). *)
Definition port_findings (mid : string) (e : dict) : list Finding :=
  match text_of e "process_name" with
  | Some name =>
      ((if suspicious_port e then
          [(mid, "PUERTO_SOSPECHOSO",
            [FText "Puerto sospechoso "; FValue (dict_get e "port" JNull);
             FText " abierto por "; FValue (JStr name)],
            JObj e)]
        else [])
       ++
       (if any_in malicious_processes name then
          [(mid, "PROCESO_MALICIOSO",
            [FText "Proceso potencialmente malicioso detectado: ";
             FValue (JStr name)],
            JObj e)]
        else []))%list
  | None => []
  end.

(** The record of the account rule for the administrators (lines 72-82)
    and its records for one account (lines 84-91). *)
Definition admin_findings (mid : string) (users : list dict)
    : list Finding :=
  let n := Z.of_nat (how_many is_admin users) in
  if 3 <? n then
    [(mid, "EXCESO_ADMINISTRADORES",
      [FText "Demasiadas cuentas de administrador detectadas: ";
       FValue (JInt n)],
      JObj [("admin_count", JInt n); ("users", dicts users)])]
  else [].

Definition password_findings (mid : string) (e : dict) : list Finding :=
  if no_password e then
    [(mid, "CUENTA_SIN_PASSWORD",
      [FText ("Cuenta sin contrase" ++ String "241"%char "a: ");
       FValue (dict_get e "username" JNull)],
      JObj e)]
  else [].

(** The record of the rule on security events (lines 112-121). *)
Definition login_findings (mid : string) (events : list dict)
    : list Finding :=
  let failed := filter failed_login events in
  let n := Z.of_nat (List.length failed) in
  if 10 <? n then
    [(mid, "MULTIPLES_INTENTOS_LOGIN",
      [FText ("M" ++ String "250"%char
                "ltiples intentos de login fallidos detectados: ");
       FValue (JInt n)],
      JObj [("failed_login_count", JInt n);
            ("events", dicts (firstn 5 failed))])]
  else [].

(** The record of the rule on the hosts file for one entry (lines
    100-106). *)
Definition hosts_finding (mid : string) (hosts_data : json) (entry : json)
    : Finding :=
  (mid, "HOSTS_MODIFICADO",
   [FText "Entrada sospechosa en archivo hosts: "; FValue entry],
   hosts_data).

(** The records of the rules on recent files (lines 130-138) and on
    scheduled tasks (lines 147-156) for one entry. *)
Definition file_findings (mid : string) (e : dict) : list Finding :=
  match text_of e "name" with
  | Some name =>
      if any_in dangerous_extensions name then
        [(mid, "ARCHIVO_SOSPECHOSO",
          [FText ("Archivo con extensi" ++ String "243"%char
                    "n sospechosa: ");
           FValue (JStr name)],
          JObj e)]
      else []
  | None => []
  end.

Definition task_findings (mid : string) (e : dict) : list Finding :=
  match text_of e "name", text_of e "command" with
  | Some name, Some command =>
      if any_in malicious_processes command then
        [(mid, "TAREA_MALICIOSA",
          [FText "Tarea programada sospechosa: "; FValue (JStr name)],
          JObj e)]
      else []
  | _, _ => []
  end.

(** The record of the rule on the PATH for one of the four fragments
    (lines 170-176). *)
Definition path_finding (mid : string) (path_var : json) (fragment : string)
    : Finding :=
  (mid, "PATH_MODIFICADO",
   [FText "PATH contiene ruta sospechosa: "; FValue (JStr fragment)],
   JObj [("path", path_var); ("suspicious_path", JStr fragment)]).

End Entries.

(** ** Concrete worlds and payloads for the examples *)

Module Samples.

Definition config0 : Config :=
  {| api_base_url := "http://localhost:8000/api/v1";
     manager_id := "manager-1";
     machine_id := "machine-1";
     machine_name := "PC-1";
     scan_interval_minutes := JInt 60;
     check_interval := JInt 300 |}.

(** The server cannot be reached, every collection module returns an empty
    payload, no sleep is interrupted, and the n-th reading of the clock is n
    seconds. *)
Definition env0 : Env :=
  {| env_now := fun n => Z.of_nat n * 1000000;
     env_utcnow_iso := fun _ => "2025-01-01T00:00:00";
     env_http := fun _ => Failed true "Cannot connect to host";
     env_scan := fun _ _ => Ret (JObj []);
     env_sleep := fun _ => None |}.

Definition world_of (e : Env) (names : list string) : World :=
  {| w_env := e; w_config := config0;
     w_sched := {| last_scan_time := None; next_scan_time := None |};
     w_session := NoSession; w_scanners := names;
     w_heap := fun _ => JNull; w_next_ref := 0; w_trace := [];
     w_nows := 0; w_isos := 0; w_https := 0; w_scans := 0; w_sleeps := 0 |}.

Definition world0 : World := world_of env0 ["system"; "network"].

(** A world whose requests are all answered by [r]. *)
Definition world_answering (r : Response) : World :=
  world_of
    {| env_now := env_now env0; env_utcnow_iso := env_utcnow_iso env0;
       env_http := fun _ => Responded r;
       env_scan := env_scan env0; env_sleep := env_sleep env0 |}
    ["system"; "network"].

(** Status 200 with the body [null]. *)
Definition null_body : Response :=
  {| status := 200; text := "null"; decoded := Some JNull |}.

(** Status 200 with the acknowledgment of the scan endpoint (routers/scans.py
    lines 76-81), which has a ['status'] but no ['success']. *)
Definition scan_ack : Response :=
  {| status := 200;
     text := "(the acknowledgment of the scan endpoint)";
     decoded :=
       Some (JObj [("status", JStr "success");
                   ("message", JStr "Datos de escaneo procesados correctamente");
                   ("scan_id", JInt 7);
                   ("threats_detected", JInt 0)]) |}.

(** The sample world after the agent made the dict of a scan: its reference
    is 0. *)
Definition world_with_scan_data : World :=
  snd (alloc (Orchestrator.new_scan_data "2025-01-01T00:00:00" config0) world0).

(** The server clock: the n-th reading is n seconds. *)
Definition clock0 : ThreatAnalyzer.Clock :=
  {| ThreatAnalyzer.utc := fun n => Z.of_nat n * 1000000;
     ThreatAnalyzer.reads := 0 |}.

(** An open port, 31337, owned by svc.exe, and a payload with just it. *)
Definition entry_svc : dict :=
  [("port", JInt 31337); ("process_name", JStr "svc.exe")].

Definition section_svc : dict := [("open_ports", JArr [JObj entry_svc])].

Definition payload_svc : json := JObj [("security_scan", JObj section_svc)].

(** An open port, 8080, owned by netcat.exe, and a payload with just it. *)
Definition entry_netcat : dict :=
  [("port", JInt 8080); ("process_name", JStr "netcat.exe")].

Definition section_netcat : dict :=
  [("open_ports", JArr [JObj entry_netcat])].

Definition payload_netcat : json :=
  JObj [("security_scan", JObj section_netcat)].

(** The sample agent once its scheduler is constructed: the first scan is
    due. *)
Definition agent0 : World := snd (Scheduler.init world0).

(** An environment in which the task check asks for a scan, the first call
    of a collection module raises and the later ones return, and the server
    cannot be reached afterwards. *)
Definition env_forced : Env :=
  {| env_now := env_now env0;
     env_utcnow_iso := env_utcnow_iso env0;
     env_http := fun n =>
       match n with
       | O => Responded
                {| status := 200;
                   text := "(a directive asking for a scan)";
                   decoded := Some (JObj [("success", JBool true);
                                          ("should_scan", JBool true)]) |}
       | _ => Failed true "Cannot connect to host"
       end;
     env_scan := fun n _ =>
       match n with
       | O => Raise (Exn OtherException "WMI unavailable")
       | _ => Ret (JObj [])
       end;
     env_sleep := env_sleep env0 |}.

Definition agent_forced : World :=
  snd (Scheduler.init (world_of env_forced ["system"; "network"])).

(** An environment and an agent whose first collection module raises at
    every call, without a directive. *)
Definition env_broken : Env :=
  {| env_now := env_now env0;
     env_utcnow_iso := env_utcnow_iso env0;
     env_http := env_http env0;
     env_scan := fun _ _ => Raise (Exn OtherException "WMI unavailable");
     env_sleep := env_sleep env0 |}.

Definition agent_broken : World :=
  snd (Scheduler.init (world_of env_broken ["system"; "network"])).

(** The sample agent after its first pass: the next scan is an hour away. *)
Definition agent_waiting : World := snd (Orchestrator.loop_body agent0).

End Samples.

(** * Properties *)

(** ** The scan scheduler *)

Module SchedulerProps.
Import Scheduler.

Ltac run_scheduler :=
  unfold init, mark_scan_completed, force_next_scan, update_interval,
    should_scan, _calculate_next_scan, when, bind, ret, log, emit, modify,
    datetime_now, set_last_scan_time, set_next_scan_time, get_sched,
    get_config, lift;
  cbn.


(** [should_scan] answers by comparing the next reading of the clock with
    [next_scan_time] and leaves scheduler and configuration as they are. *)
Lemma should_scan_run (w : World) (next : Z) :
  next_scan_time (w_sched w) = Some next ->
  exists w',
    should_scan w = (Ret (next <=? next_reading w), w') /\
    w_sched w' = w_sched w /\ w_config w' = w_config w.
Proof.
  intros Hn. run_scheduler. rewrite Hn. cbn. unfold next_reading.
  destruct (next <=? env_now (w_env w) (w_nows w)); cbn;
    eexists; (split; [reflexivity|]); cbn; auto.
Qed.












End SchedulerProps.

(** ** The remote client *)

Module ApiClientProps.
Import ApiClient.

Ltac run_client :=
  unfold _make_request, _get_session, session_request, try_except, when,
    bind, ret, raise, log, emit, modify, get_config, deref, assign, lift;
  cbn.

(** The primitive always returns, and returns [request_result] of the
    outcome its request meets; it makes exactly one request. *)
Lemma make_request_run (method endpoint : string) (data : option json)
    (w : World) :
  exists w',
    _make_request method endpoint data w
    = (Ret (request_result (next_outcome w)), w') /\
    same_objects w w' /\ w_https w' = S (w_https w) /\
    exists evs, w_trace w' = (evs ++ w_trace w)%list /\
      forall c, Orchestrator.calls c evs = 0%nat.
Proof.
  unfold next_outcome, same_objects. run_client.
  assert (Hs : forall s, w_env (match w_session w with
                                | SessionOpen => w
                                | _ => with_session s w end) = w_env w
                         /\ w_https (match w_session w with
                                | SessionOpen => w
                                | _ => with_session s w end) = w_https w).
  { intros s. destruct (w_session w); auto. }
  destruct (Hs SessionOpen) as [He Hh]. rewrite He, Hh. clear Hs He Hh.
  destruct (env_http (w_env w) (w_https w)) as [r|[|] msg]; cbn;
    [destruct (status r =? 200); cbn; [destruct (decoded r); cbn|]| |];
    (eexists; split; [reflexivity|]); destruct (w_session w); cbn;
    (split; [repeat split|]); (split; [reflexivity|]);
    first [ eexists (_ :: nil); split; [reflexivity|intros c; reflexivity]
          | eexists (_ :: _ :: nil); split;
            [reflexivity|intros c; reflexivity] ].
Qed.


Lemma dict_find_set (d : dict) (k k' : string) (v : json) :
  dict_find (dict_set d k v) k'
  = if (k =? k')%string then Some v else dict_find d k'.
Proof.
  induction d as [|[k0 v0] r IH]; cbn.
  - reflexivity.
  - destruct (k0 =? k)%string eqn:E0; cbn.
    + apply String.eqb_eq in E0. subst k0.
      destruct (k =? k')%string; reflexivity.
    + destruct (k0 =? k')%string eqn:E1.
      * apply String.eqb_eq in E1. subst k0.
        rewrite String.eqb_sym in E0. rewrite E0. reflexivity.
      * exact IH.
Qed.

(** C7, as stated, fails: a response with status 200 whose body is the JSON
    text [null] makes the primitive return [None], which carries no tag; the
    check of the result that [check_tasks] makes then raises. *)
Lemma C7_counterexample :
  fst (_make_request "GET" "/agent/check-task" None
         (Samples.world_answering Samples.null_body)) = Ret JNull /\
  tagged JNull = false /\
  fst (check_tasks (Samples.world_answering Samples.null_body))
  = Raise (Exn AttributeError "get").
Proof. repeat split. Qed.

(** C7, amended. For every method, path, body and every outcome of the
    request, the primitive returns a value and raises nothing. For a
    response with status 200 whose text parses as JSON that value is the
    parsed body as it is; for every other outcome it is a dict tagged with a
    boolean ['success']: true for status 200 with a text that does not parse,
    false otherwise. A transport failure gives a dict without
    ['status_code'], a response with another status than 200 a dict whose
    ['status_code'] is that status. *)
Theorem C7_request_total_and_classified :
  forall (method endpoint : string) (data : option json) (w : World),
    exists r w',
      _make_request method endpoint data w = (Ret r, w') /\
      match next_outcome w with
      | Responded resp =>
          if status resp =? 200 then
            match decoded resp with
            | Some body => r = body
            | None =>
                tagged r = true /\ exists d, r = JObj d /\
                  dict_find d "success" = Some (JBool true)
            end
          else
            tagged r = true /\ exists d, r = JObj d /\
              dict_find d "success" = Some (JBool false) /\
              dict_find d "status_code" = Some (JInt (status resp))
      | Failed _ _ =>
          tagged r = true /\ exists d, r = JObj d /\
            dict_find d "success" = Some (JBool false) /\
            dict_find d "status_code" = None
      end.
Proof.
  intros method endpoint data w.
  destruct (make_request_run method endpoint data w) as (w' & Hrun & _).
  exists (request_result (next_outcome w)), w'. split; [exact Hrun|].
  destruct (next_outcome w) as [resp|[|] msg]; cbn.
  - destruct (status resp =? 200); [destruct (decoded resp)|]; cbn;
      try reflexivity;
      (split; [reflexivity|]); eexists; (split; [reflexivity|]);
      repeat split.
  - split; [reflexivity|]. eexists. split; [reflexivity|]. split; reflexivity.
  - split; [reflexivity|]. eexists. split; [reflexivity|]. split; reflexivity.
Qed.



(** [success_check] holds of a value exactly when the value is a dict with a
    truthy ['success']. *)
Lemma success_check_true (r : json) :
  success_check r = Ret true <->
  exists d v, r = JObj d /\ dict_find d "success" = Some v /\ truthy v = true.
Proof.
  split.
  - destruct r as [| | | | |d]; cbn; try discriminate.
    unfold dict_get. destruct (dict_find d "success") as [v|] eqn:Hf; cbn.
    + intros H. injection H as Hv. exists d, v. auto.
    + discriminate.
  - intros (d & v & -> & Hf & Hv). cbn. unfold dict_get. rewrite Hf, Hv.
    reflexivity.
Qed.

(** C10. When the response has status 200 and its text parses as JSON, the
    primitive returns the parsed body as it is, so that the success check of
    a caller holds exactly when that body is a dict with a truthy
    ['success']; when the text does not parse, the primitive returns a
    result on which the success check holds. *)
Theorem C10_status_200_body_verbatim :
  forall (method endpoint : string) (data : option json) (w : World)
         (resp : Response),
    next_outcome w = Responded resp ->
    status resp = 200 ->
    exists r w',
      _make_request method endpoint data w = (Ret r, w') /\
      (forall body, decoded resp = Some body ->
         r = body /\
         (success_check r = Ret true <->
          exists d v, body = JObj d /\ dict_find d "success" = Some v /\
                      truthy v = true)) /\
      (decoded resp = None ->
         r = raw_text_success (text resp) /\ success_check r = Ret true).
Proof.
  intros method endpoint data w resp Ho Hst.
  destruct (make_request_run method endpoint data w) as (w' & Hrun & _).
  exists (request_result (next_outcome w)), w'. split; [exact Hrun|].
  rewrite Ho. cbn. rewrite Hst. cbn. split.
  - intros body Hd. rewrite Hd. split; [reflexivity|].
    apply success_check_true.
  - intros Hd. rewrite Hd. split; reflexivity.
Qed.

(** An instance of C10: the acknowledgment the scan endpoint sends, which
    has no ['success'], so that the success check of the caller fails on a
    scan the server accepted. *)
Lemma C10_witness :
  exists r w',
    _make_request "POST" "/scans" None (Samples.world_answering Samples.scan_ack)
    = (Ret r, w') /\
    (forall body, decoded Samples.scan_ack = Some body ->
       r = body /\
       (success_check r = Ret true <->
        exists d v, body = JObj d /\ dict_find d "success" = Some v /\
                    truthy v = true)) /\
    (decoded Samples.scan_ack = None ->
       r = raw_text_success (text Samples.scan_ack) /\
       success_check r = Ret true).
Proof.
  exact (C10_status_200_body_verbatim "POST" "/scans" None
           (Samples.world_answering Samples.scan_ack) Samples.scan_ack
           eq_refl eq_refl).
Defined.

#[local] Arguments _make_request : simpl never.

(** The dict [send_scan_data] leaves behind its argument, whatever becomes of
    the request. *)
Lemma send_scan_data_heap (scan_data : nat) (w : World) (items : dict) :
  w_heap w scan_data = JObj items ->
  forall r,
    w_heap (snd (send_scan_data scan_data w)) r
    = if (r =? scan_data)%nat
      then JObj (dict_update items (identity_items (w_config w)))
      else w_heap w r.
Proof.
  intros Hd r.
  unfold send_scan_data, bind, log, emit, modify, get_config, deref, assign,
    lift, ret. cbn. rewrite Hd. cbn. rewrite Nat.eqb_refl.
  match goal with
  | |- context [_make_request ?m ?e ?d ?W] =>
      destruct (make_request_run m e d W) as (w2 & Hrun & Hsame & _);
      rewrite Hrun
  end.
  destruct Hsame as (_ & _ & _ & Hheap & _). cbn in Hheap.
  destruct (py_get (request_result _) "success" JNull) as [ok|e]; cbn.
  - destruct (truthy ok); cbn.
    + rewrite Hheap. reflexivity.
    + destruct (py_get (request_result _) "error" JNull); cbn;
        rewrite Hheap; reflexivity.
  - rewrite Hheap. reflexivity.
Qed.

(** C9, as stated, fails: the dict the agent makes for a scan has no
    ['machine_name'] before it is handed to [send_scan_data] and has one
    after the call. *)
Lemma C9_counterexample :
  exists before after,
    w_heap Samples.world_with_scan_data 0 = JObj before /\
    w_heap (snd (send_scan_data 0 Samples.world_with_scan_data)) 0
    = JObj after /\
    dict_find before "machine_name" = None /\
    dict_find after "machine_name" = Some (JStr "PC-1") /\
    JObj after <> JObj before.
Proof.
  do 2 eexists. split; [reflexivity|]. split; [reflexivity|].
  split; [reflexivity|]. split; [reflexivity|]. discriminate.
Qed.

(** C9, amended. Whatever becomes of the request, [send_scan_data] changes
    the dict it is handed in three keys only: after the call ['manager_id'],
    ['machine_id'] and ['machine_name'] hold the identity of the
    configuration, every other key holds what it held before, and no other
    dict has changed. *)
Theorem C9_send_scan_data_rewrites_identity_only :
  forall (w : World) (scan_data : nat) (items : dict),
    w_heap w scan_data = JObj items ->
    let w' := snd (send_scan_data scan_data w) in
    exists items',
      w_heap w' scan_data = JObj items' /\
      dict_find items' "manager_id" = Some (JStr (manager_id (w_config w))) /\
      dict_find items' "machine_id" = Some (JStr (machine_id (w_config w))) /\
      dict_find items' "machine_name"
      = Some (JStr (machine_name (w_config w))) /\
      (forall k, identity_key k = false ->
         dict_find items' k = dict_find items k) /\
      (forall r, r <> scan_data -> w_heap w' r = w_heap w r).
Proof.
  intros w scan_data items Hd w'.
  exists (dict_update items (identity_items (w_config w))).
  split.
  { unfold w'. rewrite (send_scan_data_heap _ _ _ Hd), Nat.eqb_refl.
    reflexivity. }
  unfold dict_update, identity_items. cbn.
  repeat split.
  - rewrite !dict_find_set. reflexivity.
  - rewrite !dict_find_set. reflexivity.
  - rewrite !dict_find_set. reflexivity.
  - intros k Hk. unfold identity_key in Hk.
    apply orb_false_iff in Hk. destruct Hk as [Hk H3].
    apply orb_false_iff in Hk. destruct Hk as [H1 H2].
    rewrite !dict_find_set.
    rewrite (String.eqb_sym "machine_name" k), H3.
    rewrite (String.eqb_sym "machine_id" k), H2.
    rewrite (String.eqb_sym "manager_id" k), H1. reflexivity.
  - intros r Hr. unfold w'. rewrite (send_scan_data_heap _ _ _ Hd).
    apply Nat.eqb_neq in Hr. rewrite Hr. reflexivity.
Qed.

(** An instance of C9, amended: the dict of the counterexample. *)
Lemma C9_witness :
  exists items',
    w_heap (snd (send_scan_data 0 Samples.world_with_scan_data)) 0
    = JObj items' /\
    dict_find items' "manager_id" = Some (JStr "manager-1") /\
    dict_find items' "machine_id" = Some (JStr "machine-1") /\
    dict_find items' "machine_name" = Some (JStr "PC-1") /\
    (forall k, identity_key k = false ->
       dict_find items' k
       = dict_find
           [("timestamp", JStr "2025-01-01T00:00:00");
            ("machine_id", JStr "machine-1");
            ("manager_id", JStr "manager-1");
            ("scan_type", JStr "full");
            ("data", JObj [])] k) /\
    (forall r, r <> 0%nat ->
       w_heap (snd (send_scan_data 0 Samples.world_with_scan_data)) r
       = w_heap Samples.world_with_scan_data r).
Proof.
  exact (C9_send_scan_data_rewrites_identity_only
           Samples.world_with_scan_data 0 _ eq_refl).
Defined.

End ApiClientProps.

(** ** The orchestrator *)

Module OrchestratorProps.
Import Orchestrator.

#[local] Arguments ApiClient._make_request : simpl never.

Lemma calls_app (c : Callee) (l r : list Event) :
  calls c (l ++ r) = (calls c l + calls c r)%nat.
Proof. unfold calls. rewrite filter_app, length_app. reflexivity. Qed.

Lemma added_refl (w : World) : added w w 0 0.
Proof. exists []. repeat split. Qed.

Lemma added_trans (w1 w2 w3 : World) (a b a' b' : nat) :
  added w1 w2 a b -> added w2 w3 a' b' -> added w1 w3 (a + a') (b + b').
Proof.
  intros (e1 & H1 & Ha & Hb) (e2 & H2 & Ha' & Hb').
  exists (e2 ++ e1)%list. rewrite H2, H1, app_assoc, !calls_app.
  repeat split; lia.
Qed.

Lemma kept_refl (w : World) : kept w w.
Proof. repeat split. Qed.

Lemma kept_trans (w1 w2 w3 : World) : kept w1 w2 -> kept w2 w3 -> kept w1 w3.
Proof.
  unfold kept. intros (A1 & B1 & C1 & D1 & E1) (A2 & B2 & C2 & D2 & E2).
  rewrite A2, B2, C2, D2, E2. auto.
Qed.

(** A trace that grew by a few events given one by one. *)
Ltac show_added :=
  first
    [ exists (@nil Event); split; [reflexivity|split; reflexivity]
    | eexists (_ :: nil); split; [reflexivity|split; reflexivity]
    | eexists (_ :: _ :: nil); split; [reflexivity|split; reflexivity]
    | eexists (_ :: _ :: _ :: nil); split; [reflexivity|split; reflexivity]
    | eexists (_ :: _ :: _ :: _ :: nil); split;
      [reflexivity|split; reflexivity]
    | eexists (_ :: _ :: _ :: _ :: _ :: nil); split;
      [reflexivity|split; reflexivity]
    | eexists (_ :: _ :: _ :: _ :: _ :: _ :: nil); split;
      [reflexivity|split; reflexivity] ].

Ltac run_agent :=
  unfold try_except, when, bind, ret, raise, log, emit, modify, get_config,
    get_state, get_sched, deref, assign, alloc, lift, utcnow_isoformat,
    datetime_now, scanner_scan, set_last_scan_time, set_next_scan_time;
  cbn.

(** *** The client, as the orchestrator sees it *)

Lemma make_request_step (method endpoint : string) (data : option json)
    (w : World) :
  exists w',
    ApiClient._make_request method endpoint data w
    = (Ret (ApiClient.request_result (ApiClient.next_outcome w)), w') /\
    kept w w' /\ added w w' 0 0 /\
    w_scans w' = w_scans w /\ w_https w' = S (w_https w) /\
    w_heap w' = w_heap w /\ w_config w' = w_config w.
Proof.
  destruct (ApiClientProps.make_request_run method endpoint data w)
    as (w' & Hrun & Hsame & Hh & evs & Htr & Hc).
  destruct Hsame as (He & Hcfg & Hs & Hheap & _ & Hsc & Hn & _ & Hscans & Hsl).
  exists w'. split; [exact Hrun|]. unfold kept, added.
  repeat split; try assumption.
  exists evs. repeat split; auto.
Qed.

(** [check_tasks] returns the result of its request when that is a dict and
    raises otherwise. *)
Lemma check_tasks_run (w : World) :
  exists w',
    ApiClient.check_tasks w
    = (match ApiClient.request_result (ApiClient.next_outcome w) with
       | JObj d => Ret (JObj d)
       | _ => Raise (Exn AttributeError "get")
       end, w') /\
    kept w w' /\ added w w' 0 0 /\
    w_scans w' = w_scans w /\ w_https w' = S (w_https w).
Proof.
  unfold ApiClient.check_tasks. run_agent.
  match goal with
  | |- context [ApiClient._make_request ?m ?e ?d ?W] =>
      destruct (make_request_step m e d W)
        as (w2 & Hrun & Hk & Ha & Hsc & Hh & _);
      rewrite Hrun
  end.
  assert (Hk0 : kept w w2) by exact Hk.
  assert (Ha0 : added w w2 0 0).
  { destruct Ha as (evs & Htr & H1 & H2). cbn in Htr.
    exists (evs ++ [EvLog DEBUG LCheckingTasks; EvCall CallCheckTasks])%list.
    rewrite Htr, <- app_assoc, !calls_app, H1, H2. repeat split. }
  cbn in Hsc, Hh. clear Hk Ha Hrun.
  change (ApiClient.next_outcome _) with (ApiClient.next_outcome w).
  destruct (ApiClient.request_result (ApiClient.next_outcome w))
    as [| | | | |d]; cbn.
  1-5: eexists; (split; [reflexivity|]);
    (split; [exact Hk0|split; [exact Ha0|split; assumption]]).
  destruct (truthy (dict_get d "success" JNull)); cbn;
    (eexists; split; [reflexivity|]); cbn;
    (split; [exact Hk0|]); (split; [|split; assumption]);
    apply (added_trans w w2 _ 0 0 0 0 Ha0); show_added.
Qed.

(** *** The task check *)

(** Case analysis on the innermost value a run branches on. *)
Ltac split_cases :=
  repeat match goal with
         | |- context [match ?x with _ => _ end] =>
             lazymatch x with
             | context [match _ with _ => _ end] => fail
             | _ =>
                 lazymatch type of x with
                 | (_ * _)%type => fail
                 | _ => destruct x eqn:?; cbn
                 end
             end
         end.

Lemma py_contains_raises (k : string) (v : json) (e : exn) :
  py_contains k v = Raise e -> is_exception e = true.
Proof. destruct v; cbn; intros H; try discriminate; injection H as <-; reflexivity. Qed.

Lemma py_getitem_raises (v : json) (k : string) (e : exn) :
  py_getitem v k = Raise e -> is_exception e = true.
Proof.
  destruct v as [| | | | |d]; cbn; try destruct (dict_find d k); intros H;
    try discriminate; injection H as <-; reflexivity.
Qed.

Lemma py_get_raises (v : json) (k : string) (default : json) (e : exn) :
  py_get v k default = Raise e -> is_exception e = true.
Proof. destruct v; cbn; intros H; try discriminate; injection H as <-; reflexivity. Qed.

(** [update_from_server] touches the configuration and its file only, and
    what it raises is taken by [except Exception]. *)
Lemma update_from_server_run (v : json) (w : World) :
  kept w (snd (ConfigOps.update_from_server v w)) /\
  added w (snd (ConfigOps.update_from_server v w)) 0 0 /\
  w_scans (snd (ConfigOps.update_from_server v w)) = w_scans w /\
  w_https (snd (ConfigOps.update_from_server v w)) = w_https w /\
  forall e, fst (ConfigOps.update_from_server v w) = Raise e ->
            is_exception e = true.
Proof.
  unfold ConfigOps.update_from_server, ConfigOps.save_config. run_agent.
  split_cases;
    (split; [repeat split|]); (split; [show_added|]);
    (split; [reflexivity|]); (split; [reflexivity|]);
    intros exc Hexc; try discriminate; injection Hexc as <-;
    first [ eapply py_contains_raises; eassumption
          | eapply py_getitem_raises; eassumption ].
Qed.

#[local] Arguments ConfigOps.update_from_server : simpl never.
#[local] Arguments ApiClient.check_tasks : simpl never.

Lemma added_log (w w' : World) (a b : nat) (l : Level) (m : LogMsg) :
  added w w' a b -> added w (with_trace (EvLog l m :: w_trace w') w') a b.
Proof.
  intros (evs & Htr & H1 & H2). exists (EvLog l m :: evs). cbn.
  rewrite Htr. repeat split; assumption.
Qed.

(** When the task check does not ask for a scan, [check_for_tasks] returns
    without a scan attempt: it leaves the scheduler alone and calls neither
    [send_scan_data] nor [mark_scan_completed]. *)
Lemma check_for_tasks_no_force (w : World) :
  forces_scan (ApiClient.request_result (ApiClient.next_outcome w)) = false ->
  exists w',
    check_for_tasks w = (Ret tt, w') /\
    kept w w' /\ added w w' 0 0 /\
    w_scans w' = w_scans w /\ w_https w' = S (w_https w).
Proof.
  intros Hforce. unfold check_for_tasks, try_except. unfold bind at 1.
  destruct (check_tasks_run w) as (w1 & Hrun & Hk & Ha & Hsc & Hh).
  rewrite Hrun. clear Hrun.
  destruct (ApiClient.request_result (ApiClient.next_outcome w))
    as [| | | | |d]; cbn.
  1-5: unfold log, emit, modify; eexists; (split; [reflexivity|]);
    (split; [exact Hk|split; [apply added_log; exact Ha|split; assumption]]).
  cbn in Hforce. unfold lift, bind at 1. cbn. rewrite Hforce. cbn.
  unfold dict_mem.
  destruct (dict_find d "config_updates") as [v|]; cbn.
  - unfold bind.
    generalize (update_from_server_run v w1).
    destruct (ConfigOps.update_from_server v w1) as [[[]|e] w2]; cbn;
      intros (Hk2 & Ha2 & Hsc2 & Hh2 & Hexc).
    + unfold log, emit, modify. eexists. split; [reflexivity|].
      split; [exact (kept_trans _ _ _ Hk Hk2)|].
      split; [apply added_log; exact (added_trans _ _ _ 0 0 0 0 Ha Ha2)|].
      cbn. split; congruence.
    + rewrite (Hexc e eq_refl). unfold log, emit, modify.
      eexists. split; [reflexivity|].
      split; [exact (kept_trans _ _ _ Hk Hk2)|].
      split; [apply added_log; exact (added_trans _ _ _ 0 0 0 0 Ha Ha2)|].
      cbn. split; congruence.
  - eexists. split; [reflexivity|]. auto.
Qed.

(** *** A scan attempt *)

Lemma run_scanner_ok (r : nat) (name : string) (w : World) (p : json) :
  scan_dict (w_heap w r) ->
  env_scan (w_env w) (w_scans w) name = Ret p ->
  exists w',
    run_scanner r name w = (Ret tt, w') /\
    kept w w' /\ added w w' 0 0 /\
    w_https w' = w_https w /\ w_scans w' = S (w_scans w) /\
    scan_dict (w_heap w' r).
Proof.
  intros (items & entries & Hheap & Hdata) Hscan.
  unfold run_scanner, store_scanner_data. run_agent.
  rewrite Hscan. cbn. rewrite Hheap. cbn. rewrite Hdata. cbn.
  eexists. split; [reflexivity|]. cbn.
  split; [repeat split|]. split; [show_added|].
  split; [reflexivity|]. split; [reflexivity|].
  rewrite Nat.eqb_refl. do 2 eexists. split; [reflexivity|].
  rewrite ApiClientProps.dict_find_set. reflexivity.
Qed.

Lemma run_scanner_raises (r : nat) (name : string) (w : World) (e : exn) :
  env_scan (w_env w) (w_scans w) name = Raise e ->
  exists w',
    run_scanner r name w = (Raise e, w') /\ kept w w' /\ added w w' 0 0.
Proof.
  intros Hscan. unfold run_scanner. run_agent. rewrite Hscan. cbn.
  eexists. split; [reflexivity|]. split; [repeat split|show_added].
Qed.

Lemma run_scanners_ok (r : nat) (names : list string) :
  forall w,
    scan_dict (w_heap w r) ->
    (forall i, (i < List.length names)%nat ->
       exists p, env_scan (w_env w) (w_scans w + i) (nth i names "") = Ret p) ->
    exists w',
      run_scanners r names w = (Ret tt, w') /\
      kept w w' /\ added w w' 0 0 /\
      w_https w' = w_https w /\ scan_dict (w_heap w' r).
Proof.
  induction names as [|name names IH]; intros w Hheap Hall.
  - exists w. split; [reflexivity|].
    split; [apply kept_refl|]. split; [apply added_refl|]. auto.
  - destruct (Hall 0%nat) as [p Hp]; [cbn; lia|].
    rewrite Nat.add_0_r in Hp. cbn in Hp.
    destruct (run_scanner_ok r name w p Hheap Hp)
      as (w1 & Hrun & Hk & Ha & Hh & Hsc & Hheap1).
    destruct (IH w1 Hheap1) as (w2 & Hrun2 & Hk2 & Ha2 & Hh2 & Hheap2).
    { intros i Hi. destruct (Hall (S i)) as [q Hq]; [cbn; lia|].
      exists q. destruct Hk as (He & _). rewrite He, Hsc.
      rewrite Nat.add_succ_r in Hq. exact Hq. }
    exists w2. unfold run_scanners in *. cbn [foreach]. unfold bind at 1.
    rewrite Hrun. split; [exact Hrun2|].
    split; [exact (kept_trans _ _ _ Hk Hk2)|].
    split; [exact (added_trans _ _ _ 0 0 0 0 Ha Ha2)|].
    split; [congruence|exact Hheap2].
Qed.

Lemma run_scanners_raises (r : nat) (names : list string) (e : exn) :
  forall w j,
    scan_dict (w_heap w r) ->
    (j < List.length names)%nat ->
    (forall i, (i < j)%nat ->
       exists p, env_scan (w_env w) (w_scans w + i) (nth i names "") = Ret p) ->
    env_scan (w_env w) (w_scans w + j) (nth j names "") = Raise e ->
    exists w',
      run_scanners r names w = (Raise e, w') /\
      kept w w' /\ added w w' 0 0 /\ w_https w' = w_https w.
Proof.
  induction names as [|name names IH]; intros w j Hheap Hj Hbefore Hraise.
  - cbn in Hj. lia.
  - unfold run_scanners in *. cbn [foreach]. unfold bind at 1.
    destruct j as [|j].
    + rewrite Nat.add_0_r in Hraise. cbn in Hraise.
      destruct (run_scanner_raises r name w e Hraise) as (w1 & Hrun & Hk & Ha).
      rewrite Hrun. exists w1. split; [reflexivity|]. split; [exact Hk|].
      split; [exact Ha|].
      revert Hrun. unfold run_scanner. run_agent. rewrite Hraise. cbn.
      intros Hrun. injection Hrun as <-. reflexivity.
    + destruct (Hbefore 0%nat) as [p Hp]; [lia|].
      rewrite Nat.add_0_r in Hp. cbn in Hp.
      destruct (run_scanner_ok r name w p Hheap Hp)
        as (w1 & Hrun & Hk & Ha & Hh & Hsc & Hheap1).
      rewrite Hrun.
      destruct (IH w1 j Hheap1) as (w2 & Hrun2 & Hk2 & Ha2 & Hh2).
      { cbn in Hj. lia. }
      { intros i Hi. destruct (Hbefore (S i)) as [q Hq]; [lia|].
        exists q. destruct Hk as (He & _). rewrite He, Hsc.
        rewrite Nat.add_succ_r in Hq. exact Hq. }
      { destruct Hk as (He & _). rewrite He, Hsc.
        rewrite Nat.add_succ_r in Hraise. exact Hraise. }
      exists w2. split; [exact Hrun2|].
      split; [exact (kept_trans _ _ _ Hk Hk2)|].
      split; [exact (added_trans _ _ _ 0 0 0 0 Ha Ha2)|congruence].
Qed.

#[local] Arguments run_scanners : simpl never.
#[local] Arguments ApiClient.send_scan_data : simpl never.

(** [send_scan_data] makes one request and returns its result when that is
    a dict; it raises otherwise. *)
Lemma send_scan_data_run (r : nat) (w : World) :
  (exists items, w_heap w r = JObj items) ->
  exists w',
    ApiClient.send_scan_data r w
    = (match ApiClient.request_result (ApiClient.next_outcome w) with
       | JObj d => Ret (JObj d)
       | _ => Raise (Exn AttributeError "get")
       end, w') /\
    kept w w' /\ added w w' 1 0 /\ w_https w' = S (w_https w).
Proof.
  intros [items Hheap]. unfold ApiClient.send_scan_data. run_agent.
  rewrite Hheap. cbn. rewrite Nat.eqb_refl.
  match goal with
  | |- context [ApiClient._make_request ?m ?e ?d ?W] =>
      destruct (make_request_step m e d W)
        as (w2 & Hrun & Hk & Ha & Hsc & Hh & _);
      rewrite Hrun
  end.
  assert (Hk0 : kept w w2) by exact Hk.
  assert (Ha0 : added w w2 1 0).
  { destruct Ha as (evs & Htr & H1 & H2). cbn in Htr.
    exists (evs ++ [EvLog INFO LSendingScan; EvCall CallSendScanData])%list.
    rewrite Htr, <- app_assoc, !calls_app, H1, H2. repeat split. }
  cbn in Hh. clear Hk Ha Hrun Hsc.
  change (ApiClient.next_outcome _) with (ApiClient.next_outcome w).
  destruct (ApiClient.request_result (ApiClient.next_outcome w))
    as [| | | | |d]; cbn.
  1-5: eexists; (split; [reflexivity|]);
    (split; [exact Hk0|split; [exact Ha0|assumption]]).
  destruct (truthy (dict_get d "success" JNull)); cbn;
    (eexists; split; [reflexivity|]); cbn;
    (split; [exact Hk0|]); (split; [|assumption]);
    apply (added_trans w w2 _ 1 0 0 0 Ha0); show_added.
Qed.

Ltac after_alloc Hk Ha Hk0 Ha0 w w1 :=
  assert (Hk0 : kept w w1)
    by (destruct Hk as (? & ? & ? & ? & ?); cbn in *; repeat split;
        assumption);
  assert (Ha0 : added w w1 0 0)
    by (let evs := fresh "evs" in
        let Htr := fresh "Htr" in
        let H1 := fresh "H1" in
        let H2 := fresh "H2" in
        destruct Ha as (evs & Htr & H1 & H2); cbn in Htr;
        exists (evs ++ [EvLog INFO LScanStart; EvCall CallPerformScan])%list;
        rewrite Htr, <- app_assoc, !calls_app, H1, H2; repeat split).


(** A scan attempt in which a module raises an exception: the attempt logs
    the error and raises it again, without a call of [send_scan_data] and
    without a request. *)
Lemma perform_scan_module_raises (w : World) (e : exn) :
  module_raises w e ->
  is_exception e = true ->
  exists w',
    perform_scan w = (Raise e, w') /\
    kept w w' /\ added w w' 0 0 /\ w_https w' = w_https w.
Proof.
  intros (j & Hj & Hbefore & Hraise) Hexc. unfold perform_scan. run_agent.
  match goal with
  | |- context [run_scanners ?r ?n ?W] =>
      destruct (run_scanners_raises r n e W j)
        as (w1 & Hrun & Hk & Ha & Hh)
  end.
  { cbn. rewrite Nat.eqb_refl. do 2 eexists. split; reflexivity. }
  { exact Hj. }
  { exact Hbefore. }
  { exact Hraise. }
  after_alloc Hk Ha Hk0 Ha0 w w1.
  cbn in Hh. rewrite Hrun. clear Hrun Hk Ha. cbn. rewrite Hexc.
  eexists. split; [reflexivity|]. cbn.
  split; [exact Hk0|]. split; [apply added_log; exact Ha0|exact Hh].
Qed.

(** *** A pass of the loop *)

#[local] Arguments perform_scan : simpl never.
#[local] Arguments check_for_tasks : simpl never.
#[local] Arguments Scheduler.should_scan : simpl never.
#[local] Arguments Scheduler.mark_scan_completed : simpl never.

Lemma should_scan_due (w : World) :
  due w ->
  exists w',
    Scheduler.should_scan w = (Ret true, w') /\
    w_env w' = w_env w /\ w_scanners w' = w_scanners w /\
    w_sched w' = w_sched w /\ w_nows w' = S (w_nows w) /\
    w_sleeps w' = w_sleeps w /\ w_scans w' = w_scans w /\
    w_https w' = w_https w /\ added w w' 0 0.
Proof.
  intros (next & Hnext & Hle). unfold Scheduler.should_scan. run_agent.
  rewrite Hnext. cbn. unfold Scheduler.next_reading in Hle.
  apply Z.leb_le in Hle. rewrite Hle. cbn.
  eexists. split; [reflexivity|]. cbn. repeat split. show_added.
Qed.


(** Once the scheduled attempt has raised an exception, the pass goes on
    in the second [except] clause of the loop. *)
Lemma loop_body_scan_raised (w w1 w2 w3 : World) (e : exn) :
  check_for_tasks w = (Ret tt, w1) ->
  Scheduler.should_scan w1 = (Ret true, w2) ->
  perform_scan w2 = (Raise e, w3) ->
  is_exception e = true ->
  loop_body w = on_loop_error e w3.
Proof.
  intros H1 H2 H3 He. unfold loop_body, try_except.
  unfold bind at 1. rewrite H1. unfold bind at 1. rewrite H2. cbn [when].
  unfold bind at 1. unfold bind at 1. rewrite H3.
  unfold handles_loop. rewrite He, orb_true_r. reflexivity.
Qed.




(** The second [except] clause on an exception: the error is logged, the
    agent sleeps 60 seconds and the loop goes on, unless that sleep is
    interrupted. *)
Lemma on_loop_error_run (e : exn) (w : World) :
  is_exception e = true ->
  w_sched (snd (on_loop_error e w)) = w_sched w /\
  added w (snd (on_loop_error e w)) 0 0 /\
  hd_error (w_trace (snd (on_loop_error e w))) = Some (EvSleep (JInt 60)) /\
  (env_sleep (w_env w) (w_sleeps w) = None ->
   fst (on_loop_error e w) = Ret Continue).
Proof.
  intros He. unfold on_loop_error, asyncio_sleep.
  assert (Hk : is_keyboard_interrupt e = false).
  { destruct e as [[] msg]; cbn in *; congruence. }
  rewrite Hk. run_agent.
  destruct (env_sleep (w_env w) (w_sleeps w)); cbn;
    (split; [reflexivity|]); (split; [show_added|]);
    (split; [reflexivity|]); intros H; congruence.
Qed.

(** The worlds of a pass in which the task check asks for nothing and the
    scan is due, up to the start of the scheduled attempt. *)
Lemma pass_until_attempt (w : World) :
  forces_scan (ApiClient.request_result (ApiClient.next_outcome w)) = false ->
  due w ->
  exists w1 w2,
    check_for_tasks w = (Ret tt, w1) /\
    Scheduler.should_scan w1 = (Ret true, w2) /\
    w_env w2 = w_env w /\ w_scanners w2 = w_scanners w /\
    w_sched w2 = w_sched w /\ w_nows w2 = S (w_nows w) /\
    w_sleeps w2 = w_sleeps w /\ w_scans w2 = w_scans w /\
    w_https w2 = S (w_https w) /\ added w w2 0 0.
Proof.
  intros Hforce Hdue.
  destruct (check_for_tasks_no_force w Hforce)
    as (w1 & Hcheck & (He & Hn & Hs & Hc & Hsl) & Ha & Hsc & Hh).
  assert (Hdue1 : due w1).
  { destruct Hdue as (next & Hnext & Hle). exists next.
    unfold Scheduler.next_reading in *. rewrite Hs, He, Hc. auto. }
  destruct (should_scan_due w1 Hdue1)
    as (w2 & Hshould & He2 & Hn2 & Hs2 & Hc2 & Hsl2 & Hsc2 & Hh2 & Ha2).
  exists w1, w2. split; [exact Hcheck|]. split; [exact Hshould|].
  repeat split; try congruence.
  exact (added_trans _ _ _ 0 0 0 0 Ha Ha2).
Qed.




(** C4, as stated, fails: in the first pass of this agent the task check
    asks for a scan and a module raises during that attempt; the scheduled
    attempt follows at once in the same pass, its modules succeed, and the
    pass calls [send_scan_data] and [mark_scan_completed] once each. *)
Lemma C4_counterexample :
  let w' := snd (loop_body Samples.agent_forced) in
  fst (loop_body Samples.agent_forced) = Ret Continue /\
  logged_scan_error (w_trace w') = true /\
  calls CallPerformScan (w_trace w') = 2%nat /\
  calls CallSendScanData (w_trace w') = 1%nat /\
  calls CallMarkScanCompleted (w_trace w') = 1%nat.
Proof. cbv zeta. repeat split; vm_compute; reflexivity. Qed.

(** C4, amended. When a collection module raises an exception during a scan
    attempt, that attempt raises it again and makes no call of
    [send_scan_data], no request and no change to the scheduler. When the
    attempt is the scheduled one of a pass in which the task check does not
    itself ask for a scan, the whole pass makes no call of [send_scan_data]
    and none of [mark_scan_completed], leaves the scheduler as it was (the
    scan stays due), and ends by sleeping 60 seconds, after which the loop
    goes on unless that sleep is interrupted. *)
Theorem C4_module_error_fails_the_attempt :
  forall (w : World) (e : exn),
    module_raises w e ->
    is_exception e = true ->
    (exists w',
       perform_scan w = (Raise e, w') /\
       added w w' 0 0 /\ w_https w' = w_https w /\
       w_sched w' = w_sched w) /\
    (forces_scan (ApiClient.request_result (ApiClient.next_outcome w)) = false ->
     due w ->
     added w (snd (loop_body w)) 0 0 /\
     w_sched (snd (loop_body w)) = w_sched w /\
     hd_error (w_trace (snd (loop_body w))) = Some (EvSleep (JInt 60)) /\
     (env_sleep (w_env w) (w_sleeps w) = None ->
      fst (loop_body w) = Ret Continue)).
Proof.
  intros w e Hraise Hexc. split.
  - destruct (perform_scan_module_raises w e Hraise Hexc)
      as (w' & Hperf & (_ & _ & Hs & _) & Ha & Hh).
    exists w'. auto.
  - intros Hforce Hdue.
    destruct (pass_until_attempt w Hforce Hdue)
      as (w1 & w2 & Hcheck & Hshould & He & Hn & Hs & Hc & Hsl & Hsc & Hh & Ha).
    assert (Hraise2 : module_raises w2 e).
    { destruct Hraise as (j & Hj & Hbefore & Hj'). exists j.
      unfold scan_outcome in *. rewrite He, Hsc, Hn. auto. }
    destruct (perform_scan_module_raises w2 e Hraise2 Hexc)
      as (w3 & Hperf & (He3 & Hn3 & Hs3 & Hc3 & Hsl3) & Ha3 & Hh3).
    rewrite (loop_body_scan_raised w w1 w2 w3 e Hcheck Hshould Hperf Hexc).
    destruct (on_loop_error_run e w3 Hexc) as (Hs4 & Ha4 & Hhd & Hcont).
    split; [|split; [|split]].
    + exact (added_trans _ _ _ 0 0 0 0
               (added_trans _ _ _ 0 0 0 0 Ha Ha3) Ha4).
    + congruence.
    + exact Hhd.
    + intros Hsleep. apply Hcont. rewrite He3, Hsl3, He, Hsl. exact Hsleep.
Qed.

(** An instance of C4, amended: an agent whose first module always raises. *)
Lemma C4_witness :
  (exists w',
     perform_scan Samples.agent_broken
     = (Raise (Exn OtherException "WMI unavailable"), w') /\
     added Samples.agent_broken w' 0 0 /\
     w_https w' = w_https Samples.agent_broken /\
     w_sched w' = w_sched Samples.agent_broken) /\
  added Samples.agent_broken (snd (loop_body Samples.agent_broken)) 0 0 /\
  w_sched (snd (loop_body Samples.agent_broken))
  = w_sched Samples.agent_broken /\
  hd_error (w_trace (snd (loop_body Samples.agent_broken)))
  = Some (EvSleep (JInt 60)) /\
  fst (loop_body Samples.agent_broken) = Ret Continue.
Proof.
  assert (Hraise : module_raises Samples.agent_broken
                     (Exn OtherException "WMI unavailable")).
  { exists 0%nat. split; [cbn; lia|]. split; [intros j Hj; lia|reflexivity]. }
  destruct (C4_module_error_fails_the_attempt Samples.agent_broken
              (Exn OtherException "WMI unavailable") Hraise eq_refl)
    as (Hattempt & Hpass).
  split; [exact Hattempt|].
  assert (Hdue : due Samples.agent_broken).
  { exists 0. split; [reflexivity|]. vm_compute. discriminate. }
  destruct (Hpass eq_refl Hdue) as (Ha & Hs & Hhd & Hcont).
  split; [exact Ha|]. split; [exact Hs|]. split; [exact Hhd|].
  apply Hcont. reflexivity.
Defined.

End OrchestratorProps.

(** ** The threat analyzer *)

Module ThreatAnalyzerProps.
Import ThreatAnalyzer.

Section Simulation.
Context {A B : Type}.

Lemma sim_ret (R : A -> A -> Prop) (a b : A) :
  R a b -> sim R (ret a) (ret b).
Proof. intros H c1 c2. exact H. Qed.

Lemma sim_bind (R : A -> A -> Prop) (R' : B -> B -> Prop)
    (m1 m2 : Eval A) (k1 k2 : A -> Eval B) :
  sim R m1 m2 ->
  (forall a b, R a b -> sim R' (k1 a) (k2 b)) ->
  sim R' (bind m1 k1) (bind m2 k2).
Proof.
  intros Hm Hk c1 c2. unfold bind.
  specialize (Hm c1 c2).
  destruct (m1 c1) as [[a|e1] c1'], (m2 c2) as [[b|e2] c2']; cbn in *;
    try contradiction.
  - apply Hk. exact Hm.
  - exact Hm.
Qed.

Lemma sim_lift_bind (R' : B -> B -> Prop) (o : outcome A)
    (k1 k2 : A -> Eval B) :
  (forall a, sim R' (k1 a) (k2 a)) ->
  sim R' (bind (lift o) k1) (bind (lift o) k2).
Proof.
  intros Hk c1 c2. unfold bind, lift. destruct o as [a|e]; cbn.
  - apply Hk.
  - reflexivity.
Qed.

End Simulation.

Lemma sim_new_threat_bind {B} (R' : B -> B -> Prop)
    (mid ty : string) (descr : list fpart) (ev : json)
    (k1 k2 : Threat -> Eval B) :
  (forall t1 t2, same_record t1 t2 -> sim R' (k1 t1) (k2 t2)) ->
  sim R' (bind (new_threat mid ty descr ev) k1)
         (bind (new_threat mid ty descr ev) k2).
Proof.
  intros Hk c1 c2. unfold bind, new_threat, datetime_utcnow, ret. cbn.
  apply Hk. reflexivity.
Qed.

Lemma sim_foreach {X A} (R : A -> A -> Prop) (l : list X)
    (body1 body2 : A -> X -> Eval A) :
  (forall x a b, R a b -> sim R (body1 a x) (body2 b x)) ->
  forall a b, R a b -> sim R (foreach l a body1) (foreach l b body2).
Proof.
  intros Hb. induction l as [|x r IH]; intros a b Hab; cbn.
  - apply sim_ret. exact Hab.
  - eapply sim_bind; [apply Hb; exact Hab|]. intros a' b' H'. apply IH.
    exact H'.
Qed.

Lemma same_records_snoc (l1 l2 : list Threat) (t1 t2 : Threat) :
  same_records l1 l2 -> same_record t1 t2 ->
  same_records (l1 ++ [t1]) (l2 ++ [t2]).
Proof.
  unfold same_records, same_record. intros Hl Ht.
  rewrite !map_app. cbn. rewrite Hl, Ht. reflexivity.
Qed.

Lemma same_records_app (l1 l2 r1 r2 : list Threat) :
  same_records l1 l2 -> same_records r1 r2 ->
  same_records (l1 ++ r1) (l2 ++ r2).
Proof.
  unfold same_records. intros Hl Hr. rewrite !map_app, Hl, Hr. reflexivity.
Qed.

(** One step of two runs of the same code on two clocks. *)
Ltac sim_step :=
  match goal with
  | |- sim _ (bind (lift _) _) (bind (lift _) _) =>
      apply sim_lift_bind; intros ?
  | |- sim _ (bind (new_threat _ _ _ _) _) (bind (new_threat _ _ _ _) _) =>
      apply sim_new_threat_bind; intros ? ? ?
  | |- sim _ (if ?b then _ else _) (if ?b then _ else _) => destruct b
  | |- sim _ (ret _) (ret _) => apply sim_ret
  | |- same_records (_ ++ [_]) (_ ++ [_]) => apply same_records_snoc
  | |- same_records (_ ++ _) (_ ++ _) => apply same_records_app
  | |- same_records [_] [_] => apply (same_records_snoc [] [])
  | |- same_records [] [] => reflexivity
  | |- same_records ?l ?l => reflexivity
  | |- same_records _ _ => assumption
  | |- same_record _ _ => assumption
  end.

Ltac sim_loop :=
  apply sim_foreach; [intros ? ? ? ?; repeat sim_step | reflexivity].

Lemma sim_open_ports (mid : string) (v : json) :
  sim same_records (_analyze_open_ports mid v) (_analyze_open_ports mid v).
Proof.
  unfold _analyze_open_ports. sim_step. sim_loop.
  eapply sim_bind with (R := same_records); [|intros l1 l2 Hl];
    repeat sim_step.
Qed.

Lemma sim_user_accounts (mid : string) (v : json) :
  sim same_records (_analyze_user_accounts mid v)
    (_analyze_user_accounts mid v).
Proof.
  unfold _analyze_user_accounts. sim_step.
  eapply sim_bind with (R := eq).
  { apply sim_foreach; [|reflexivity]. intros x n ? <-. sim_step.
    apply sim_ret. reflexivity. }
  intros n ? <-.
  eapply sim_bind with (R := same_records); [repeat sim_step|].
  intros l1 l2 Hl. apply sim_foreach; [|exact Hl].
  intros x t1 t2 Ht. repeat sim_step.
Qed.

Lemma sim_hosts_file (mid : string) (v : json) :
  sim same_records (_analyze_hosts_file mid v) (_analyze_hosts_file mid v).
Proof. unfold _analyze_hosts_file. do 2 sim_step. sim_loop. Qed.

Lemma sim_security_events (mid : string) (v : json) :
  sim same_records (_analyze_security_events mid v)
    (_analyze_security_events mid v).
Proof.
  unfold _analyze_security_events. sim_step.
  eapply sim_bind with (R := eq).
  { apply sim_foreach; [|reflexivity]. intros x l ? <-. sim_step.
    apply sim_ret. reflexivity. }
  intros l ? <-. cbv zeta. repeat sim_step.
Qed.

Lemma sim_recent_files (mid : string) (v : json) :
  sim same_records (_analyze_recent_files mid v)
    (_analyze_recent_files mid v).
Proof. unfold _analyze_recent_files. sim_step. sim_loop. Qed.

Lemma sim_scheduled_tasks (mid : string) (v : json) :
  sim same_records (_analyze_scheduled_tasks mid v)
    (_analyze_scheduled_tasks mid v).
Proof. unfold _analyze_scheduled_tasks. sim_step. sim_loop. Qed.

Lemma sim_environment_variables (mid : string) (v : json) :
  sim same_records (_analyze_environment_variables mid v)
    (_analyze_environment_variables mid v).
Proof. unfold _analyze_environment_variables. sim_step. sim_loop. Qed.

Lemma sim_section_get_bind {B} (R' : B -> B -> Prop) (p : json)
    (section key : string) (default : json) (k1 k2 : json -> Eval B) :
  (forall a, sim R' (k1 a) (k2 a)) ->
  sim R' (bind (section_get p section key default) k1)
         (bind (section_get p section key default) k2).
Proof.
  intros Hk. eapply sim_bind with (R := eq).
  - unfold section_get. sim_step. intros c1 c2. unfold lift. cbn.
    destruct (py_get _ key default); reflexivity.
  - intros a ? <-. apply Hk.
Qed.

Lemma sim_analyze_scan_data (mid : string) (p : json) :
  sim same_records (analyze_scan_data mid p) (analyze_scan_data mid p).
Proof.
  unfold analyze_scan_data. cbv zeta.
  apply sim_section_get_bind; intros a1.
  eapply sim_bind; [apply sim_open_ports|intros r1 s1 H1].
  apply sim_section_get_bind; intros a2.
  eapply sim_bind; [apply sim_user_accounts|intros r2 s2 H2].
  apply sim_section_get_bind; intros a3.
  eapply sim_bind; [apply sim_hosts_file|intros r3 s3 H3].
  apply sim_section_get_bind; intros a4.
  eapply sim_bind; [apply sim_security_events|intros r4 s4 H4].
  apply sim_section_get_bind; intros a5.
  eapply sim_bind; [apply sim_recent_files|intros r5 s5 H5].
  apply sim_section_get_bind; intros a6.
  eapply sim_bind; [apply sim_scheduled_tasks|intros r6 s6 H6].
  apply sim_section_get_bind; intros a7.
  eapply sim_bind; [apply sim_environment_variables|intros r7 s7 H7].
  apply sim_ret. repeat apply same_records_app; try assumption.
  reflexivity.
Qed.

(** C5, as stated, fails: every record is stamped with the reading of the
    clock at its creation, so two calls with the same arguments, the second
    after the first, give records that differ in [detected_at]. *)
Lemma C5_counterexample :
  let first := analyze_scan_data "machine-1" Samples.payload_svc Samples.clock0 in
  let second := analyze_scan_data "machine-1" Samples.payload_svc (snd first) in
  (exists t1, fst first = Ret [t1] /\ detected_at t1 = 0) /\
  (exists t2, fst second = Ret [t2] /\ detected_at t2 = 1000000) /\
  fst first <> fst second.
Proof.
  cbv zeta. split; [|split].
  - eexists. split; [vm_compute; reflexivity|reflexivity].
  - eexists. split; [vm_compute; reflexivity|reflexivity].
  - vm_compute. discriminate.
Qed.

(** C5, amended. For every machine id and every scan payload, two
    invocations of the analyzer with identical arguments, whatever the
    clock shows during each, end alike: both raise the same exception or
    both return sequences of records of the same length that are equal, in
    order, in every field but [detected_at]. *)
Theorem C5_deterministic_up_to_detected_at :
  forall (c1 c2 : Clock) (machine_id : string) (scan_data : json),
    unstamped_outcome (analyze c1 machine_id scan_data)
    = unstamped_outcome (analyze c2 machine_id scan_data).
Proof.
  intros c1 c2 mid p. unfold analyze.
  pose proof (sim_analyze_scan_data mid p c1 c2) as H.
  destruct (fst (analyze_scan_data mid p c1)) as [l1|e1],
           (fst (analyze_scan_data mid p c2)) as [l2|e2];
    cbn in *; try contradiction.
  - rewrite H. reflexivity.
  - rewrite H. reflexivity.
Qed.

(** *** The port rule *)

Lemma post_ret {A} (Q : A -> Prop) (a : A) : Q a -> post Q (ret a).
Proof. intros H c. exact H. Qed.

Lemma post_bind {A B} (Q : A -> Prop) (Q' : B -> Prop) (m : Eval A)
    (k : A -> Eval B) :
  post Q m -> (forall a, Q a -> post Q' (k a)) -> post Q' (bind m k).
Proof.
  intros Hm Hk c. unfold bind. specialize (Hm c).
  destruct (m c) as [[a|e] c']; cbn in *; [|exact I].
  apply Hk. exact Hm.
Qed.

Lemma post_any_bind {A B} (Q' : B -> Prop) (m : Eval A) (k : A -> Eval B) :
  (forall a, post Q' (k a)) -> post Q' (bind m k).
Proof.
  intros Hk. apply post_bind with (Q := fun _ => True).
  - intros c. destruct (fst (m c)); exact I.
  - intros a _. apply Hk.
Qed.

Lemma post_new_threat_bind {B} (Q' : B -> Prop)
    (mid ty : string) (descr : list fpart) (ev : json)
    (k : Threat -> Eval B) :
  (forall t, threat_type t = ty -> post Q' (k t)) ->
  post Q' (bind (new_threat mid ty descr ev) k).
Proof.
  intros Hk c. unfold bind, new_threat, datetime_utcnow, ret. cbn.
  apply Hk. reflexivity.
Qed.

Lemma post_foreach {X A} (Q : A -> Prop) (l : list X)
    (body : A -> X -> Eval A) :
  (forall x a, Q a -> post Q (body a x)) ->
  forall a, Q a -> post Q (foreach l a body).
Proof.
  intros Hb. induction l as [|x r IH]; intros a Ha; cbn.
  - apply post_ret. exact Ha.
  - eapply post_bind; [apply Hb; exact Ha|]. exact IH.
Qed.

Lemma others_snoc (l : list Threat) (t : Threat) :
  others l -> other_type t = true -> others (l ++ [t]).
Proof.
  intros Hl Ht. apply Forall_app. split; [exact Hl|]. constructor; auto.
Qed.

Lemma others_app (l r : list Threat) :
  others l -> others r -> others (l ++ r).
Proof. intros Hl Hr. apply Forall_app. split; assumption. Qed.

Lemma other_type_of (t : Threat) (ty : string) :
  threat_type t = ty ->
  (negb (ty =? "PUERTO_SOSPECHOSO") && negb (ty =? "PROCESO_MALICIOSO"))%string
  = true ->
  other_type t = true.
Proof. intros <-. exact (fun H => H). Qed.

Ltac post_step :=
  match goal with
  | |- post _ (bind (new_threat _ _ _ _) _) =>
      apply post_new_threat_bind; intros ? ?
  | |- post _ (bind (lift _) _) => apply post_any_bind; intros ?
  | |- post _ (bind (section_get _ _ _ _) _) => apply post_any_bind; intros ?
  | |- post _ (if ?b then _ else _) => destruct b
  | |- post _ (ret _) => apply post_ret
  | |- others (_ ++ [_]) => apply others_snoc
  | |- others [_] => apply (others_snoc [])
  | |- others [] => constructor
  | |- others _ => assumption
  | |- other_type _ = true =>
      eapply other_type_of; [eassumption|reflexivity]
  end.

Ltac post_loop :=
  apply post_foreach; [intros ? ? ?; repeat post_step | constructor].

Lemma post_user_accounts (mid : string) (v : json) :
  post others (_analyze_user_accounts mid v).
Proof.
  unfold _analyze_user_accounts. post_step. apply post_any_bind. intros n.
  eapply post_bind with (Q := others); [repeat post_step|].
  intros l Hl. apply post_foreach; [|exact Hl].
  intros x acc Hacc. repeat post_step.
Qed.

Lemma post_hosts_file (mid : string) (v : json) :
  post others (_analyze_hosts_file mid v).
Proof. unfold _analyze_hosts_file. do 2 post_step. post_loop. Qed.

Lemma post_security_events (mid : string) (v : json) :
  post others (_analyze_security_events mid v).
Proof.
  unfold _analyze_security_events. post_step. apply post_any_bind.
  intros l. cbv zeta. repeat post_step.
Qed.

Lemma post_recent_files (mid : string) (v : json) :
  post others (_analyze_recent_files mid v).
Proof. unfold _analyze_recent_files. post_step. post_loop. Qed.

Lemma post_scheduled_tasks (mid : string) (v : json) :
  post others (_analyze_scheduled_tasks mid v).
Proof. unfold _analyze_scheduled_tasks. post_step. post_loop. Qed.

Lemma post_environment_variables (mid : string) (v : json) :
  post others (_analyze_environment_variables mid v).
Proof. unfold _analyze_environment_variables. post_step. post_loop. Qed.

Lemma post_other_rules (mid : string) (p : json) :
  post others (other_rules mid p).
Proof.
  unfold other_rules. cbv zeta.
  post_step. eapply post_bind; [apply post_user_accounts|intros r2 H2].
  post_step. eapply post_bind; [apply post_hosts_file|intros r3 H3].
  post_step. eapply post_bind; [apply post_security_events|intros r4 H4].
  post_step. eapply post_bind; [apply post_recent_files|intros r5 H5].
  post_step. eapply post_bind; [apply post_scheduled_tasks|intros r6 H6].
  post_step.
  eapply post_bind; [apply post_environment_variables|intros r7 H7].
  apply post_ret. repeat (apply others_app; [|assumption]). constructor.
Qed.

(** [analyze_scan_data] is the port rule followed by the six other rules. *)
Lemma analyze_split (mid : string) (p : json) (c : Clock) :
  fst (analyze_scan_data mid p c)
  = fst ((a <- section_get p "security_scan" "open_ports" (JArr []) ;;
          r <- _analyze_open_ports mid a ;;
          rest <- other_rules mid p ;;
          ret (r ++ rest)%list) c).
Proof.
  unfold analyze_scan_data, other_rules, bind, ret. cbv zeta.
  repeat match goal with
         | |- context [match ?x with pair _ _ => _ end] =>
             destruct x as [[?|?] ?]; cbn
         end; try reflexivity.
  rewrite <- !app_assoc. reflexivity.
Qed.

Lemma count_type_app (ty : string) (l r : list Threat) :
  count_type ty (l ++ r) = (count_type ty l + count_type ty r)%nat.
Proof. unfold count_type. rewrite filter_app, length_app. reflexivity. Qed.

Lemma count_type_others (l : list Threat) :
  others l ->
  count_type "PUERTO_SOSPECHOSO" l = 0%nat /\
  count_type "PROCESO_MALICIOSO" l = 0%nat.
Proof.
  unfold count_type. induction 1 as [|t l Ht Hl [IH1 IH2]]; cbn.
  - split; reflexivity.
  - unfold other_type in Ht. apply andb_true_iff in Ht. destruct Ht as [H1 H2].
    apply negb_true_iff in H1, H2. rewrite H1, H2. split; assumption.
Qed.

(** The verdict on the whole analysis, from what the port rule returns on
    the open ports of the payload. *)
Lemma verdict_from_port_rule (mid : string) (d s : dict) (ports : json)
    (c c1 : Clock) (r : list Threat) :
  dict_get d "security_scan" (JObj []) = JObj s ->
  dict_get s "open_ports" (JArr []) = ports ->
  _analyze_open_ports mid ports c = (Ret r, c1) ->
  port_verdict mid (JObj d) (analyze c mid (JObj d))
    (count_type "PUERTO_SOSPECHOSO" r) (count_type "PROCESO_MALICIOSO" r).
Proof.
  intros Hs Hp Hr. unfold analyze. rewrite analyze_split.
  unfold bind at 1. unfold section_get, bind at 1, lift. cbn.
  rewrite Hs. cbn. rewrite Hp.
  unfold bind at 1. rewrite Hr.
  pose proof (post_other_rules mid (JObj d) c1) as Hrest.
  unfold bind, ret.
  destruct (other_rules mid (JObj d) c1) as [[rest|ex] c2] eqn:E;
    cbn in Hrest; cbn.
  - destruct (count_type_others rest Hrest) as [H1 H2].
    rewrite !count_type_app, H1, H2, !Nat.add_0_r. split; reflexivity.
  - exists c1. exact (f_equal fst E).
Qed.

Ltac run_port_rule :=
  unfold _analyze_open_ports, new_threat, datetime_utcnow, bind, lift, ret;
  cbn.

(** The port rule on one entry with port 31337 owned by svc.exe. *)
Lemma open_ports_svc (mid : string) (e : dict) (c : Clock) :
  dict_get e "port" JNull = JInt 31337 ->
  dict_get e "process_name" (JStr "") = JStr "svc.exe" ->
  exists t c1,
    _analyze_open_ports mid (JArr [JObj e]) c = (Ret [t], c1) /\
    threat_type t = "PUERTO_SOSPECHOSO".
Proof.
  intros Hport Hname. run_port_rule. rewrite Hport, Hname. cbn.
  do 2 eexists. split; reflexivity.
Qed.

(** The port rule on one entry with a port that is not in the list, owned
    by netcat.exe. *)
Lemma open_ports_netcat (mid : string) (e : dict) (c : Clock) :
  py_in_list (dict_get e "port" JNull) suspicious_ports = false ->
  dict_get e "process_name" (JStr "") = JStr "netcat.exe" ->
  exists t c1,
    _analyze_open_ports mid (JArr [JObj e]) c = (Ret [t], c1) /\
    threat_type t = "PROCESO_MALICIOSO".
Proof.
  intros Hport Hname.
  unfold _analyze_open_ports, new_threat, datetime_utcnow, bind, lift, ret.
  cbn [py_iter foreach py_get fst snd]. rewrite Hport, Hname. cbn.
  do 2 eexists. split; reflexivity.
Qed.

(** C6. Take a payload whose open-ports list has exactly one entry. The
    records are those of type PUERTO_SOSPECHOSO (the specification's
    SUSPICIOUS_PORT) and PROCESO_MALICIOSO (its MALICIOUS_PROCESS). When the
    entry has port 31337 and process svc.exe, the analysis returns records of
    which exactly one is of a suspicious port and none of a malicious
    process; when the entry has a port outside the suspicious list and
    process netcat.exe, exactly one is of a malicious process and none of a
    suspicious port. The analysis returns unless one of the six other rules
    raises on its own section of the payload. *)
Theorem C6_port_rule :
  forall (c : Clock) (machine_id : string) (d s e : dict),
    dict_get d "security_scan" (JObj []) = JObj s ->
    dict_get s "open_ports" (JArr []) = JArr [JObj e] ->
    (dict_get e "port" JNull = JInt 31337 ->
     dict_get e "process_name" (JStr "") = JStr "svc.exe" ->
     port_verdict machine_id (JObj d) (analyze c machine_id (JObj d)) 1 0) /\
    (py_in_list (dict_get e "port" JNull) suspicious_ports = false ->
     dict_get e "process_name" (JStr "") = JStr "netcat.exe" ->
     port_verdict machine_id (JObj d) (analyze c machine_id (JObj d)) 0 1).
Proof.
  intros c mid d s e Hs Hp. split; intros Hport Hname.
  - destruct (open_ports_svc mid e c Hport Hname) as (t & c1 & Hr & Ht).
    pose proof (verdict_from_port_rule mid d s _ c c1 [t] Hs Hp Hr) as H.
    unfold count_type in H. cbn in H. rewrite Ht in H. exact H.
  - destruct (open_ports_netcat mid e c Hport Hname) as (t & c1 & Hr & Ht).
    pose proof (verdict_from_port_rule mid d s _ c c1 [t] Hs Hp Hr) as H.
    unfold count_type in H. cbn in H. rewrite Ht in H. exact H.
Qed.

(** An instance of C6: the two sample payloads, which have no other
    section, so that the analysis returns. *)
Lemma C6_witness :
  (exists ts,
     analyze Samples.clock0 "machine-1" Samples.payload_svc = Ret ts /\
     count_type "PUERTO_SOSPECHOSO" ts = 1%nat /\
     count_type "PROCESO_MALICIOSO" ts = 0%nat) /\
  (exists ts,
     analyze Samples.clock0 "machine-1" Samples.payload_netcat = Ret ts /\
     count_type "PUERTO_SOSPECHOSO" ts = 0%nat /\
     count_type "PROCESO_MALICIOSO" ts = 1%nat).
Proof.
  split.
  - pose proof
      (proj1 (C6_port_rule Samples.clock0 "machine-1"
                [("security_scan", JObj Samples.section_svc)]
                Samples.section_svc Samples.entry_svc eq_refl eq_refl)
         eq_refl eq_refl) as H.
    eexists. split; [vm_compute; reflexivity|]. exact H.
  - pose proof
      (proj2 (C6_port_rule Samples.clock0 "machine-1"
                [("security_scan", JObj Samples.section_netcat)]
                Samples.section_netcat Samples.entry_netcat eq_refl eq_refl)
         eq_refl eq_refl) as H.
    eexists. split; [vm_compute; reflexivity|]. exact H.
Defined.

End ThreatAnalyzerProps.

(** * Further properties *)

(** ** The scan scheduler, continued *)

Module SchedulerMore.
Import Scheduler.

Ltac run_scheduler :=
  unfold init, mark_scan_completed, force_next_scan, update_interval,
    get_time_until_next_scan, should_scan, _calculate_next_scan, when, bind,
    ret, log, emit, modify, datetime_now, set_last_scan_time,
    set_next_scan_time, get_sched, get_config, lift;
  cbn.

(** X1. [force_next_scan] returns, keeps the time of the last scan, and makes the
    scan due: in every world that holds the scheduler it left, at a time not
    before the call, [should_scan] returns true. *)
Theorem force_next_scan_makes_due :
  forall (w : World),
    exists w1,
      force_next_scan w = (Ret tt, w1) /\
      last_scan_time (w_sched w1) = last_scan_time (w_sched w) /\
      next_scan_time (w_sched w1) = Some (next_reading w) /\
      forall w2, w_sched w2 = w_sched w1 ->
        next_reading w <= next_reading w2 ->
        exists w3, should_scan w2 = (Ret true, w3).
Proof.
  intros w. run_scheduler. eexists. split; [reflexivity|]. cbn.
  split; [reflexivity|]. split; [reflexivity|].
  intros w2 H2 Hle.
  destruct (SchedulerProps.should_scan_run w2 (next_reading w))
    as (w3 & Hrun & _).
  { rewrite H2. reflexivity. }
  apply Z.leb_le in Hle. rewrite Hle in Hrun. exists w3. exact Hrun.
Qed.




(** X3. [get_time_until_next_scan] returns a span that is never negative, is
    the distance from the clock to [next_scan_time] when that lies ahead,
    and is zero exactly when [should_scan] answers true at the same reading
    of the clock; it leaves the scheduler as it was. *)
Theorem time_until_next_scan_agrees_with_should_scan :
  forall (w : World),
    exists d w',
      get_time_until_next_scan w = (Ret d, w') /\
      w_sched w' = w_sched w /\
      0 <= d /\
      (d = 0 <-> fst (should_scan w) = Ret true) /\
      (forall next, next_scan_time (w_sched w) = Some next ->
         d = Z.max 0 (next - next_reading w)).
Proof.
  intros w. run_scheduler. unfold next_reading.
  destruct (next_scan_time (w_sched w)) as [next|] eqn:Hn; cbn.
  - destruct (next <=? env_now (w_env w) (w_nows w)) eqn:Hle; cbn.
    + exists 0. eexists. split; [reflexivity|]. cbn.
      apply Z.leb_le in Hle.
      repeat split; try lia. intros n Hn'. injection Hn' as <-. lia.
    + exists (next - env_now (w_env w) (w_nows w)). eexists.
      split; [reflexivity|]. cbn. apply Z.leb_gt in Hle.
      split; [reflexivity|]. split; [lia|]. split.
      * split; [lia|discriminate].
      * intros n Hn'. injection Hn' as <-. lia.
  - exists 0. eexists. split; [reflexivity|]. cbn.
    repeat split; try lia. discriminate.
Qed.

End SchedulerMore.

(** ** The remote client, continued *)

Module ApiClientMore.
Import ApiClient Observed.

#[local] Arguments _make_request : simpl never.

(** The one request of the primitive: its method, the base URL followed by
    the path, and the body, which goes along only when it is truthy. *)
Lemma make_request_requests (method endpoint : string) (data : option json)
    (w : World) :
  requests (w_trace (snd (_make_request method endpoint data w)))
  = (method, api_base_url (w_config w) ++ endpoint,
     match data with
     | Some d => if truthy d then Some d else None
     | None => None
     end) :: requests (w_trace w) /\
  w_session (snd (_make_request method endpoint data w)) = SessionOpen.
Proof.
  unfold _make_request, _get_session, session_request, try_except, when,
    bind, ret, raise, log, emit, modify, get_config, lift. cbn.
  assert (Hs : forall s, w_env (match w_session w with
                                | SessionOpen => w
                                | _ => with_session s w end) = w_env w
                         /\ w_https (match w_session w with
                                | SessionOpen => w
                                | _ => with_session s w end) = w_https w).
  { intros s. destruct (w_session w); auto. }
  destruct (Hs SessionOpen) as [He Hh]. rewrite He, Hh. clear Hs He Hh.
  destruct (env_http (w_env w) (w_https w)) as [r|[|] msg]; cbn;
    [destruct (status r =? 200); cbn; [destruct (decoded r); cbn|]| |];
    destruct (w_session w) eqn:Hsession; cbn; rewrite ?Hsession; split;
    reflexivity.
Qed.

(** X4. The session of the client: every request leaves it open, having made
    one when there was none or a closed one; [close] returns without
    raising and leaves no open session; closing again, or closing when no
    session is open, changes nothing at all. *)
Theorem session_is_reopened_and_close_is_idempotent :
  (forall method endpoint data w,
     w_session (snd (_make_request method endpoint data w)) = SessionOpen) /\
  (forall w,
     fst (close w) = Ret tt /\
     w_session (snd (close w)) <> SessionOpen /\
     close (snd (close w)) = (Ret tt, snd (close w))) /\
  (forall w, w_session w <> SessionOpen -> close w = (Ret tt, w)).
Proof.
  split; [|split].
  - intros method endpoint data w.
    apply (make_request_requests method endpoint data w).
  - intros w. unfold close.
    destruct (w_session w) eqn:Hs; cbn; rewrite ?Hs; cbn;
      repeat split; try discriminate; try congruence.
  - intros w Hs. unfold close. destruct (w_session w); congruence.
Qed.

Lemma dict_set_cons (d : dict) (k : string) (v : json) :
  exists kv rest, dict_set d k v = kv :: rest.
Proof.
  destruct d as [|[k0 v0] r]; cbn; [eauto|].
  destruct (k0 =? k)%string; eauto.
Qed.

(** What is left of an operation once its request is made only logs. *)
Ltac after_request :=
  match goal with
  | |- context [_make_request ?m ?e ?d ?W] =>
      generalize (make_request_requests m e d W);
      destruct (_make_request m e d W) as [[resp|exc] w2]; cbn;
      intros [Hreq _]
  end.

Ltac finish_request Hreq :=
  repeat match goal with
         | |- context [match ?x with _ => _ end] =>
             lazymatch x with
             | context [match _ with _ => _ end] => fail
             | _ =>
                 lazymatch type of x with
                 | (_ * _)%type => fail
                 | _ => destruct x; cbn
                 end
             end
         end;
  try (rewrite Hreq; reflexivity).

(** X5. No operation of the client retries: whatever the outcome, the task
    check, the connection test and the registration make exactly one request
    each, a GET of the task path or a POST of the identity to the
    registration path; [send_scan_data] on a dict makes exactly one, a POST
    to the scan path of that dict with the identity written into it; on
    anything else it raises before any request. *)
Theorem client_operations_make_one_request :
  forall (w : World),
    let url := fun path => api_base_url (w_config w) ++ path in
    requests (w_trace (snd (check_tasks w)))
    = ("GET", url "/agent/check-task", None) :: requests (w_trace w) /\
    requests (w_trace (snd (test_connection w)))
    = ("GET", url "/agent/check-task", None) :: requests (w_trace w) /\
    requests (w_trace (snd (register_machine w)))
    = ("POST", url "/machines/register",
       Some (JObj [("machine_id", JStr (machine_id (w_config w)));
                   ("machine_name", JStr (machine_name (w_config w)));
                   ("manager_id", JStr (manager_id (w_config w)))]))
      :: requests (w_trace w) /\
    (forall r items, w_heap w r = JObj items ->
       requests (w_trace (snd (send_scan_data r w)))
       = ("POST", url "/scans",
          Some (JObj (dict_update items (identity_items (w_config w)))))
         :: requests (w_trace w)) /\
    (forall r, (forall items, w_heap w r <> JObj items) ->
       fst (send_scan_data r w) = Raise (Exn AttributeError "update") /\
       requests (w_trace (snd (send_scan_data r w))) = requests (w_trace w)).
Proof.
  intros w url. unfold url. clear url.
  split; [|split; [|split; [|split]]].
  - unfold check_tasks, try_except, bind, ret, raise, log, emit, modify,
      get_config, lift. cbn. after_request; finish_request Hreq.
  - unfold test_connection, try_except, bind, ret, raise, log, emit, modify,
      get_config, lift. cbn. after_request; finish_request Hreq.
  - unfold register_machine, try_except, bind, ret, raise, log, emit, modify,
      get_config, lift. cbn. after_request; finish_request Hreq.
  - intros r items Hheap.
    unfold send_scan_data, try_except, bind, ret, raise, log, emit, modify,
      get_config, deref, assign, lift, dict_update, identity_items. cbn.
    rewrite Hheap. cbn. rewrite Nat.eqb_refl.
    match goal with
    | |- context [Some (JObj (dict_set ?d ?k ?v))] =>
        destruct (dict_set_cons d k v) as (kv & rest & Hb); rewrite Hb
    end.
    after_request; finish_request Hreq.
  - intros r Hheap.
    unfold send_scan_data, try_except, bind, ret, raise, log, emit, modify,
      get_config, deref, assign, lift. cbn.
    destruct (w_heap w r) as [| | | | |items] eqn:Hr; cbn;
      try (split; reflexivity).
    destruct (Hheap items). reflexivity.
Qed.

(** Helpers on the dict [send_scan_data] posts. *)
Lemma send_scan_data_requests (r : nat) (w : World) (items : dict) :
  w_heap w r = JObj items ->
  requests (w_trace (snd (send_scan_data r w)))
  = ("POST", api_base_url (w_config w) ++ "/scans",
     Some (JObj (dict_update items (identity_items (w_config w)))))
    :: requests (w_trace w).
Proof.
  intros Hheap.
  unfold send_scan_data, try_except, bind, ret, raise, log, emit, modify,
    get_config, deref, assign, lift, dict_update, identity_items. cbn.
  rewrite Hheap. cbn. rewrite Nat.eqb_refl.
  match goal with
  | |- context [Some (JObj (dict_set ?d ?k ?v))] =>
      destruct (dict_set_cons d k v) as (kv & rest & Hb); rewrite Hb
  end.
  after_request; finish_request Hreq.
Qed.

Lemma dict_find_update_other (items : dict) (c : Config) (k : string) :
  identity_key k = false ->
  dict_find (dict_update items (identity_items c)) k = dict_find items k.
Proof.
  intros Hk. unfold identity_key in Hk.
  apply orb_false_iff in Hk. destruct Hk as [Hk H3].
  apply orb_false_iff in Hk. destruct Hk as [H1 H2].
  unfold dict_update, identity_items. cbn.
  rewrite !ApiClientProps.dict_find_set.
  rewrite (String.eqb_sym "machine_name" k), H3.
  rewrite (String.eqb_sym "machine_id" k), H2.
  rewrite (String.eqb_sym "manager_id" k), H1. reflexivity.
Qed.

Lemma dict_find_update_identity (items : dict) (c : Config) :
  dict_find (dict_update items (identity_items c)) "manager_id"
  = Some (JStr (manager_id c)) /\
  dict_find (dict_update items (identity_items c)) "machine_id"
  = Some (JStr (machine_id c)) /\
  dict_find (dict_update items (identity_items c)) "machine_name"
  = Some (JStr (machine_name c)).
Proof.
  unfold dict_update, identity_items. cbn.
  rewrite !ApiClientProps.dict_find_set. repeat split.
Qed.

End ApiClientMore.

(** ** The configuration updates of the server *)

Module ConfigMore.
Import ConfigOps Observed.

Ltac run_update :=
  unfold update_from_server, save_config, when, bind, ret, lift, modify,
    get_config, emit, py_contains, py_getitem, dict_mem;
  cbn.

(** X6. [update_from_server] on a dict returns. It changes nothing but the two
    intervals of the configuration and the trace: base URL and identity,
    scheduler, session and heap stay, and no request is made. An interval
    changes exactly when the dict has its key with a value that does not
    compare equal to the current one, and it becomes that value, whatever
    the value is; every other key is ignored. When an interval has changed
    the resulting configuration is written once; when neither has, the world
    is left as it was. *)
Theorem update_from_server_changes_only_the_intervals :
  forall (w : World) (d : dict),
    let c := w_config w in
    let w' := snd (update_from_server (JObj d) w) in
    let c' := w_config w' in
    let differs (old : json) (k : string) : bool :=
      match dict_find d k with
      | Some v => negb (py_eq old v)
      | None => false
      end in
    fst (update_from_server (JObj d) w) = Ret tt /\
    (api_base_url c' = api_base_url c /\ manager_id c' = manager_id c /\
     machine_id c' = machine_id c /\ machine_name c' = machine_name c) /\
    (w_sched w' = w_sched w /\ w_session w' = w_session w /\
     w_heap w' = w_heap w /\ w_env w' = w_env w /\
     requests (w_trace w') = requests (w_trace w)) /\
    scan_interval_minutes c'
    = (if differs (scan_interval_minutes c) "scan_interval_minutes"
       then dict_get d "scan_interval_minutes" JNull
       else scan_interval_minutes c) /\
    check_interval c'
    = (if differs (check_interval c) "check_interval"
       then dict_get d "check_interval" JNull
       else check_interval c) /\
    (if differs (scan_interval_minutes c) "scan_interval_minutes"
        || differs (check_interval c) "check_interval"
     then w_trace w' = EvSaveConfig c' :: w_trace w
     else w' = w).
Proof.
  intros w d. cbn zeta. run_update. unfold dict_get.
  destruct (dict_find d "scan_interval_minutes") as [v1|]; cbn;
    [destruct (py_eq (scan_interval_minutes (w_config w)) v1); cbn|];
    (destruct (dict_find d "check_interval") as [v2|]; cbn;
     [destruct (py_eq (check_interval (w_config w)) v2); cbn|]);
    repeat split; try reflexivity; destruct w; reflexivity.
Qed.






(** X8. The values of the server are not validated. When the interval is a
    number and the server sends for it a value that is none (a string, null,
    a list or a dict), [update_from_server] stores and saves that value; the
    next [mark_scan_completed] then records the time of the scan and raises
    TypeError before it has scheduled the next one, so that the scan stays
    due at the time it was due before. *)
Theorem server_interval_is_not_validated :
  forall (w : World) (d : dict) (v : json) (m : Z),
    as_number (scan_interval_minutes (w_config w)) = Some m ->
    dict_find d "scan_interval_minutes" = Some v ->
    as_number v = None ->
    exists w1 w2,
      update_from_server (JObj d) w = (Ret tt, w1) /\
      scan_interval_minutes (w_config w1) = v /\
      saves (w_trace w1) = w_config w1 :: saves (w_trace w) /\
      Scheduler.mark_scan_completed w1
      = (Raise (Exn TypeError "timedelta"), w2) /\
      last_scan_time (w_sched w2) = Some (Scheduler.next_reading w) /\
      next_scan_time (w_sched w2) = next_scan_time (w_sched w).
Proof.
  intros w d v m Hm Hv Hnone.
  assert (Hne : py_eq (scan_interval_minutes (w_config w)) v = false).
  { destruct (scan_interval_minutes (w_config w)) as [|b|x|s|l|o];
      try discriminate; cbn; rewrite Hnone; reflexivity. }
  run_update. rewrite Hv. cbn. rewrite Hne. cbn.
  destruct (dict_find d "check_interval") as [v2|]; cbn;
    [destruct (py_eq (check_interval (w_config w)) v2); cbn|];
    do 2 eexists; (split; [reflexivity|]); cbn;
    (split; [reflexivity|]); (split; [reflexivity|]);
    unfold Scheduler.mark_scan_completed, Scheduler._calculate_next_scan,
      bind, ret, log, emit, modify, datetime_now, set_last_scan_time,
      set_next_scan_time, get_sched, get_config, lift, timedelta_minutes;
    cbn; rewrite Hnone; cbn; (split; [reflexivity|]); cbn; auto.
Qed.

(** An instance: the server sends the text [soon] to the sample agent,
    whose interval is an integer. *)
Lemma server_interval_not_validated_witness :
  exists w1 w2,
    update_from_server (JObj [("scan_interval_minutes", JStr "soon")])
      Samples.agent0 = (Ret tt, w1) /\
    scan_interval_minutes (w_config w1) = JStr "soon" /\
    saves (w_trace w1) = w_config w1 :: saves (w_trace Samples.agent0) /\
    Scheduler.mark_scan_completed w1
    = (Raise (Exn TypeError "timedelta"), w2) /\
    last_scan_time (w_sched w2)
    = Some (Scheduler.next_reading Samples.agent0) /\
    next_scan_time (w_sched w2) = next_scan_time (w_sched Samples.agent0).
Proof.
  apply (server_interval_is_not_validated Samples.agent0
           [("scan_interval_minutes", JStr "soon")] (JStr "soon")
           60);
    reflexivity.
Defined.

End ConfigMore.

(** ** The orchestrator, continued *)

Module OrchestratorMore.
Import Orchestrator Observed Frames.

(** *** Runs that leave the scheduler alone *)

Lemma unmarked_refl (w : World) : unmarked w w.
Proof. split; reflexivity. Qed.

Lemma unmarked_trans (w1 w2 w3 : World) :
  unmarked w1 w2 -> unmarked w2 w3 -> unmarked w1 w3.
Proof. intros [A B] [C D]. split; congruence. Qed.

Lemma um_ret {A} (a : A) : um (ret a).
Proof. intros w. apply unmarked_refl. Qed.

Lemma um_raise {A} (e : exn) : um (@raise World A e).
Proof. intros w. apply unmarked_refl. Qed.

Lemma um_lift {A} (o : outcome A) : um (@lift World A o).
Proof. intros w. apply unmarked_refl. Qed.

Lemma um_bind {A B} (m : Run A) (k : A -> Run B) :
  um m -> (forall a, um (k a)) -> um (bind m k).
Proof.
  intros Hm Hk w. unfold bind. specialize (Hm w).
  destruct (m w) as [[a|e] w1]; cbn in *; [|exact Hm].
  exact (unmarked_trans _ _ _ Hm (Hk a w1)).
Qed.

Lemma um_try_except {A} (m : Run A) (handles : exn -> bool)
    (handler : exn -> Run A) :
  um m -> (forall e, um (handler e)) -> um (try_except m handles handler).
Proof.
  intros Hm Hh w. unfold try_except. specialize (Hm w).
  destruct (m w) as [[a|e] w1]; cbn in *; [exact Hm|].
  destruct (handles e); cbn; [|exact Hm].
  exact (unmarked_trans _ _ _ Hm (Hh e w1)).
Qed.

Lemma um_when (b : bool) (m : Run unit) : um m -> um (when b m).
Proof. intros Hm. destruct b; [exact Hm|apply um_ret]. Qed.

Lemma um_foreach {X A} (l : list X) (body : A -> X -> Run A) :
  (forall a x, um (body a x)) -> forall acc, um (foreach l acc body).
Proof.
  intros Hb. induction l as [|x r IH]; intros acc; cbn.
  - apply um_ret.
  - apply um_bind; [apply Hb|]. exact IH.
Qed.

Lemma um_emit (e : Event) :
  is_call CallMarkScanCompleted e = false -> um (emit e).
Proof.
  intros He w. split; [reflexivity|]. unfold emit, modify, calls. cbn.
  rewrite He. reflexivity.
Qed.

Lemma um_log (l : Level) (m : LogMsg) : um (log l m).
Proof. apply um_emit. reflexivity. Qed.

Ltac um_prim :=
  let w := fresh "w" in
  intros w; split; cbn;
  repeat match goal with
         | |- context [match ?x with _ => _ end] => destruct x; cbn
         end;
  reflexivity.

Lemma um_get_config : um get_config. Proof. um_prim. Qed.
Lemma um_get_state : um get_state. Proof. um_prim. Qed.
Lemma um_deref (r : nat) : um (deref r). Proof. um_prim. Qed.
Lemma um_assign (r : nat) (v : json) : um (assign r v). Proof. um_prim. Qed.
Lemma um_alloc (v : json) : um (alloc v). Proof. um_prim. Qed.
Lemma um_utcnow_isoformat : um utcnow_isoformat. Proof. um_prim. Qed.
Lemma um_with_config (f : World -> Config) :
  um (modify (fun w => with_config (f w) w)).
Proof. um_prim. Qed.

Lemma um_session_request (method url : string) (body : option json) :
  um (session_request method url body).
Proof. unfold session_request. um_prim. Qed.

Lemma um_scanner_scan (name : string) : um (scanner_scan name).
Proof. unfold scanner_scan. um_prim. Qed.

Lemma um_asyncio_sleep (delay : json) : um (asyncio_sleep delay).
Proof.
  unfold asyncio_sleep. destruct (as_number delay); [um_prim|apply um_raise].
Qed.

Lemma um_get_session : um ApiClient._get_session.
Proof.
  unfold ApiClient._get_session. apply um_bind; [|intros; apply um_ret].
  um_prim.
Qed.

(** One step of the proof that a run leaves the scheduler alone, by the
    shape of the run. *)
Ltac um_step :=
  first
    [ apply um_ret | apply um_raise | apply um_lift | apply um_log
    | apply um_get_config | apply um_get_state | apply um_deref
    | apply um_assign | apply um_alloc | apply um_utcnow_isoformat
    | apply um_with_config | apply um_session_request
    | apply um_scanner_scan | apply um_asyncio_sleep | apply um_get_session
    | apply um_emit; reflexivity
    | apply um_when
    | apply um_bind; [|intros ?]
    | apply um_try_except; [|intros ?]
    | apply um_foreach; intros ? ?
    | match goal with
      | |- um (if ?b then _ else _) => destruct b
      | |- um (match ?x with _ => _ end) => destruct x
      end ].

Lemma um_make_request (method endpoint : string) (data : option json) :
  um (ApiClient._make_request method endpoint data).
Proof. unfold ApiClient._make_request. repeat um_step. Qed.

Lemma um_send_scan_data (r : nat) : um (ApiClient.send_scan_data r).
Proof.
  unfold ApiClient.send_scan_data.
  repeat first [apply um_make_request | um_step].
Qed.

Lemma um_check_tasks : um ApiClient.check_tasks.
Proof.
  unfold ApiClient.check_tasks.
  repeat first [apply um_make_request | um_step].
Qed.

Lemma um_update_from_server (v : json) : um (ConfigOps.update_from_server v).
Proof.
  unfold ConfigOps.update_from_server, ConfigOps.save_config.
  repeat um_step.
Qed.

Lemma um_perform_scan : um perform_scan.
Proof.
  unfold perform_scan, run_scanners, run_scanner, store_scanner_data.
  repeat first [apply um_send_scan_data | um_step].
Qed.

Lemma um_check_for_tasks : um check_for_tasks.
Proof.
  unfold check_for_tasks.
  repeat first [ apply um_check_tasks | apply um_perform_scan
               | apply um_update_from_server | um_step ].
Qed.

(** X9. Only the scheduled attempt of a pass is ever marked completed: the task
    check with the scan it may force, a scan attempt by itself and the
    single-shot mode leave the scheduler as it was and never call
    [mark_scan_completed], whatever the environment does. *)
Theorem forced_and_single_scans_are_never_marked_completed :
  forall (w : World),
    unmarked w (snd (check_for_tasks w)) /\
    unmarked w (snd (perform_scan w)) /\
    unmarked w (snd (run_single_scan w)).
Proof.
  intros w. split; [apply um_check_for_tasks|].
  split; [apply um_perform_scan|].
  unfold run_single_scan.
  apply (um_bind (log INFO LSingleScan) (fun _ => perform_scan));
    [apply um_log|intros _; apply um_perform_scan].
Qed.

(** *** Runs that raise nothing but exceptions *)

Lemma tame_ret {A} (a : A) : tame (ret a).
Proof. intros w. split; [reflexivity|]. intros _ e H. discriminate. Qed.

Lemma tame_raise {A} (e : exn) :
  is_exception e = true -> tame (@raise World A e).
Proof.
  intros He w. split; [reflexivity|]. intros _ e' H. injection H as <-.
  exact He.
Qed.

Lemma tame_lift {A} (o : outcome A) :
  (forall e, o = Raise e -> is_exception e = true) -> tame (@lift World A o).
Proof. intros Ho w. split; [reflexivity|]. intros _ e H. apply Ho. exact H. Qed.

Lemma tame_bind {A B} (m : Run A) (k : A -> Run B) :
  tame m -> (forall a, tame (k a)) -> tame (bind m k).
Proof.
  intros Hm Hk w. unfold bind. destruct (Hm w) as [He Hr].
  destruct (m w) as [[a|e] w1]; cbn in *.
  - destruct (Hk a w1) as [He1 Hr1]. split; [congruence|].
    intros Hc. apply Hr1. rewrite He. exact Hc.
  - split; [exact He|]. intros Hc e' H. injection H as <-.
    exact (Hr Hc e eq_refl).
Qed.

Lemma tame_try_except {A} (m : Run A) (handler : exn -> Run A) :
  tame m -> (forall e, is_exception e = true -> tame (handler e)) ->
  tame (try_except m is_exception handler).
Proof.
  intros Hm Hh w. unfold try_except. destruct (Hm w) as [He Hr].
  destruct (m w) as [[a|e] w1]; cbn in *.
  - split; [exact He|]. intros _ e H. discriminate.
  - destruct (is_exception e) eqn:Hx; cbn.
    + destruct (Hh e Hx w1) as [He1 Hr1]. split; [congruence|].
      intros Hc. apply Hr1. rewrite He. exact Hc.
    + split; [exact He|]. exact Hr.
Qed.

Lemma tame_when (b : bool) (m : Run unit) : tame m -> tame (when b m).
Proof. intros Hm. destruct b; [exact Hm|apply tame_ret]. Qed.

Lemma tame_foreach {X A} (l : list X) (body : A -> X -> Run A) :
  (forall a x, tame (body a x)) -> forall acc, tame (foreach l acc body).
Proof.
  intros Hb. induction l as [|x r IH]; intros acc; cbn.
  - apply tame_ret.
  - apply tame_bind; [apply Hb|]. exact IH.
Qed.

Ltac tame_prim :=
  let w := fresh "w" in
  let Hc := fresh "Hc" in
  let e := fresh "e" in
  let H := fresh "H" in
  intros w; split; cbn;
  [ repeat match goal with
           | |- context [match ?x with _ => _ end] => destruct x; cbn
           end; reflexivity
  | intros Hc e H;
    repeat match type of H with
           | context [match ?x with _ => _ end] => destruct x; cbn in H
           end;
    first [discriminate | injection H as <-; reflexivity] ].

Lemma tame_emit (e : Event) : tame (emit e). Proof. tame_prim. Qed.
Lemma tame_log (l : Level) (m : LogMsg) : tame (log l m).
Proof. apply tame_emit. Qed.
Lemma tame_get_config : tame get_config. Proof. tame_prim. Qed.
Lemma tame_get_state : tame get_state. Proof. tame_prim. Qed.
Lemma tame_get_sched : tame get_sched. Proof. tame_prim. Qed.
Lemma tame_deref (r : nat) : tame (deref r). Proof. tame_prim. Qed.
Lemma tame_assign (r : nat) (v : json) : tame (assign r v).
Proof. tame_prim. Qed.
Lemma tame_alloc (v : json) : tame (alloc v). Proof. tame_prim. Qed.
Lemma tame_utcnow_isoformat : tame utcnow_isoformat. Proof. tame_prim. Qed.
Lemma tame_datetime_now : tame datetime_now. Proof. tame_prim. Qed.
Lemma tame_with_config (f : World -> Config) :
  tame (modify (fun w => with_config (f w) w)).
Proof. tame_prim. Qed.
Lemma tame_set_last_scan_time (t : option Z) : tame (set_last_scan_time t).
Proof. tame_prim. Qed.
Lemma tame_set_next_scan_time (t : option Z) : tame (set_next_scan_time t).
Proof. tame_prim. Qed.

Lemma tame_session_request (method url : string) (body : option json) :
  tame (session_request method url body).
Proof. unfold session_request. tame_prim. Qed.

Lemma tame_scanner_scan (name : string) : tame (scanner_scan name).
Proof.
  intros w. split; [reflexivity|]. intros [Hscan _] e H. cbn in H.
  exact (Hscan _ _ _ H).
Qed.

Lemma tame_asyncio_sleep (delay : json) : tame (asyncio_sleep delay).
Proof.
  unfold asyncio_sleep. destruct (as_number delay);
    [|apply tame_raise; reflexivity].
  intros w. split; [destruct (env_sleep (w_env w) (w_sleeps w)); reflexivity|].
  intros [_ Hsleep] e H. rewrite Hsleep in H. discriminate.
Qed.

Lemma tame_get_session : tame ApiClient._get_session.
Proof.
  unfold ApiClient._get_session. apply tame_bind; [|intros; apply tame_ret].
  tame_prim.
Qed.

Lemma timedelta_minutes_raises (v : json) (e : exn) :
  timedelta_minutes v = Raise e -> is_exception e = true.
Proof.
  unfold timedelta_minutes. destruct (as_number v); intros H;
    [discriminate|injection H as <-; reflexivity].
Qed.

(** One step of the proof that a run is tame, by the shape of the run. *)
Ltac tame_step :=
  first
    [ apply tame_ret | apply tame_log | apply tame_emit
    | apply tame_raise; first [reflexivity | assumption]
    | apply tame_lift; intros ? ?;
      first [ eapply OrchestratorProps.py_get_raises; eassumption
            | eapply OrchestratorProps.py_contains_raises; eassumption
            | eapply OrchestratorProps.py_getitem_raises; eassumption
            | eapply timedelta_minutes_raises; eassumption ]
    | apply tame_get_config | apply tame_get_state | apply tame_get_sched
    | apply tame_deref | apply tame_assign | apply tame_alloc
    | apply tame_utcnow_isoformat | apply tame_datetime_now
    | apply tame_with_config | apply tame_set_last_scan_time
    | apply tame_set_next_scan_time | apply tame_session_request
    | apply tame_scanner_scan | apply tame_asyncio_sleep
    | apply tame_get_session
    | apply tame_when
    | apply tame_bind; [|intros ?]
    | apply tame_try_except; [|intros ? ?]
    | apply tame_foreach; intros ? ?
    | match goal with
      | |- tame (if ?b then _ else _) => destruct b
      | |- tame (match ?x with _ => _ end) => destruct x
      end ].

Lemma tame_make_request (method endpoint : string) (data : option json) :
  tame (ApiClient._make_request method endpoint data).
Proof. unfold ApiClient._make_request. repeat tame_step. Qed.

Lemma tame_send_scan_data (r : nat) : tame (ApiClient.send_scan_data r).
Proof.
  unfold ApiClient.send_scan_data.
  repeat first [apply tame_make_request | tame_step].
Qed.

Lemma tame_check_tasks : tame ApiClient.check_tasks.
Proof.
  unfold ApiClient.check_tasks.
  repeat first [apply tame_make_request | tame_step].
Qed.

Lemma tame_update_from_server (v : json) :
  tame (ConfigOps.update_from_server v).
Proof.
  unfold ConfigOps.update_from_server, ConfigOps.save_config.
  repeat tame_step.
Qed.

Lemma tame_perform_scan : tame perform_scan.
Proof.
  unfold perform_scan, run_scanners, run_scanner, store_scanner_data.
  repeat first [apply tame_send_scan_data | tame_step].
Qed.

Lemma tame_check_for_tasks : tame check_for_tasks.
Proof.
  unfold check_for_tasks.
  repeat first [ apply tame_check_tasks | apply tame_perform_scan
               | apply tame_update_from_server | tame_step ].
Qed.

Lemma tame_should_scan : tame Scheduler.should_scan.
Proof. unfold Scheduler.should_scan. repeat tame_step. Qed.

Lemma tame_mark_scan_completed : tame Scheduler.mark_scan_completed.
Proof.
  unfold Scheduler.mark_scan_completed, Scheduler._calculate_next_scan.
  repeat tame_step.
Qed.

Lemma bind_returns_only {A B} (m : Run A) (k : A -> Run B) (c : B) :
  (forall a w b w', k a w = (Ret b, w') -> b = c) ->
  forall w b w', bind m k w = (Ret b, w') -> b = c.
Proof.
  intros Hk w b w' H. unfold bind in H.
  destruct (m w) as [[a|e] w1]; [|discriminate]. exact (Hk a w1 b w' H).
Qed.

(** A pass of the loop in a calm environment ends in [Continue]. *)
Lemma loop_body_calm (w : World) :
  calm (w_env w) ->
  fst (loop_body w) = Ret Continue /\ w_env (snd (loop_body w)) = w_env w.
Proof.
  intros Hc. unfold loop_body.
  match goal with
  | |- context [try_except ?b _ _] => set (body := b)
  end.
  assert (Hb : tame body).
  { unfold body.
    repeat first [ apply tame_check_for_tasks | apply tame_should_scan
                 | apply tame_perform_scan | apply tame_mark_scan_completed
                 | tame_step ]. }
  assert (Hret : forall w0 b w', body w0 = (Ret b, w') -> b = Continue).
  { unfold body. repeat (apply bind_returns_only; intros ?).
    intros w0 b w' H. injection H as <- _. reflexivity. }
  unfold try_except. destruct (Hb w) as [He Hr].
  destruct (body w) as [[p|e] w1] eqn:E; cbn in *.
  - split; [|exact He]. rewrite (Hret w p w1 E). reflexivity.
  - pose proof (Hr Hc e eq_refl) as Hx.
    unfold handles_loop. rewrite Hx, orb_true_r.
    unfold on_loop_error.
    assert (Hk : is_keyboard_interrupt e = false).
    { destruct e as [[] msg]; cbn in *; congruence. }
    rewrite Hk. unfold asyncio_sleep, bind, log, emit, modify, ret. cbn.
    destruct Hc as [_ Hsleep]. rewrite He, Hsleep. cbn. auto.
Qed.

(** X10. In an environment where collection modules raise nothing but subclasses
    of [Exception] and no sleep is interrupted, whatever the server answers
    and whatever the modules return or raise, every pass of the loop ends
    ready for the next one, and [run_continuous] has not left its loop
    after any number of passes. *)
Theorem continuous_mode_survives_every_exception :
  forall (w : World),
    calm (w_env w) ->
    fst (loop_body w) = Ret Continue /\
    forall fuel, fst (run_continuous fuel w) = Ret None.
Proof.
  intros w Hc. split; [apply loop_body_calm; exact Hc|].
  intros fuel. unfold run_continuous, bind, log, emit, modify. cbn.
  assert (Hw : forall n w0, calm (w_env w0) ->
                            fst (while_true n w0) = Ret None).
  { induction n as [|n IH]; intros w0 Hc0; cbn; [reflexivity|].
    unfold bind. destruct (loop_body_calm w0 Hc0) as [Hp He].
    destruct (loop_body w0) as [[p|e] w1]; cbn in *; [|discriminate].
    injection Hp as ->. apply IH. rewrite He. exact Hc0. }
  apply Hw. exact Hc.
Qed.

(** An instance: the sample agent, whose server cannot be reached. *)
Lemma continuous_mode_witness :
  fst (loop_body Samples.agent0) = Ret Continue /\
  forall fuel, fst (run_continuous fuel Samples.agent0) = Ret None.
Proof.
  apply (continuous_mode_survives_every_exception Samples.agent0).
  split.
  - intros n name x H. discriminate H.
  - intros n. reflexivity.
Defined.

(** *** A pass without a scan *)

#[local] Arguments check_for_tasks : simpl never.
#[local] Arguments Scheduler.should_scan : simpl never.
#[local] Arguments perform_scan : simpl never.

Lemma should_scan_not_due (w : World) (next : Z) :
  next_scan_time (w_sched w) = Some next ->
  Scheduler.next_reading w < next ->
  Scheduler.should_scan w
  = (Ret false,
     with_counters (S (w_nows w)) (w_isos w) (w_https w) (w_scans w)
       (w_sleeps w) w).
Proof.
  intros Hn Hlt. unfold Scheduler.should_scan, bind, get_sched, datetime_now,
    when, ret. cbn. rewrite Hn. cbn. unfold Scheduler.next_reading in Hlt.
  apply Z.leb_gt in Hlt. rewrite Hlt. reflexivity.
Qed.

Ltac close_wait :=
  split; [assumption|]; split; [assumption|]; split; [assumption|];
  let Hnn := fresh "Hnn" in
  intros Hnn;
  first
    [ destruct (Hnn eq_refl)
    | clear Hnn; split;
      [ let Hnone := fresh "Hnone" in
        intros Hnone; first [discriminate | split; reflexivity]
      | let e' := fresh "e" in
        let He' := fresh "He" in
        let Hk' := fresh "Hk" in
        intros e' He' Hk';
        first [ discriminate
              | injection He' as <-;
                first [congruence | split; reflexivity] ] ] ].

Lemma loop_body_waiting (w w1 w2 : World) :
  check_for_tasks w = (Ret tt, w1) ->
  Scheduler.should_scan w1 = (Ret false, w2) ->
  loop_body w
  = try_except
      (c <- get_config ;;
       asyncio_sleep (check_interval c) ;;;
       ret Continue)
      handles_loop on_loop_error w2.
Proof.
  intros H1 H2. unfold loop_body, try_except.
  unfold bind at 1. rewrite H1. unfold bind at 1. rewrite H2.
  reflexivity.
Qed.

(** X11. A pass in which the task check asks for no scan and the scan is not yet
    due: the pass makes the one request of the task check, calls no
    collection module, sends nothing, leaves the scheduler as it was, and
    then sleeps the check interval of the configuration. When that sleep is
    not interrupted the loop goes on; when it is interrupted by
    [KeyboardInterrupt] the loop is left. *)
Theorem waiting_pass_only_checks_tasks_and_sleeps :
  forall (w : World) (next : Z),
    forces_scan (ApiClient.request_result (ApiClient.next_outcome w)) = false ->
    next_scan_time (w_sched w) = Some next ->
    Scheduler.next_reading w < next ->
    let w' := snd (loop_body w) in
    added w w' 0 0 /\
    w_scans w' = w_scans w /\
    w_https w' = S (w_https w) /\
    w_sched w' = w_sched w /\
    (as_number (check_interval (w_config w')) <> None ->
     (env_sleep (w_env w) (w_sleeps w) = None ->
      fst (loop_body w) = Ret Continue /\
      hd_error (w_trace w') = Some (EvSleep (check_interval (w_config w')))) /\
     (forall e, env_sleep (w_env w) (w_sleeps w) = Some e ->
        is_keyboard_interrupt e = true ->
        fst (loop_body w) = Ret Break /\
        hd_error (w_trace w') = Some (EvLog INFO LStoppedByUser))).
Proof.
  intros w next Hforce Hnext Hlt.
  destruct (OrchestratorProps.check_for_tasks_no_force w Hforce)
    as (w1 & Hcheck & (He & Hn & Hs & Hc & Hsl) & Ha & Hsc & Hh).
  assert (Hshould := should_scan_not_due w1 next).
  rewrite Hs in Hshould. specialize (Hshould Hnext).
  unfold Scheduler.next_reading in Hshould, Hlt. rewrite He, Hc in Hshould.
  specialize (Hshould Hlt).
  rewrite (loop_body_waiting w w1 _ Hcheck Hshould). clear Hcheck Hshould.
  destruct Ha as (evs & Htr & H1 & H2).
  unfold try_except, bind, ret, get_config, asyncio_sleep, handles_loop,
    on_loop_error, log, emit, modify, raise. cbn.
  destruct (as_number (check_interval (w_config w1))) as [n|] eqn:Hnum; cbn.
  - rewrite He, Hsl.
    destruct (env_sleep (w_env w) (w_sleeps w)) as [e|] eqn:Hsleep; cbn.
    + destruct (is_keyboard_interrupt e) eqn:Hk; cbn.
      * split.
        { eexists (_ :: _ :: evs). cbn. rewrite Htr. auto. }
        rewrite Hnum. close_wait.
      * assert (Hx : is_exception e = true).
        { destruct e as [[] msg]; cbn in *; congruence. }
        rewrite Hx. unfold bind, ret. cbn. rewrite He. cbn.
        destruct (env_sleep (w_env w) (S (w_sleeps w))); cbn;
          (split; [eexists (_ :: _ :: _ :: evs); cbn; rewrite Htr; auto|]);
          rewrite Hnum; close_wait.
    + split.
      { eexists (_ :: evs). cbn. rewrite Htr. auto. }
      rewrite Hnum. close_wait.
  - unfold bind, ret. cbn. rewrite He. cbn.
    destruct (env_sleep (w_env w) (w_sleeps w1)); cbn;
      (split; [eexists (_ :: _ :: evs); cbn; rewrite Htr; auto|]);
      rewrite Hnum; close_wait.
Qed.

(** An instance: the sample agent after its first pass. *)
Lemma waiting_pass_witness :
  let w' := snd (loop_body Samples.agent_waiting) in
  added Samples.agent_waiting w' 0 0 /\
  w_scans w' = w_scans Samples.agent_waiting /\
  w_https w' = S (w_https Samples.agent_waiting) /\
  w_sched w' = w_sched Samples.agent_waiting /\
  (as_number (check_interval (w_config w')) <> None ->
   (env_sleep (w_env Samples.agent_waiting) (w_sleeps Samples.agent_waiting)
    = None ->
    fst (loop_body Samples.agent_waiting) = Ret Continue /\
    hd_error (w_trace w') = Some (EvSleep (check_interval (w_config w')))) /\
   (forall e,
      env_sleep (w_env Samples.agent_waiting) (w_sleeps Samples.agent_waiting)
      = Some e ->
      is_keyboard_interrupt e = true ->
      fst (loop_body Samples.agent_waiting) = Ret Break /\
      hd_error (w_trace w') = Some (EvLog INFO LStoppedByUser))).
Proof.
  apply (waiting_pass_only_checks_tasks_and_sleeps Samples.agent_waiting
           3602000000).
  - vm_compute. reflexivity.
  - vm_compute. reflexivity.
  - vm_compute. reflexivity.
Defined.

(** *** What a scan attempt sends *)

Lemma run_scanner_stores (r : nat) (name : string) (w : World)
    (items entries : dict) (p : json) :
  w_heap w r = JObj items ->
  dict_find items "data" = Some (JObj entries) ->
  env_scan (w_env w) (w_scans w) name = Ret p ->
  exists w',
    run_scanner r name w = (Ret tt, w') /\
    w_heap w' r
    = JObj (dict_set items "data" (JObj (dict_set entries name p))) /\
    w_env w' = w_env w /\ w_config w' = w_config w /\
    w_scans w' = S (w_scans w) /\ w_https w' = w_https w /\
    requests (w_trace w') = requests (w_trace w).
Proof.
  intros Hheap Hdata Hscan.
  unfold run_scanner, store_scanner_data, scanner_scan, bind, ret, raise,
    log, emit, modify, deref, assign, lift. cbn.
  rewrite Hscan. cbn. rewrite Hheap. cbn. rewrite Hdata. cbn.
  eexists. split; [reflexivity|]. cbn. rewrite Nat.eqb_refl. auto 10.
Qed.

(** The loop over the modules fills the ['data'] of the scan dict with the
    payload of each module under its name and changes nothing else of it. *)
Lemma run_scanners_collects (r : nat) (names : list string) :
  forall (w : World) (items entries : dict),
    NoDup names ->
    w_heap w r = JObj items ->
    dict_find items "data" = Some (JObj entries) ->
    (forall i, (i < List.length names)%nat ->
       exists p, env_scan (w_env w) (w_scans w + i) (nth i names "") = Ret p) ->
    exists w' items' entries',
      run_scanners r names w = (Ret tt, w') /\
      w_heap w' r = JObj items' /\
      dict_find items' "data" = Some (JObj entries') /\
      (forall k, k <> "data" -> dict_find items' k = dict_find items k) /\
      (forall k, ~ In k names -> dict_find entries' k = dict_find entries k) /\
      (forall i p, (i < List.length names)%nat ->
         env_scan (w_env w) (w_scans w + i) (nth i names "") = Ret p ->
         dict_find entries' (nth i names "") = Some p) /\
      w_env w' = w_env w /\ w_config w' = w_config w /\
      w_https w' = w_https w /\
      requests (w_trace w') = requests (w_trace w).
Proof.
  induction names as [|name names IH];
    intros w items entries Hnd Hheap Hdata Hall.
  - exists w, items, entries. split; [reflexivity|].
    repeat split; auto. intros i p Hi. cbn in Hi. lia.
  - destruct (Hall 0%nat) as [p Hp]; [cbn; lia|].
    rewrite Nat.add_0_r in Hp. cbn in Hp.
    destruct (run_scanner_stores r name w items entries p Hheap Hdata Hp)
      as (w1 & Hrun & Hheap1 & He1 & Hc1 & Hsc1 & Hh1 & Hq1).
    inversion Hnd as [|? ? Hnotin Hnd']; subst.
    destruct (IH w1 _ (dict_set entries name p) Hnd' Hheap1)
      as (w2 & items2 & entries2 & Hrun2 & Hheap2 & Hdata2 & Hk2 & Hout2
          & Hin2 & He2 & Hc2 & Hh2 & Hq2).
    { rewrite ApiClientProps.dict_find_set. reflexivity. }
    { intros i Hi. destruct (Hall (S i)) as [q Hq]; [cbn; lia|].
      exists q. rewrite He1, Hsc1. rewrite Nat.add_succ_r in Hq. exact Hq. }
    exists w2, items2, entries2.
    split.
    { unfold run_scanners in *. cbn [foreach]. unfold bind at 1.
      rewrite Hrun. exact Hrun2. }
    split; [exact Hheap2|]. split; [exact Hdata2|].
    split.
    { intros k Hk. rewrite (Hk2 k Hk), ApiClientProps.dict_find_set.
      destruct ("data" =? k)%string eqn:E; [|reflexivity].
      apply String.eqb_eq in E. congruence. }
    split.
    { intros k Hk. rewrite Hout2.
      - rewrite ApiClientProps.dict_find_set.
        destruct (name =? k)%string eqn:E; [|reflexivity].
        apply String.eqb_eq in E. subst k. destruct Hk. left. reflexivity.
      - intros Hin. apply Hk. right. exact Hin. }
    split.
    { intros i q Hi Hq. destruct i as [|i].
      - rewrite Nat.add_0_r in Hq. cbn in Hq. cbn [nth].
        rewrite (Hout2 name Hnotin), ApiClientProps.dict_find_set,
          String.eqb_refl. congruence.
      - cbn [nth]. apply Hin2; [cbn in Hi; lia|].
        rewrite He1, Hsc1. rewrite Nat.add_succ_r in Hq. exact Hq. }
    repeat split; congruence.
Qed.

#[local] Arguments run_scanners : simpl never.
#[local] Arguments ApiClient.send_scan_data : simpl never.

Ltac run_attempt :=
  unfold perform_scan, try_except, when, bind, ret, raise, log, emit, modify,
    get_config, get_state, deref, assign, alloc, lift, utcnow_isoformat;
  cbn.

(** X12. A scan attempt whose modules (loaded under distinct names) all return
    and whose request is answered by a dict, success or not, returns
    normally after exactly one request: a POST to the scan path of a dict
    that holds the time stamp, the scan type [full], the identity of the
    configuration and, under ['data'], the payload of every module under
    the name of the module and nothing else. *)
Theorem perform_scan_posts_every_module_payload :
  forall (w : World) (d : dict),
    NoDup (w_scanners w) ->
    modules_succeed w ->
    ApiClient.request_result (ApiClient.next_outcome w) = JObj d ->
    exists w' body entries,
      perform_scan w = (Ret tt, w') /\
      requests (w_trace w')
      = ("POST", api_base_url (w_config w) ++ "/scans", Some (JObj body))
        :: requests (w_trace w) /\
      dict_find body "timestamp"
      = Some (JStr (env_utcnow_iso (w_env w) (w_isos w))) /\
      dict_find body "scan_type" = Some (JStr "full") /\
      dict_find body "manager_id" = Some (JStr (manager_id (w_config w))) /\
      dict_find body "machine_id" = Some (JStr (machine_id (w_config w))) /\
      dict_find body "machine_name"
      = Some (JStr (machine_name (w_config w))) /\
      dict_find body "data" = Some (JObj entries) /\
      (forall i p, (i < List.length (w_scanners w))%nat ->
         scan_outcome w i = Ret p ->
         dict_find entries (nth i (w_scanners w) "") = Some p) /\
      (forall k, ~ In k (w_scanners w) -> dict_find entries k = None).
Proof.
  intros w d Hnd Hmods Hres. run_attempt.
  match goal with
  | |- context [run_scanners ?r ?n ?W] =>
      edestruct (run_scanners_collects r n W)
        as (w1 & items1 & entries1 & Hrun & Hheap & Hdata & Hkeep & Hout
            & Hin & He & Hc & Hh & Hq);
      [ exact Hnd
      | cbn; rewrite Nat.eqb_refl; unfold new_scan_data; reflexivity
      | reflexivity
      | exact Hmods
      | ]
  end.
  cbn in He, Hc, Hh, Hq, Hin. rewrite Hrun. clear Hrun. cbn.
  match goal with
  | |- context [ApiClient.send_scan_data ?r ?W] =>
      destruct (OrchestratorProps.send_scan_data_run r W)
        as (w2 & Hs & _ & _ & _);
      [ exists items1; exact Hheap
      | pose proof (ApiClientMore.send_scan_data_requests r W items1 Hheap)
          as Hreq;
        assert (Hout' : ApiClient.next_outcome W = ApiClient.next_outcome w)
          by (unfold ApiClient.next_outcome; cbn; rewrite He, Hh;
              reflexivity);
        rewrite Hout', Hres in Hs; rewrite Hs in Hreq; rewrite Hs ]
  end.
  cbn in Hreq. rewrite Hc, Hq in Hreq.
  assert (Hbody :
    dict_find (dict_update items1 (ApiClient.identity_items (w_config w)))
      "timestamp" = Some (JStr (env_utcnow_iso (w_env w) (w_isos w))) /\
    dict_find (dict_update items1 (ApiClient.identity_items (w_config w)))
      "scan_type" = Some (JStr "full") /\
    dict_find (dict_update items1 (ApiClient.identity_items (w_config w)))
      "data" = Some (JObj entries1)).
  { rewrite !ApiClientMore.dict_find_update_other by reflexivity.
    rewrite !Hkeep by discriminate. rewrite Hdata. repeat split. }
  destruct Hbody as (Hts & Hty & Hda).
  destruct (ApiClientMore.dict_find_update_identity items1 (w_config w))
    as (Hi1 & Hi2 & Hi3).
  assert (Hnone : forall k, ~ In k (w_scanners w) -> dict_find entries1 k = None).
  { intros k Hk. rewrite (Hout k Hk). reflexivity. }
  cbn.
  destruct (truthy (dict_get d "success" JNull)); cbn;
    [unfold dict_mem; destruct (dict_find d "scan_token"); cbn|];
    (eexists; exists (dict_update items1
                        (ApiClient.identity_items (w_config w))), entries1;
     split; [reflexivity|]; cbn; split; [exact Hreq|]; auto 10).
Qed.

(** An instance: the first scan of the sample agent. *)
Lemma perform_scan_witness :
  exists w' body entries,
    perform_scan Samples.agent0 = (Ret tt, w') /\
    requests (w_trace w')
    = ("POST", api_base_url (w_config Samples.agent0) ++ "/scans",
       Some (JObj body))
      :: requests (w_trace Samples.agent0) /\
    dict_find body "timestamp"
    = Some (JStr (env_utcnow_iso (w_env Samples.agent0)
                    (w_isos Samples.agent0))) /\
    dict_find body "scan_type" = Some (JStr "full") /\
    dict_find body "manager_id"
    = Some (JStr (manager_id (w_config Samples.agent0))) /\
    dict_find body "machine_id"
    = Some (JStr (machine_id (w_config Samples.agent0))) /\
    dict_find body "machine_name"
    = Some (JStr (machine_name (w_config Samples.agent0))) /\
    dict_find body "data" = Some (JObj entries) /\
    (forall i p, (i < List.length (w_scanners Samples.agent0))%nat ->
       scan_outcome Samples.agent0 i = Ret p ->
       dict_find entries (nth i (w_scanners Samples.agent0) "") = Some p) /\
    (forall k, ~ In k (w_scanners Samples.agent0) ->
       dict_find entries k = None).
Proof.
  apply (perform_scan_posts_every_module_payload Samples.agent0
           [("success", JBool false);
            ("error", JStr (ApiClient.connection_error_prefix
                            ++ "Cannot connect to host"))]).
  - repeat constructor; cbn; intuition discriminate.
  - intros i _. exists (JObj []). reflexivity.
  - reflexivity.
Defined.

(** The outcome of a scan attempt whose modules all return, by the result
    of its request. *)
Lemma perform_scan_outcome (w : World) :
  modules_succeed w ->
  fst (perform_scan w)
  = match ApiClient.request_result (ApiClient.next_outcome w) with
    | JObj _ => Ret tt
    | _ => Raise (Exn AttributeError "get")
    end.
Proof.
  intros Hmods. run_attempt.
  match goal with
  | |- context [run_scanners ?r ?n ?W] =>
      destruct (OrchestratorProps.run_scanners_ok r n W)
        as (w1 & Hrun & (He & _) & _ & Hh & Hheap);
      [ cbn; rewrite Nat.eqb_refl; do 2 eexists; split; reflexivity
      | exact Hmods
      | ]
  end.
  cbn in He, Hh. rewrite Hrun. clear Hrun. cbn.
  match goal with
  | |- context [ApiClient.send_scan_data ?r ?W] =>
      destruct (OrchestratorProps.send_scan_data_run r W)
        as (w2 & Hs & _ & _ & _);
      [ destruct Hheap as (items & ? & Hi & ?); exists items; exact Hi
      | assert (Hout' : ApiClient.next_outcome W = ApiClient.next_outcome w)
          by (unfold ApiClient.next_outcome; cbn; rewrite He, Hh;
              reflexivity);
        rewrite Hout' in Hs; rewrite Hs ]
  end.
  destruct (ApiClient.request_result (ApiClient.next_outcome w))
    as [| | | | |d]; cbn; try reflexivity.
  destruct (truthy (dict_get d "success" JNull)); cbn; [|reflexivity].
  unfold dict_mem. destruct (dict_find d "scan_token"); reflexivity.
Qed.

(** X13. Single-shot mode. When every module returns, [run_single_scan] returns
    normally whenever its request is answered by a dict, also by one that
    reports a failure, such as a refused connection or a status 500; it
    raises when the answer is no dict, and it raises the exception of the
    module when a module raises one. *)
Theorem single_shot_scan_fails_only_on_module_or_malformed_answer :
  forall (w : World),
    (modules_succeed w ->
     fst (run_single_scan w)
     = match ApiClient.request_result (ApiClient.next_outcome w) with
       | JObj _ => Ret tt
       | _ => Raise (Exn AttributeError "get")
       end) /\
    (modules_succeed w ->
     forall ce msg, ApiClient.next_outcome w = Failed ce msg ->
       fst (run_single_scan w) = Ret tt) /\
    (modules_succeed w ->
     forall resp, ApiClient.next_outcome w = Responded resp ->
       status resp <> 200 -> fst (run_single_scan w) = Ret tt) /\
    (forall e, module_raises w e -> is_exception e = true ->
       fst (run_single_scan w) = Raise e).
Proof.
  intros w.
  assert (Hrun : forall o,
            fst (perform_scan
                   (with_trace (EvLog INFO LSingleScan :: w_trace w) w)) = o ->
            fst (run_single_scan w) = o).
  { intros o H. unfold run_single_scan, bind, log, emit, modify. cbn.
    exact H. }
  assert (Hfirst : modules_succeed w ->
     fst (run_single_scan w)
     = match ApiClient.request_result (ApiClient.next_outcome w) with
       | JObj _ => Ret tt
       | _ => Raise (Exn AttributeError "get")
       end).
  { intros Hmods. apply Hrun.
    exact (perform_scan_outcome
             (with_trace (EvLog INFO LSingleScan :: w_trace w) w) Hmods). }
  split; [exact Hfirst|]. split; [|split].
  - intros Hmods ce msg Ho. rewrite (Hfirst Hmods), Ho.
    destruct ce; reflexivity.
  - intros Hmods resp Ho Hst. rewrite (Hfirst Hmods), Ho. cbn.
    apply Z.eqb_neq in Hst. rewrite Hst. reflexivity.
  - intros e Hraise Hexc. apply Hrun.
    destruct (OrchestratorProps.perform_scan_module_raises
                (with_trace (EvLog INFO LSingleScan :: w_trace w) w) e
                Hraise Hexc) as (w' & Hp & _).
    rewrite Hp. reflexivity.
Qed.

(** Instances: the sample agent, whose server cannot be reached, and the
    agent whose first module raises. *)
Lemma single_shot_witness :
  fst (run_single_scan Samples.agent0) = Ret tt /\
  fst (run_single_scan Samples.agent_broken)
  = Raise (Exn OtherException "WMI unavailable").
Proof.
  split.
  - apply (proj1 (proj2 (single_shot_scan_fails_only_on_module_or_malformed_answer
                           Samples.agent0))
             (fun i _ => ex_intro _ (JObj []) eq_refl)
             true "Cannot connect to host").
    reflexivity.
  - apply (proj2 (proj2 (proj2
             (single_shot_scan_fails_only_on_module_or_malformed_answer
                Samples.agent_broken)))).
    + exists 0%nat. split; [cbn; lia|].
      split; [intros j Hj; lia|reflexivity].
    + reflexivity.
Defined.

(** *** Runs that leave the configuration alone *)

Lemma settled_refl (w : World) : settled w w.
Proof. split; reflexivity. Qed.

Lemma settled_trans (w1 w2 w3 : World) :
  settled w1 w2 -> settled w2 w3 -> settled w1 w3.
Proof. intros [A B] [C D]. split; congruence. Qed.

Lemma st_ret {A} (a : A) : st (ret a).
Proof. intros w. apply settled_refl. Qed.

Lemma st_raise {A} (e : exn) : st (@raise World A e).
Proof. intros w. apply settled_refl. Qed.

Lemma st_lift {A} (o : outcome A) : st (@lift World A o).
Proof. intros w. apply settled_refl. Qed.

Lemma st_bind {A B} (m : Run A) (k : A -> Run B) :
  st m -> (forall a, st (k a)) -> st (bind m k).
Proof.
  intros Hm Hk w. unfold bind. specialize (Hm w).
  destruct (m w) as [[a|e] w1]; cbn in *; [|exact Hm].
  exact (settled_trans _ _ _ Hm (Hk a w1)).
Qed.

Lemma st_try_except {A} (m : Run A) (handles : exn -> bool)
    (handler : exn -> Run A) :
  st m -> (forall e, st (handler e)) -> st (try_except m handles handler).
Proof.
  intros Hm Hh w. unfold try_except. specialize (Hm w).
  destruct (m w) as [[a|e] w1]; cbn in *; [exact Hm|].
  destruct (handles e); cbn; [|exact Hm].
  exact (settled_trans _ _ _ Hm (Hh e w1)).
Qed.

Lemma st_when (b : bool) (m : Run unit) : st m -> st (when b m).
Proof. intros Hm. destruct b; [exact Hm|apply st_ret]. Qed.

Lemma st_foreach {X A} (l : list X) (body : A -> X -> Run A) :
  (forall a x, st (body a x)) -> forall acc, st (foreach l acc body).
Proof.
  intros Hb. induction l as [|x r IH]; intros acc; cbn.
  - apply st_ret.
  - apply st_bind; [apply Hb|]. exact IH.
Qed.

Ltac st_prim :=
  let w := fresh "w" in
  intros w; split; cbn;
  repeat match goal with
         | |- context [match ?x with _ => _ end] => destruct x; cbn
         end;
  reflexivity.

Lemma st_log (l : Level) (m : LogMsg) : st (log l m).
Proof. st_prim. Qed.
Lemma st_call (c : Callee) : st (emit (EvCall c)).
Proof. st_prim. Qed.
Lemma st_get_config : st get_config. Proof. st_prim. Qed.
Lemma st_get_state : st get_state. Proof. st_prim. Qed.
Lemma st_get_sched : st get_sched. Proof. st_prim. Qed.
Lemma st_deref (r : nat) : st (deref r). Proof. st_prim. Qed.
Lemma st_assign (r : nat) (v : json) : st (assign r v). Proof. st_prim. Qed.
Lemma st_alloc (v : json) : st (alloc v). Proof. st_prim. Qed.
Lemma st_utcnow_isoformat : st utcnow_isoformat. Proof. st_prim. Qed.
Lemma st_datetime_now : st datetime_now. Proof. st_prim. Qed.
Lemma st_set_last_scan_time (t : option Z) : st (set_last_scan_time t).
Proof. st_prim. Qed.
Lemma st_set_next_scan_time (t : option Z) : st (set_next_scan_time t).
Proof. st_prim. Qed.

Lemma st_session_request (method url : string) (body : option json) :
  st (session_request method url body).
Proof. unfold session_request. st_prim. Qed.

Lemma st_scanner_scan (name : string) : st (scanner_scan name).
Proof. unfold scanner_scan. st_prim. Qed.

Lemma st_get_session : st ApiClient._get_session.
Proof.
  unfold ApiClient._get_session. apply st_bind; [|intros; apply st_ret].
  st_prim.
Qed.

(** One step of the proof that a run leaves the configuration alone, by
    the shape of the run. *)
Ltac st_step :=
  first
    [ apply st_ret | apply st_raise | apply st_lift | apply st_log
    | apply st_call
    | apply st_get_config | apply st_get_state | apply st_get_sched
    | apply st_deref | apply st_assign | apply st_alloc
    | apply st_utcnow_isoformat | apply st_datetime_now
    | apply st_set_last_scan_time | apply st_set_next_scan_time
    | apply st_session_request
    | apply st_scanner_scan | apply st_get_session
    | apply st_when
    | apply st_bind; [|intros ?]
    | apply st_try_except; [|intros ?]
    | apply st_foreach; intros ? ?
    | match goal with
      | |- st (if ?b then _ else _) => destruct b
      | |- st (match ?x with _ => _ end) => destruct x
      end ].

Lemma st_make_request (method endpoint : string) (data : option json) :
  st (ApiClient._make_request method endpoint data).
Proof. unfold ApiClient._make_request. repeat st_step. Qed.

Lemma st_send_scan_data (r : nat) : st (ApiClient.send_scan_data r).
Proof.
  unfold ApiClient.send_scan_data.
  repeat first [apply st_make_request | st_step].
Qed.

Lemma st_check_tasks : st ApiClient.check_tasks.
Proof.
  unfold ApiClient.check_tasks.
  repeat first [apply st_make_request | st_step].
Qed.

Lemma st_perform_scan : st perform_scan.
Proof.
  unfold perform_scan, run_scanners, run_scanner, store_scanner_data.
  repeat first [apply st_send_scan_data | st_step].
Qed.

Lemma st_calculate_next_scan : st Scheduler._calculate_next_scan.
Proof. unfold Scheduler._calculate_next_scan. repeat st_step. Qed.

(** X23. The configuration changes in one place only. The requests of the
    client, a scan attempt, the single-shot mode and the scheduler's
    [should_scan], [mark_scan_completed], [force_next_scan] and
    [get_time_until_next_scan] leave the configuration as it is and write
    nothing to its file, whatever the environment does; [update_interval]
    changes the interval in memory and writes nothing either. What is left
    is [update_from_server]. *)
Theorem configuration_is_changed_by_update_from_server_only :
  forall (w : World),
    (forall method endpoint data,
       settled w (snd (ApiClient._make_request method endpoint data w))) /\
    settled w (snd (ApiClient.check_tasks w)) /\
    settled w (snd (ApiClient.register_machine w)) /\
    settled w (snd (ApiClient.test_connection w)) /\
    (forall r, settled w (snd (ApiClient.send_scan_data r w))) /\
    settled w (snd (perform_scan w)) /\
    settled w (snd (run_single_scan w)) /\
    settled w (snd (Scheduler.should_scan w)) /\
    settled w (snd (Scheduler.mark_scan_completed w)) /\
    settled w (snd (Scheduler.force_next_scan w)) /\
    settled w (snd (Scheduler.get_time_until_next_scan w)) /\
    (forall n,
       saves (w_trace (snd (Scheduler.update_interval n w)))
       = saves (w_trace w)).
Proof.
  intros w.
  split; [intros method endpoint data; apply st_make_request|].
  split; [apply st_check_tasks|].
  split.
  { revert w. change (st ApiClient.register_machine).
    unfold ApiClient.register_machine.
    repeat first [apply st_make_request | st_step]. }
  split.
  { revert w. change (st ApiClient.test_connection).
    unfold ApiClient.test_connection.
    repeat first [apply st_make_request | st_step]. }
  split; [intros r; apply st_send_scan_data|].
  split; [apply st_perform_scan|].
  split.
  { revert w. change (st run_single_scan). unfold run_single_scan.
    repeat first [apply st_perform_scan | st_step]. }
  split.
  { revert w. change (st Scheduler.should_scan). unfold Scheduler.should_scan.
    repeat st_step. }
  split.
  { revert w. change (st Scheduler.mark_scan_completed).
    unfold Scheduler.mark_scan_completed.
    repeat first [apply st_calculate_next_scan | st_step]. }
  split.
  { revert w. change (st Scheduler.force_next_scan).
    unfold Scheduler.force_next_scan. repeat st_step. }
  split.
  { revert w. change (st Scheduler.get_time_until_next_scan).
    unfold Scheduler.get_time_until_next_scan. repeat st_step. }
  intros n.
  unfold Scheduler.update_interval, Scheduler._calculate_next_scan, bind, ret,
    log, emit, modify, get_config, get_sched, datetime_now,
    set_next_scan_time, lift, timedelta_minutes.
  cbn.
  destruct (last_scan_time (w_sched w)); cbn; reflexivity.
Qed.

(** *** A forced scan that fails *)

(** X24. When the task check is answered by a dict that asks for a scan and a
    collection module raises an exception in that scan, [check_for_tasks]
    keeps the exception to itself: it returns normally with the error as
    the last entry of its log, nothing has been sent, the scheduler is as
    it was, and the configuration updates of the same answer, if it has
    any, are not applied. *)
Theorem failed_forced_scan_is_swallowed_with_the_config_updates :
  forall (w : World) (d : dict) (e : exn),
    ApiClient.request_result (ApiClient.next_outcome w) = JObj d ->
    truthy (dict_get d "should_scan" JNull) = true ->
    module_raises w e ->
    is_exception e = true ->
    exists w',
      check_for_tasks w = (Ret tt, w') /\
      settled w w' /\
      w_sched w' = w_sched w /\
      added w w' 0 0 /\
      w_https w' = S (w_https w) /\
      hd_error (w_trace w')
      = Some (EvLog ERROR (LCheckForTasksError (exn_msg e))).
Proof.
  intros w d e Hres Hforce Hraise Hexc.
  unfold check_for_tasks, try_except. unfold bind at 1.
  destruct (OrchestratorProps.check_tasks_run w)
    as (w1 & Hrun & Hk & Ha & Hsc & Hh).
  pose proof (st_check_tasks w) as Hst. rewrite Hrun in Hst. cbn in Hst.
  rewrite Hrun, Hres. clear Hrun. cbn.
  unfold lift, bind at 1. cbn. rewrite Hforce.
  unfold when, bind at 1, bind at 1, log at 1, emit at 1, modify at 1.
  cbn.
  match goal with
  | |- context [perform_scan ?W] =>
      assert (Hraise1 : module_raises W e);
      [ destruct Hk as (He & Hn & _);
        destruct Hraise as (j & Hj & Hbefore & Hj');
        exists j; unfold scan_outcome in *; cbn; rewrite He, Hn, Hsc;
        split; [exact Hj|split; [exact Hbefore|exact Hj']]
      | destruct (OrchestratorProps.perform_scan_module_raises W e
                    Hraise1 Hexc) as (w2 & Hp & Hk2 & Ha2 & Hh2);
        pose proof (st_perform_scan W) as Hst2;
        rewrite Hp in Hst2; cbn in Hst2; rewrite Hp ]
  end.
  cbn. rewrite Hexc. unfold log, emit, modify. cbn.
  eexists. split; [reflexivity|]. cbn.
  destruct Hk as (He & Hn & Hs & Hnw & Hsl).
  destruct Hk2 as (He2 & Hn2 & Hs2 & Hnw2 & Hsl2). cbn in *.
  split.
  { destruct Hst as [A B]. destruct Hst2 as [C D]. cbn in C, D.
    split; cbn; congruence. }
  split; [congruence|].
  split.
  { apply (OrchestratorProps.added_log _ _ 0 0 ERROR
             (LCheckForTasksError (exn_msg e))).
    eapply (OrchestratorProps.added_trans _ _ _ 0 0 0 0); [|exact Ha2].
    apply (OrchestratorProps.added_log _ _ 0 0 INFO LTaskRequested).
    exact Ha. }
  split; [congruence|reflexivity].
Qed.

(** An instance: the agent whose server asks for a scan and whose first
    module raises. *)
Lemma failed_forced_scan_witness :
  exists w',
    check_for_tasks Samples.agent_forced = (Ret tt, w') /\
    settled Samples.agent_forced w' /\
    w_sched w' = w_sched Samples.agent_forced /\
    added Samples.agent_forced w' 0 0 /\
    w_https w' = S (w_https Samples.agent_forced) /\
    hd_error (w_trace w')
    = Some (EvLog ERROR (LCheckForTasksError "WMI unavailable")).
Proof.
  apply (failed_forced_scan_is_swallowed_with_the_config_updates
           Samples.agent_forced
           [("success", JBool true); ("should_scan", JBool true)]
           (Exn OtherException "WMI unavailable")).
  - reflexivity.
  - reflexivity.
  - exists 0%nat. split; [cbn; lia|].
    split; [intros j Hj; lia|reflexivity].
  - reflexivity.
Defined.

End OrchestratorMore.

(** ** The threat analyzer, continued *)

Module ThreatAnalyzerMore.
Import ThreatAnalyzer Entries.

#[local] Arguments lower : simpl never.
#[local] Arguments contains : simpl never.
#[local] Arguments any_in : simpl never.
#[local] Arguments py_in_list : simpl never.
#[local] Arguments truthy : simpl never.
#[local] Arguments py_eq : simpl never.
#[local] Arguments dict_get : simpl never.
#[local] Arguments Z.ltb : simpl never.
#[local] Arguments Z.add : simpl never.
#[local] Arguments Z.of_nat : simpl never.
#[local] Arguments firstn : simpl never.
#[local] Arguments suspicious_ports : simpl never.
#[local] Arguments _analyze_open_ports : simpl never.
#[local] Arguments malicious_processes : simpl never.
#[local] Arguments dangerous_extensions : simpl never.

(** A loop each of whose passes appends records to the list it got appends
    the records of all passes, in order. *)
Lemma foreach_findings {Y} (f : Y -> json) (l : list Y)
    (body : list Threat -> json -> Eval (list Threat))
    (g : Y -> list Finding) :
  (forall y, In y l -> forall acc c,
     exists ts c', body acc (f y) c = (Ret (acc ++ ts)%list, c') /\
                   map unstamped ts = g y) ->
  forall acc c,
    exists ts c', foreach (map f l) acc body c = (Ret (acc ++ ts)%list, c') /\
                  map unstamped ts = flat_map g l.
Proof.
  induction l as [|y r IH]; intros H acc c; cbn [map foreach flat_map].
  - exists [], c. rewrite app_nil_r. split; reflexivity.
  - destruct (H y (or_introl eq_refl) acc c) as (ts & c1 & Hb & Hm).
    unfold bind. rewrite Hb.
    destruct (IH (fun x Hx => H x (or_intror Hx)) (acc ++ ts)%list c1)
      as (ts' & c2 & Hf & Hm').
    exists (ts ++ ts')%list, c2. rewrite Hf, app_assoc.
    split; [reflexivity|]. rewrite map_app, Hm, Hm'. reflexivity.
Qed.

(** The records of a type are counted on the unstamped records. *)
Lemma count_type_unstamped (ty : string) (ts : list Threat) :
  count_type ty ts
  = how_many (fun u => (finding_type u =? ty)%string) (map unstamped ts).
Proof.
  unfold count_type, how_many. induction ts as [|t r IH]; cbn.
  - reflexivity.
  - unfold finding_type at 1, unstamped at 1. cbn.
    destruct (threat_type t =? ty)%string; cbn; rewrite IH; reflexivity.
Qed.

(** Counting in the records of all entries, when an entry gives one record
    of the type if it passes the test and none if it does not. *)
Lemma how_many_flat_map {Y} (ty : string) (g : Y -> list Finding)
    (p : Y -> bool) (l : list Y) :
  (forall y, In y l ->
     how_many (fun u => (finding_type u =? ty)%string) (g y)
     = if p y then 1%nat else 0%nat) ->
  how_many (fun u => (finding_type u =? ty)%string) (flat_map g l)
  = how_many p l.
Proof.
  unfold how_many. induction l as [|y r IH]; intros H; cbn.
  - reflexivity.
  - rewrite filter_app, length_app, (H y (or_introl eq_refl)),
      (IH (fun x Hx => H x (or_intror Hx))).
    destruct (p y); reflexivity.
Qed.

Lemma length_flat_map {Y} (g : Y -> list Finding) (p : Y -> bool)
    (l : list Y) :
  (forall y, In y l -> List.length (g y) = if p y then 1%nat else 0%nat) ->
  List.length (flat_map g l) = how_many p l.
Proof.
  unfold how_many. induction l as [|y r IH]; intros H; cbn.
  - reflexivity.
  - rewrite length_app, (H y (or_introl eq_refl)),
      (IH (fun x Hx => H x (or_intror Hx))).
    destruct (p y); reflexivity.
Qed.

Lemma how_many_none {Y} (l : list Y) : how_many (fun _ => false) l = 0%nat.
Proof. unfold how_many. induction l; [reflexivity|exact IHl]. Qed.

Ltac run_rule :=
  unfold new_threat, datetime_utcnow, bind, lift, ret; cbn.

(** Closes the goal left by one pass of a loop: the records it appended. *)
Ltac appended :=
  first
    [ exists []; eexists; rewrite app_nil_r; split; reflexivity
    | rewrite <- ?app_assoc; do 2 eexists; split; reflexivity ].

(** *** The port rule *)

Lemma open_ports_findings (mid : string) (es : list dict) (c : Clock) :
  Forall (fun e => has_text e "process_name") es ->
  exists ts c',
    _analyze_open_ports mid (dicts es) c = (Ret ts, c') /\
    map unstamped ts = flat_map (port_findings mid) es.
Proof.
  intros Hes. unfold _analyze_open_ports, dicts.
  unfold bind at 1, lift at 1. cbn [py_iter].
  refine (foreach_findings JObj es _ (port_findings mid) _ [] c).
  intros e Hin acc c0.
  destruct (proj1 (Forall_forall _ _) Hes e Hin) as (s & Hs).
  unfold port_findings, text_of, suspicious_port. run_rule.
  rewrite Hs. cbn.
  destruct (py_in_list (dict_get e "port" JNull) suspicious_ports); cbn;
    destruct (any_in malicious_processes (lower s)); cbn.
all: appended.
Qed.

Lemma port_findings_count (es : list dict) (mid : string) :
  Forall (fun e => has_text e "process_name") es ->
  how_many (fun u => (finding_type u =? "PUERTO_SOSPECHOSO")%string)
    (flat_map (port_findings mid) es)
  = how_many suspicious_port es /\
  how_many (fun u => (finding_type u =? "PROCESO_MALICIOSO")%string)
    (flat_map (port_findings mid) es)
  = how_many (names_any malicious_processes "process_name") es.
Proof.
  intros Hes. split; apply how_many_flat_map; intros e Hin;
    destruct (proj1 (Forall_forall _ _) Hes e Hin) as (s & Hs);
    unfold port_findings, names_any, text_of, how_many; rewrite Hs;
    destruct (suspicious_port e);
    destruct (any_in malicious_processes (lower s)); reflexivity.
Qed.

(** X14. The port rule on any number of entries. When every entry of the open
    ports is a dict whose process name is a string (or is missing), the rule
    returns the records of the entries in their order: for an entry one
    record of a suspicious port when its port is in the list, followed by
    one of a malicious process when its lowercased process name contains one
    of the listed names, each with the entry as evidence. So the records of a
    suspicious port are as many as the entries with a listed port and those
    of a malicious process as many as the entries with a listed name, and
    the whole analysis has the same counts, unless one of the six other rules
    raises on its own section. *)
Theorem port_rule_counts_every_entry :
  forall (c : Clock) (mid : string) (d s : dict) (es : list dict),
    dict_get d "security_scan" (JObj []) = JObj s ->
    dict_get s "open_ports" (JArr []) = dicts es ->
    Forall (fun e => has_text e "process_name") es ->
    (exists ts c',
       _analyze_open_ports mid (dicts es) c = (Ret ts, c') /\
       map unstamped ts = flat_map (port_findings mid) es /\
       count_type "PUERTO_SOSPECHOSO" ts = how_many suspicious_port es /\
       count_type "PROCESO_MALICIOSO" ts
       = how_many (names_any malicious_processes "process_name") es) /\
    port_verdict mid (JObj d) (analyze c mid (JObj d))
      (how_many suspicious_port es)
      (how_many (names_any malicious_processes "process_name") es).
Proof.
  intros c mid d s es Hs Hp Hes.
  destruct (open_ports_findings mid es c Hes) as (ts & c' & Hr & Hm).
  destruct (port_findings_count es mid Hes) as [H1 H2].
  assert (Hc1 : count_type "PUERTO_SOSPECHOSO" ts
                = how_many suspicious_port es)
    by (rewrite count_type_unstamped, Hm; exact H1).
  assert (Hc2 : count_type "PROCESO_MALICIOSO" ts
                = how_many (names_any malicious_processes "process_name") es)
    by (rewrite count_type_unstamped, Hm; exact H2).
  split.
  - exists ts, c'. auto.
  - rewrite <- Hc1, <- Hc2.
    exact (ThreatAnalyzerProps.verdict_from_port_rule mid d s (dicts es)
             c c' ts Hs Hp Hr).
Qed.

(** An instance: three open ports, of which the second has a listed port
    and a listed process name and the third a listed port. *)
Lemma port_rule_witness :
  let es := [ [("port", JInt 80); ("process_name", JStr "nginx.exe")];
              [("port", JInt 4444); ("process_name", JStr "NetCat.exe")];
              [("port", JInt 31337)] ] in
  let s := [("open_ports", dicts es)] in
  let d := [("security_scan", JObj s)] in
  (exists ts c',
     _analyze_open_ports "machine-1" (dicts es) Samples.clock0
     = (Ret ts, c') /\
     map unstamped ts = flat_map (port_findings "machine-1") es /\
     count_type "PUERTO_SOSPECHOSO" ts = how_many suspicious_port es /\
     count_type "PROCESO_MALICIOSO" ts
     = how_many (names_any malicious_processes "process_name") es) /\
  port_verdict "machine-1" (JObj d)
    (analyze Samples.clock0 "machine-1" (JObj d))
    (how_many suspicious_port es)
    (how_many (names_any malicious_processes "process_name") es).
Proof.
  cbv zeta.
  apply (port_rule_counts_every_entry Samples.clock0 "machine-1"
           [("security_scan",
             JObj [("open_ports",
                    dicts [ [("port", JInt 80);
                             ("process_name", JStr "nginx.exe")];
                            [("port", JInt 4444);
                             ("process_name", JStr "NetCat.exe")];
                            [("port", JInt 31337)] ])])]
           [("open_ports",
             dicts [ [("port", JInt 80); ("process_name", JStr "nginx.exe")];
                     [("port", JInt 4444);
                      ("process_name", JStr "NetCat.exe")];
                     [("port", JInt 31337)] ])]).
  - reflexivity.
  - reflexivity.
  - repeat constructor; eexists; reflexivity.
Defined.

(** A loop that raises at an item, the passes before having returned. *)
Lemma foreach_raises {X A} (l1 l2 : list X) (x : X) (body : A -> X -> Eval A)
    (e : exn) :
  forall acc c acc1 c1 c2,
    foreach l1 acc body c = (Ret acc1, c1) ->
    body acc1 x c1 = (Raise e, c2) ->
    foreach (l1 ++ x :: l2) acc body c = (Raise e, c2).
Proof.
  induction l1 as [|y r IH]; intros acc c acc1 c1 c2 H1 Hx; cbn in *.
  - unfold ret in H1. injection H1 as <- <-. unfold bind. rewrite Hx.
    reflexivity.
  - unfold bind in *. destruct (body acc y c) as [[a|e'] c'].
    + exact (IH a c' acc1 c1 c2 H1 Hx).
    + discriminate H1.
Qed.

Lemma bind_lift_ret {A B} (a : A) (k : A -> Eval B) (c : Clock) :
  bind (lift (Ret a)) k c = k a c.
Proof. reflexivity. Qed.

Lemma open_ports_raises (mid : string) (before : list dict) (bad : dict)
    (rest : list json) (c : Clock) :
  Forall (fun e => has_text e "process_name") before ->
  text_of bad "process_name" = None ->
  exists c',
    _analyze_open_ports mid (JArr (map JObj before ++ JObj bad :: rest)) c
    = (Raise (Exn AttributeError "lower"), c').
Proof.
  intros Hbefore Hbad.
  destruct (open_ports_findings mid before c Hbefore) as (ts & c1 & Hr & _).
  revert Hr. unfold _analyze_open_ports, dicts. cbn [py_iter].
  rewrite !bind_lift_ret. intros Hr.
  exists c1. eapply foreach_raises; [exact Hr|].
  unfold text_of in Hbad. run_rule.
  destruct (dict_get bad "process_name" (JStr "")) as [|b|n|x|l|o];
    try discriminate Hbad; reflexivity.
Qed.

(** X15. A port entry whose process name is there and is no string (the null of
    a process that could not be named, say) makes the port rule raise
    AttributeError at that entry, and with it the whole analysis: the
    records of the entries before it are lost and no other rule is run,
    whatever the rest of the payload is. *)
Theorem port_entry_without_process_name_fails_the_analysis :
  forall (c : Clock) (mid : string) (d s : dict) (before : list dict)
         (bad : dict) (after : list json),
    dict_get d "security_scan" (JObj []) = JObj s ->
    dict_get s "open_ports" (JArr [])
    = JArr (map JObj before ++ JObj bad :: after) ->
    Forall (fun e => has_text e "process_name") before ->
    text_of bad "process_name" = None ->
    analyze c mid (JObj d) = Raise (Exn AttributeError "lower").
Proof.
  intros c mid d s before bad rest Hs Hp Hbefore Hbad.
  destruct (open_ports_raises mid before bad rest c Hbefore Hbad)
    as (c1 & Hr).
  unfold analyze. rewrite ThreatAnalyzerProps.analyze_split.
  unfold bind at 1. unfold section_get, bind at 1, lift. cbn.
  rewrite Hs. cbn. rewrite Hp.
  unfold bind at 1. rewrite Hr. reflexivity.
Qed.

(** An instance: the second of two open ports has a null process name. *)
Lemma port_entry_witness :
  analyze Samples.clock0 "machine-1"
    (JObj [("security_scan",
            JObj [("open_ports",
                   JArr [JObj [("port", JInt 4444);
                               ("process_name", JStr "nc.exe")];
                         JObj [("port", JInt 80);
                               ("process_name", JNull)]])])])
  = Raise (Exn AttributeError "lower").
Proof.
  apply (port_entry_without_process_name_fails_the_analysis
           Samples.clock0 "machine-1"
           [("security_scan",
             JObj [("open_ports",
                    JArr [JObj [("port", JInt 4444);
                                ("process_name", JStr "nc.exe")];
                          JObj [("port", JInt 80);
                                ("process_name", JNull)]])])]
           [("open_ports",
             JArr [JObj [("port", JInt 4444);
                         ("process_name", JStr "nc.exe")];
                   JObj [("port", JInt 80); ("process_name", JNull)]])]
           [[("port", JInt 4444); ("process_name", JStr "nc.exe")]]
           [("port", JInt 80); ("process_name", JNull)]
           []).
  - reflexivity.
  - reflexivity.
  - repeat constructor; eexists; reflexivity.
  - reflexivity.
Defined.

(** *** The account rule *)

(** The loop that counts the administrators. *)
Lemma admin_count_loop (users : list dict) :
  forall (n : Z) (c : Clock),
    foreach (map JObj users) n
      (fun n user =>
         is_admin <- lift (py_get user "is_admin" (JBool false)) ;;
         ret (if truthy is_admin then n + 1 else n)) c
    = (Ret (n + Z.of_nat (how_many is_admin users)), c).
Proof.
  unfold how_many.
  induction users as [|u r IH]; intros n c; cbn [map foreach filter].
  - unfold ret. cbn [List.length]. rewrite Z.add_0_r. reflexivity.
  - unfold bind at 1. unfold bind at 1, lift, ret. cbn [py_get].
    rewrite IH. unfold is_admin at 2.
    destruct (truthy (dict_get u "is_admin" (JBool false)));
      cbn [List.length]; do 2 f_equal; lia.
Qed.

Lemma password_loop (mid : string) (users : list dict) :
  forall (acc : list Threat) (c : Clock),
    exists ts c',
      foreach (map JObj users) acc
        (fun threats user =>
           required <- lift (py_get user "password_required" (JBool true)) ;;
           if negb (truthy required) then
             username <- lift (py_get user "username" JNull) ;;
             t <- new_threat mid "CUENTA_SIN_PASSWORD"
                    [FText ("Cuenta sin contrase" ++ String "241"%char "a: ");
                     FValue username]
                    user ;;
             ret (threats ++ [t])%list
           else ret threats) c
      = (Ret (acc ++ ts)%list, c') /\
      map unstamped ts = flat_map (password_findings mid) users.
Proof.
  apply foreach_findings. intros e _ acc c.
  unfold password_findings, no_password. run_rule.
  destruct (truthy (dict_get e "password_required" (JBool true))); cbn;
    appended.
Qed.

(** X16. The account rule on a list of dicts returns, first, one record of too
    many administrators when more than three accounts have a true
    [is_admin], that is from the fourth on, and then one record for every
    account whose [password_required] is there and false, in the order of
    the accounts. An account that lacks [is_admin] is no administrator and
    one that lacks [password_required] needs a password. *)
Theorem account_rule_counts_administrators_and_open_accounts :
  forall (c : Clock) (mid : string) (users : list dict),
    exists ts c',
      _analyze_user_accounts mid (dicts users) c = (Ret ts, c') /\
      map unstamped ts
      = (admin_findings mid users
         ++ flat_map (password_findings mid) users)%list /\
      count_type "EXCESO_ADMINISTRADORES" ts
      = (if 3 <? Z.of_nat (how_many is_admin users) then 1%nat else 0%nat) /\
      count_type "CUENTA_SIN_PASSWORD" ts = how_many no_password users.
Proof.
  intros c mid users.
  assert (Hrun : exists ts c',
            _analyze_user_accounts mid (dicts users) c = (Ret ts, c') /\
            map unstamped ts
            = (admin_findings mid users
               ++ flat_map (password_findings mid) users)%list).
  { unfold _analyze_user_accounts, dicts. cbn [py_iter].
    rewrite bind_lift_ret. unfold bind at 1. rewrite admin_count_loop.
    rewrite Z.add_0_l. unfold admin_findings.
    destruct (3 <? Z.of_nat (how_many is_admin users)).
    - unfold bind at 1. unfold new_threat at 1, datetime_utcnow, bind at 1,
        bind at 1, ret at 1, ret at 1.
      match goal with
      | |- context [foreach _ [?t] _ ?c1] =>
          destruct (password_loop mid users [t] c1) as (ts & c' & Hf & Hm)
      end.
      rewrite Hf. do 2 eexists. split; [reflexivity|].
      rewrite map_app, Hm. reflexivity.
    - unfold bind at 1, ret at 1.
      destruct (password_loop mid users [] c) as (ts & c' & Hf & Hm).
      rewrite Hf. do 2 eexists. split; [reflexivity|].
      cbn [app]. exact Hm. }
  destruct Hrun as (ts & c' & Hr & Hm). exists ts, c'.
  split; [exact Hr|]. split; [exact Hm|].
  rewrite !count_type_unstamped, Hm. unfold how_many at 1 3.
  rewrite !filter_app, !length_app.
  fold (how_many (fun u => (finding_type u =? "EXCESO_ADMINISTRADORES")%string)
          (flat_map (password_findings mid) users)).
  fold (how_many (fun u => (finding_type u =? "CUENTA_SIN_PASSWORD")%string)
          (flat_map (password_findings mid) users)).
  rewrite (how_many_flat_map "EXCESO_ADMINISTRADORES" (password_findings mid)
             (fun _ => false) users),
          (how_many_flat_map "CUENTA_SIN_PASSWORD" (password_findings mid)
             no_password users).
  - rewrite how_many_none. unfold admin_findings.
    destruct (3 <? Z.of_nat (how_many is_admin users)); split; reflexivity.
  - intros e _. unfold password_findings, how_many.
    destruct (no_password e); reflexivity.
  - intros e _. unfold password_findings, how_many.
    destruct (no_password e); reflexivity.
Qed.

(** *** The rule on security events *)

(** The loop that collects the failed logins. *)
Lemma failed_login_loop (events : list dict) :
  forall (acc : list json) (c : Clock),
    foreach (map JObj events) acc
      (fun acc event =>
         event_id <- lift (py_get event "event_id" JNull) ;;
         ret (if py_eq event_id (JInt 4625) then (acc ++ [event])%list
              else acc)) c
    = (Ret (acc ++ map JObj (filter failed_login events))%list, c).
Proof.
  induction events as [|e r IH]; intros acc c; cbn [map foreach filter].
  - unfold ret. rewrite app_nil_r. reflexivity.
  - unfold bind at 1. unfold bind at 1, lift, ret. cbn [py_get].
    rewrite IH. unfold failed_login at 2.
    destruct (py_eq (dict_get e "event_id" JNull) (JInt 4625)).
    + cbn [map]. rewrite <- app_assoc. reflexivity.
    + reflexivity.
Qed.

(** X17. The rule on security events, on a list of dicts, returns at most one
    record, whatever the number of events: none while at most ten events
    have the id 4625, and from the eleventh on one record that carries the
    number of those events and, as evidence, the first five of them. *)
Theorem login_rule_reports_once_above_ten_failures :
  forall (c : Clock) (mid : string) (events : list dict),
    exists ts c',
      _analyze_security_events mid (dicts events) c = (Ret ts, c') /\
      map unstamped ts = login_findings mid events /\
      (List.length ts <= 1)%nat /\
      (ts = [] <-> (how_many failed_login events <= 10)%nat).
Proof.
  intros c mid events.
  unfold _analyze_security_events, dicts. cbn [py_iter].
  rewrite bind_lift_ret. unfold bind at 1. rewrite failed_login_loop.
  cbv beta iota zeta. cbn [app]. rewrite length_map, firstn_map.
  unfold login_findings, how_many. cbv zeta.
  change (@List.length (list (string * json)))
    with (@List.length dict).
  destruct (10 <? Z.of_nat (List.length (filter failed_login events))) eqn:E.
  - run_rule. do 2 eexists. split; [reflexivity|]. cbn.
    split; [reflexivity|]. split; [lia|].
    apply Z.ltb_lt in E. split; [discriminate|lia].
  - unfold ret. do 2 eexists. split; [reflexivity|]. cbn.
    split; [reflexivity|]. split; [lia|].
    apply Z.ltb_ge in E. split; [lia|reflexivity].
Qed.

(** *** The rule on the hosts file *)

Lemma flat_map_singleton {X Y} (f : X -> Y) (l : list X) :
  flat_map (fun x => [f x]) l = map f l.
Proof. induction l as [|x r IH]; cbn; [|rewrite IH]; reflexivity. Qed.

(** X18. The rule on the hosts file returns one record for every item that
    iterating over [suspicious_entries] gives, in order, each with the whole
    hosts data as evidence: one for every entry of a list, and one for every
    character when the value is a string. *)
Theorem hosts_rule_reports_every_item :
  forall (c : Clock) (mid : string) (h : dict) (items : list json),
    py_iter (dict_get h "suspicious_entries" (JArr [])) = Ret items ->
    exists ts c',
      _analyze_hosts_file mid (JObj h) c = (Ret ts, c') /\
      map unstamped ts = map (hosts_finding mid (JObj h)) items /\
      reads c' = (reads c + List.length items)%nat.
Proof.
  intros c mid h items Hit.
  unfold _analyze_hosts_file. cbn [py_get]. rewrite bind_lift_ret, Hit.
  rewrite bind_lift_ret.
  assert (Hloop : forall acc c0,
            exists ts c',
              foreach items acc
                (fun threats entry =>
                   t <- new_threat mid "HOSTS_MODIFICADO"
                          [FText "Entrada sospechosa en archivo hosts: ";
                           FValue entry]
                          (JObj h) ;;
                   ret (threats ++ [t])%list) c0
              = (Ret (acc ++ ts)%list, c') /\
              map unstamped ts = map (hosts_finding mid (JObj h)) items /\
              reads c' = (reads c0 + List.length items)%nat).
  { clear Hit.
    induction items as [|x r IH]; intros acc c0; cbn [foreach map].
    - exists [], c0. rewrite app_nil_r. cbn. auto.
    - unfold new_threat, datetime_utcnow, bind, ret in IH |- *.
      cbn in IH |- *.
      match goal with
      | |- context [foreach r ?a _ ?c1] =>
          destruct (IH a c1) as (ts & c' & Hf & Hm & Hc)
      end.
      rewrite Hf, <- app_assoc. do 2 eexists. split; [reflexivity|].
      cbn. rewrite Hm, Hc. cbn. split; [reflexivity|lia]. }
  destruct (Hloop [] c) as (ts & c' & Hf & Hm & Hc).
  exists ts, c'. auto.
Qed.

(** An instance: two entries. *)
Lemma hosts_rule_witness :
  let h := [("suspicious_entries",
             JArr [JStr "10.0.0.5 update.example.com";
                   JStr "10.0.0.5 login.example.com"])] in
  exists ts c',
    _analyze_hosts_file "machine-1" (JObj h) Samples.clock0 = (Ret ts, c') /\
    map unstamped ts
    = map (hosts_finding "machine-1" (JObj h))
        [JStr "10.0.0.5 update.example.com";
         JStr "10.0.0.5 login.example.com"] /\
    reads c' = (reads Samples.clock0 + 2)%nat.
Proof.
  cbv zeta.
  apply (hosts_rule_reports_every_item Samples.clock0 "machine-1"
           [("suspicious_entries",
             JArr [JStr "10.0.0.5 update.example.com";
                   JStr "10.0.0.5 login.example.com"])]
           [JStr "10.0.0.5 update.example.com";
            JStr "10.0.0.5 login.example.com"]).
  reflexivity.
Defined.

(** *** The rules on recent files and on scheduled tasks *)

(** X19. The rule on recent files, on dicts whose name is a string (or is
    missing), returns one record for every file whose lowercased name
    contains one of the listed extensions, wherever in the name, in the order
    of the files, and no other record. *)
Theorem file_rule_reports_every_listed_extension :
  forall (c : Clock) (mid : string) (files : list dict),
    Forall (fun e => has_text e "name") files ->
    exists ts c',
      _analyze_recent_files mid (dicts files) c = (Ret ts, c') /\
      map unstamped ts = flat_map (file_findings mid) files /\
      List.length ts = how_many (names_any dangerous_extensions "name") files.
Proof.
  intros c mid files Hfiles.
  assert (Hrun : exists ts c',
            _analyze_recent_files mid (dicts files) c = (Ret ts, c') /\
            map unstamped ts = flat_map (file_findings mid) files).
  { unfold _analyze_recent_files, dicts. cbn [py_iter].
    rewrite bind_lift_ret.
    refine (foreach_findings JObj files _ (file_findings mid) _ [] c).
    intros e Hin acc c0.
    destruct (proj1 (Forall_forall _ _) Hfiles e Hin) as (s & Hs).
    unfold file_findings, text_of. run_rule. rewrite Hs. cbn.
    destruct (any_in dangerous_extensions (lower s)); cbn; appended. }
  destruct Hrun as (ts & c' & Hr & Hm). exists ts, c'.
  split; [exact Hr|]. split; [exact Hm|].
  rewrite <- (length_map unstamped ts), Hm.
  apply length_flat_map. intros e Hin.
  destruct (proj1 (Forall_forall _ _) Hfiles e Hin) as (s & Hs).
  unfold file_findings, names_any, text_of. rewrite Hs.
  destruct (any_in dangerous_extensions (lower s)); reflexivity.
Qed.

(** An instance: of three files the first has a double extension and the
    third an upper-case one. *)
Lemma file_rule_witness :
  let files := [ [("name", JStr "invoice.pdf.exe")];
                 [("name", JStr "notes.txt")];
                 [("name", JStr "SAVER.SCR")] ] in
  exists ts c',
    _analyze_recent_files "machine-1" (dicts files) Samples.clock0
    = (Ret ts, c') /\
    map unstamped ts = flat_map (file_findings "machine-1") files /\
    List.length ts = how_many (names_any dangerous_extensions "name") files.
Proof.
  cbv zeta.
  apply (file_rule_reports_every_listed_extension Samples.clock0 "machine-1"
           [ [("name", JStr "invoice.pdf.exe")];
             [("name", JStr "notes.txt")];
             [("name", JStr "SAVER.SCR")] ]).
  repeat constructor; eexists; reflexivity.
Defined.

(** X20. The rule on scheduled tasks, on dicts whose name and command are
    strings (or are missing), returns one record for every task whose
    lowercased command contains one of the listed names, in the order of the
    tasks; the name of a task plays no part in the test. A task after them
    whose name or command is no string makes the rule raise
    AttributeError, whatever its command and the tasks before it. *)
Theorem task_rule_tests_the_command_only :
  forall (c : Clock) (mid : string) (tasks : list dict),
    Forall (fun e => has_text e "name" /\ has_text e "command") tasks ->
    (exists ts c',
       _analyze_scheduled_tasks mid (dicts tasks) c = (Ret ts, c') /\
       map unstamped ts = flat_map (task_findings mid) tasks /\
       List.length ts
       = how_many (names_any malicious_processes "command") tasks) /\
    (forall e rest,
       text_of e "name" = None \/ text_of e "command" = None ->
       fst (_analyze_scheduled_tasks mid (dicts (tasks ++ e :: rest)) c)
       = Raise (Exn AttributeError "lower")).
Proof.
  intros c mid tasks Htasks.
  assert (Hrun : exists ts c',
            _analyze_scheduled_tasks mid (dicts tasks) c = (Ret ts, c') /\
            map unstamped ts = flat_map (task_findings mid) tasks).
  { unfold _analyze_scheduled_tasks, dicts. cbn [py_iter].
    rewrite bind_lift_ret.
    refine (foreach_findings JObj tasks _ (task_findings mid) _ [] c).
    intros e Hin acc c0.
    destruct (proj1 (Forall_forall _ _) Htasks e Hin)
      as ((s1 & Hs1) & (s2 & Hs2)).
    unfold task_findings, text_of. run_rule. rewrite Hs1, Hs2. cbn.
    destruct (any_in malicious_processes (lower s2)); cbn; appended. }
  destruct Hrun as (ts & c' & Hr & Hm). split.
  - exists ts, c'.
    split; [exact Hr|]. split; [exact Hm|].
    rewrite <- (length_map unstamped ts), Hm.
    apply length_flat_map. intros e Hin.
    destruct (proj1 (Forall_forall _ _) Htasks e Hin)
      as ((s1 & Hs1) & (s2 & Hs2)).
    unfold task_findings, names_any, text_of. rewrite Hs1, Hs2.
    destruct (any_in malicious_processes (lower s2)); reflexivity.
  - intros e rest Hbad. revert Hr.
    unfold _analyze_scheduled_tasks, dicts. cbn [py_iter].
    rewrite !bind_lift_ret, map_app. cbn [map]. intros Hr.
    erewrite foreach_raises; [reflexivity|exact Hr|].
    unfold text_of in Hbad. run_rule.
    destruct (dict_get e "name" (JStr "")) as [|b1|n1|x1|l1|o1];
      try reflexivity.
    destruct Hbad as [Hbad|Hbad]; [discriminate Hbad|]. cbn.
    destruct (dict_get e "command" (JStr "")) as [|b2|n2|x2|l2|o2];
      try reflexivity.
    discriminate Hbad.
Qed.

(** An instance: two tasks, of which the second runs a listed program. *)
Lemma task_rule_witness :
  let tasks := [ [("name", JStr "Backup"); ("command", JStr "robocopy.exe")];
                 [("name", JStr "Updater");
                  ("command", JStr "C:\Tools\PsExec.exe -s cmd")] ] in
  (exists ts c',
     _analyze_scheduled_tasks "machine-1" (dicts tasks) Samples.clock0
     = (Ret ts, c') /\
     map unstamped ts = flat_map (task_findings "machine-1") tasks /\
     List.length ts
     = how_many (names_any malicious_processes "command") tasks) /\
  (forall e rest,
     text_of e "name" = None \/ text_of e "command" = None ->
     fst (_analyze_scheduled_tasks "machine-1"
            (dicts (tasks ++ e :: rest)) Samples.clock0)
     = Raise (Exn AttributeError "lower")).
Proof.
  cbv zeta.
  apply (task_rule_tests_the_command_only Samples.clock0 "machine-1"
           [ [("name", JStr "Backup"); ("command", JStr "robocopy.exe")];
             [("name", JStr "Updater");
              ("command", JStr "C:\Tools\PsExec.exe -s cmd")] ]).
  repeat constructor; eexists; reflexivity.
Defined.

(** *** The rule on the PATH *)

(** X21. The rule on environment variables looks at PATH only. When PATH is a
    string (or is missing, which stands for the empty string) it returns one
    record for each of the four fragments that the lowercased PATH contains,
    in the order of the fragments, so at most four records, each with the
    PATH as it was sent as evidence. When PATH is there and is no string it
    raises AttributeError. *)
Theorem path_rule_reports_each_fragment_once :
  forall (c : Clock) (mid : string) (env : dict),
    (forall p, dict_get env "PATH" (JStr "") = JStr p ->
       exists ts c',
         _analyze_environment_variables mid (JObj env) c = (Ret ts, c') /\
         map unstamped ts
         = map (path_finding mid (JStr p))
             (filter (fun fragment => contains fragment (lower p))
                suspicious_paths) /\
         (List.length ts <= 4)%nat) /\
    (text_of env "PATH" = None ->
     fst (_analyze_environment_variables mid (JObj env) c)
     = Raise (Exn AttributeError "lower")).
Proof.
  intros c mid env. split.
  - intros p Hp. unfold _analyze_environment_variables. cbn [py_get].
    rewrite bind_lift_ret, Hp. unfold suspicious_paths, path_finding.
    cbn [foreach filter]. run_rule.
    destruct (contains "temp" (lower p));
      destruct (contains "tmp" (lower p));
      destruct (contains "appdata\local\temp" (lower p));
      destruct (contains "programdata" (lower p)); cbn;
      do 2 eexists; (split; [reflexivity|]); cbn;
      (split; [reflexivity|lia]).
  - intros Hbad. unfold _analyze_environment_variables. cbn [py_get].
    rewrite bind_lift_ret. unfold text_of in Hbad.
    unfold suspicious_paths. cbn [foreach]. run_rule.
    destruct (dict_get env "PATH" (JStr "")) as [|b|n|x|l|o];
      try discriminate Hbad; reflexivity.
Qed.

(** An instance: a PATH that holds a temporary directory of a user. *)
Lemma path_rule_witness :
  let p := "C:\Windows\system32;C:\Users\ana\AppData\Local\Temp\bin" in
  exists ts c',
    _analyze_environment_variables "machine-1" (JObj [("PATH", JStr p)])
      Samples.clock0 = (Ret ts, c') /\
    map unstamped ts
    = map (path_finding "machine-1" (JStr p))
        (filter (fun fragment => contains fragment (lower p))
           suspicious_paths) /\
    (List.length ts <= 4)%nat.
Proof.
  cbv zeta.
  apply (proj1 (path_rule_reports_each_fragment_once Samples.clock0
                  "machine-1"
                  [("PATH",
                    JStr "C:\Windows\system32;C:\Users\ana\AppData\Local\Temp\bin")])).
  reflexivity.
Defined.

(** *** Payloads without sections *)

(** X22. A payload that is a dict with none of the three sections the rules
    read gives no record and no reading of the clock, whatever else it
    holds; a payload that is no dict makes the analysis raise
    AttributeError. *)
Theorem payload_without_sections_has_no_threats :
  forall (c : Clock) (mid : string),
    (forall d,
       dict_find d "security_scan" = None ->
       dict_find d "activity_scan" = None ->
       dict_find d "system_health" = None ->
       analyze_scan_data mid (JObj d) c = (Ret [], c)) /\
    (forall p, (forall d, p <> JObj d) ->
       analyze c mid p = Raise (Exn AttributeError "get")).
Proof.
  intros c mid. split.
  - intros d H1 H2 H3.
    unfold analyze_scan_data, section_get, bind, lift, py_get, dict_get.
    rewrite H1, H2, H3. reflexivity.
  - intros p Hp. unfold analyze.
    destruct p as [|b|n|s|l|d]; try reflexivity.
    exfalso. exact (Hp d eq_refl).
Qed.

(** An instance: a payload that holds a time stamp only. *)
Lemma payload_without_sections_witness :
  analyze_scan_data "machine-1"
    (JObj [("timestamp", JStr "2025-06-01T10:00:00")]) Samples.clock0
  = (Ret [], Samples.clock0).
Proof.
  apply (proj1 (payload_without_sections_has_no_threats Samples.clock0
                  "machine-1")
           [("timestamp", JStr "2025-06-01T10:00:00")]);
    reflexivity.
Defined.

End ThreatAnalyzerMore.
